(** * The CV evaluation pipeline: response parsing, retry, scoring, ranking

    A shallow embedding of [core/openai_client.py], [core/ranking_engine.py],
    [prompts/base_prompts.py] and [config.py], and of the code around them:
    [core/cv_processor.py], [core/utils.py] and the validation of
    [ui/uploader.py].  The properties the specification states come first,
    then the properties of the processor, the utilities and the pipeline.

    Conventions of the embedding.
    - A Python [str] is a [string]: a sequence of code points below 256.
    - A Python [float] is a primitive binary64 [float]; an [int] is a [Z].
    - A computation that may raise returns a [result]; [try]/[except] is
      [try_except].
    - Library functions the code calls but does not define ([json.loads], the
      chat completion endpoint, [float.__pow__]) are variables of the section
      that uses them; [Json.loads] is a decoder to run the parser on concrete
      replies. *)

From Stdlib Require Import ZArith List String Ascii Bool Lia Permutation Sorted Floats.
From Stdlib Require Import DecimalString.
Import ListNotations.

Open Scope string_scope.
Open Scope list_scope.
Open Scope nat_scope.

Infix "+++" := String.append (right associativity, at level 60).

Set Warnings "-register-all,-inexact-float".

(** ** Python runtime fragment *)

Module Py.

(** *** Exceptions and results *)

Inductive exn : Type :=
| JSONDecodeError (msg : string)
| TypeError (msg : string)
| AttributeError (msg : string)
| KeyError (key : string)
| IndexError (msg : string)
| ValueError (msg : string)
| OverflowError (msg : string)
| RecursionError (msg : string)
| APIError (msg : string).

Inductive result (A : Type) : Type :=
| Ok (a : A)
| Raise (e : exn).

Arguments Ok {A} a.
Arguments Raise {A} e.

Definition bind {A B : Type} (c : result A) (k : A -> result B) : result B :=
  match c with
  | Ok a => k a
  | Raise e => Raise e
  end.

(** [try: body except Exception as e: handler e] *)
Definition try_except {A : Type} (body : result A) (handler : exn -> result A) : result A :=
  match body with
  | Ok a => Ok a
  | Raise e => handler e
  end.

(** *** Characters and strings *)

Definition dquote : ascii := ascii_of_nat 34.
Definition squote : ascii := ascii_of_nat 39.
Definition backslash : ascii := ascii_of_nat 92.
Definition newline : ascii := ascii_of_nat 10.

(** String constants of the source that contain a double quote are written
    with an apostrophe in its place and passed through [dq]. *)
Fixpoint dq (s : string) : string :=
  match s with
  | EmptyString => EmptyString
  | String c s' => String (if Ascii.eqb c squote then dquote else c) (dq s')
  end.

Fixpoint join_lines (ls : list string) : string :=
  match ls with
  | [] => EmptyString
  | [l] => l
  | l :: ls' => l +++ String newline (join_lines ls')
  end.

Fixpoint str_rev_append (acc s : string) : string :=
  match acc with
  | EmptyString => s
  | String c acc' => str_rev_append acc' (String c s)
  end.

Definition str_rev (s : string) : string := str_rev_append s EmptyString.

Fixpoint str_take (n : nat) (s : string) : string :=
  match n, s with
  | S n', String c s' => String c (str_take n' s')
  | _, _ => EmptyString
  end.

Fixpoint str_drop (n : nat) (s : string) : string :=
  match n, s with
  | S n', String _ s' => str_drop n' s'
  | _, _ => s
  end.

(** [sub in s] *)
Fixpoint str_contains (sub s : string) : bool :=
  if prefix sub s then true
  else match s with
       | EmptyString => false
       | String _ s' => str_contains sub s'
       end.

(** [s.find(sub)], [-1] when [sub] does not occur. *)
Fixpoint find_index (sub s : string) : option nat :=
  if prefix sub s then Some O
  else match s with
       | EmptyString => None
       | String _ s' => option_map S (find_index sub s')
       end.

Fixpoint rfind_index (sub s : string) : option nat :=
  match s with
  | EmptyString => if prefix sub s then Some O else None
  | String _ s' =>
      match rfind_index sub s' with
      | Some i => Some (S i)
      | None => if prefix sub s then Some O else None
      end
  end.

Definition index_or_minus_one (i : option nat) : Z :=
  match i with
  | Some n => Z.of_nat n
  | None => (-1)%Z
  end.

Definition str_find (s sub : string) : Z := index_or_minus_one (find_index sub s).
Definition str_rfind (s sub : string) : Z := index_or_minus_one (rfind_index sub s).

(** [s[start:stop]] for [0 <= start]. *)
Definition str_slice (s : string) (start stop : Z) : string :=
  str_take (Z.to_nat (stop - start)) (str_drop (Z.to_nat start) s).

(** [s.split(sep)] for a non-empty [sep]: cut at the occurrences of [sep]
    found left to right without overlap.  [skip] counts the characters of a
    separator still to be dropped, [cur] is the current piece, reversed. *)
Fixpoint split_scan (sep : string) (skip : nat) (cur : string) (s : string) : list string :=
  match s with
  | EmptyString => [str_rev cur]
  | String c s' =>
      match skip with
      | S k => split_scan sep k cur s'
      | O =>
          if prefix sep s
          then str_rev cur :: split_scan sep (String.length sep - 1) EmptyString s'
          else split_scan sep O (String c cur) s'
      end
  end.

Definition str_split (s sep : string) : list string := split_scan sep O EmptyString s.

(** [str.isspace] on code points below 256. *)
Definition is_space (c : ascii) : bool :=
  let n := nat_of_ascii c in
  ((9 <=? n) && (n <=? 13)) || ((28 <=? n) && (n <=? 32)) || (n =? 133) || (n =? 160).

Fixpoint lstrip (s : string) : string :=
  match s with
  | EmptyString => EmptyString
  | String c s' => if is_space c then lstrip s' else s
  end.

(** [s.strip()] *)
Definition str_strip (s : string) : string := str_rev (lstrip (str_rev (lstrip s))).

(** [\w] of the [re] module on code points below 256. *)
Definition is_word (c : ascii) : bool :=
  let n := nat_of_ascii c in
  ((48 <=? n) && (n <=? 57)) || ((65 <=? n) && (n <=? 90)) || (n =? 95)
  || ((97 <=? n) && (n <=? 122))
  || (n =? 170) || (n =? 178) || (n =? 179) || (n =? 181) || (n =? 185) || (n =? 186)
  || ((188 <=? n) && (n <=? 190)) || ((192 <=? n) && (n <=? 214))
  || ((216 <=? n) && (n <=? 246)) || ((248 <=? n) && (n <=? 255)).

(** [repr] of a [str]. *)
Definition hex_digit (n : nat) : ascii :=
  ascii_of_nat (if n <? 10 then 48 + n else 87 + n).

Definition repr_char (quote c : ascii) : string :=
  let n := nat_of_ascii c in
  if Ascii.eqb c quote || Ascii.eqb c backslash then String backslash (String c EmptyString)
  else if n =? 9 then String backslash "t"
  else if n =? 10 then String backslash "n"
  else if n =? 13 then String backslash "r"
  else if (n <? 32) || ((127 <=? n) && (n <=? 160)) || (n =? 173)
       then String backslash (String "x" (String (hex_digit (n / 16)) (String (hex_digit (n mod 16)) EmptyString)))
  else String c EmptyString.

Fixpoint repr_body (quote : ascii) (s : string) : string :=
  match s with
  | EmptyString => EmptyString
  | String c s' => repr_char quote c +++ repr_body quote s'
  end.

Definition str_repr (s : string) : string :=
  let quote :=
    if str_contains (String squote EmptyString) s && negb (str_contains (String dquote EmptyString) s)
    then dquote else squote in
  String quote (repr_body quote s +++ String quote EmptyString).

(** [str(e)] *)
Definition exn_str (e : exn) : string :=
  match e with
  | KeyError key => str_repr key
  | JSONDecodeError msg | TypeError msg | AttributeError msg | IndexError msg
  | ValueError msg | OverflowError msg | RecursionError msg | APIError msg => msg
  end.

(** *** Numbers *)

(** An [int] or a [float]. *)
Inductive number : Type :=
| Int (z : Z)
| Float (f : float).

Definition spec_of_Z (z : Z) : spec_float := binary_normalize prec emax z 0 false.

(** [float(z)]: the nearest binary64 value (ties to even); [OverflowError]
    when it is out of range. *)
Definition float_of_int (z : Z) : result float :=
  match spec_of_Z z with
  | S754_infinity _ => Raise (OverflowError "int too large to convert to float")
  | sf => Ok (SF2Prim sf)
  end.

(** The binary64 value nearest to [a / b] for [0 <= a] and [0 < b], with the
    sign [neg]: the quotient is taken with at least 64 significant bits and
    a sticky bit, then rounded once. *)
Definition round_ratio (neg : bool) (a b : Z) : spec_float :=
  if (a =? 0)%Z then S754_zero neg
  else
    let s := Z.max 0 (64 + Z.log2 b - Z.log2 a) in
    let n := (a * 2 ^ s)%Z in
    let q := (n / b)%Z in
    let sticky := if (n mod b =? 0)%Z then 0%Z else 1%Z in
    let m := (2 * q + sticky)%Z in
    binary_normalize prec emax (if neg then (- m)%Z else m) (- s - 1) neg.

(** [a / b] on two [int]s, [b > 0] (true division is correctly rounded). *)
Definition int_truediv (a b : Z) : result float :=
  match round_ratio (a <? 0)%Z (Z.abs a) b with
  | S754_infinity _ => Raise (OverflowError "integer division result too large for a float")
  | sf => Ok (SF2Prim sf)
  end.

(** [z < f], [z == f], [z > f] compare the exact values. *)
Definition int_float_compare (z : Z) (f : float) : option comparison :=
  match Prim2SF f with
  | S754_nan => None
  | S754_infinity s => Some (if s then Gt else Lt)
  | S754_zero _ => Some (z ?= 0)%Z
  | S754_finite s m e =>
      let v := if s then Zneg m else Zpos m in
      Some (if (0 <=? e)%Z then (z ?= v * 2 ^ e)%Z else (z * 2 ^ (- e) ?= v)%Z)
  end.

(** [a < b] *)
Definition num_ltb (a b : number) : bool :=
  match a, b with
  | Int x, Int y => (x <? y)%Z
  | Float x, Float y => PrimFloat.ltb x y
  | Int x, Float y => match int_float_compare x y with Some Lt => true | _ => false end
  | Float x, Int y => match int_float_compare y x with Some Gt => true | _ => false end
  end.

(** [a == b] *)
Definition num_eqb (a b : number) : bool :=
  match a, b with
  | Int x, Int y => (x =? y)%Z
  | Float x, Float y => PrimFloat.eqb x y
  | Int x, Float y => match int_float_compare x y with Some Eq => true | _ => false end
  | Float x, Int y => match int_float_compare y x with Some Eq => true | _ => false end
  end.

(** [a >= b] *)
Definition num_geb (a b : number) : bool := num_ltb b a || num_eqb a b.

Definition is_nan (a : number) : bool :=
  match a with
  | Int _ => false
  | Float f => negb (PrimFloat.eqb f f)
  end.

(** [a + b] *)
Definition num_add (a b : number) : result number :=
  match a, b with
  | Int x, Int y => Ok (Int (x + y))
  | Float x, Float y => Ok (Float (x + y)%float)
  | Int x, Float y => bind (float_of_int x) (fun fx => Ok (Float (fx + y)%float))
  | Float x, Int y => bind (float_of_int y) (fun fy => Ok (Float (x + fy)%float))
  end.

(** [a / n] for an [int] [n > 0]. *)
Definition num_truediv (a : number) (n : Z) : result number :=
  match a with
  | Int x => bind (int_truediv x n) (fun q => Ok (Float q))
  | Float x => bind (float_of_int n) (fun fn => Ok (Float (x / fn)%float))
  end.

(** *** Values *)

Inductive pyval : Type :=
| PyNone
| PyBool (b : bool)
| PyInt (z : Z)
| PyFloat (f : float)
| PyStr (s : string)
| PyList (items : list pyval)
| PyDict (entries : list (string * pyval)).

Definition dict : Type := list (string * pyval).

Fixpoint dict_lookup (d : dict) (key : string) : option pyval :=
  match d with
  | [] => None
  | (k, v) :: d' => if String.eqb k key then Some v else dict_lookup d' key
  end.

Definition dict_has (d : dict) (key : string) : bool :=
  match dict_lookup d key with
  | Some _ => true
  | None => false
  end.

(** [d[key] = v]: an existing key keeps its place. *)
Fixpoint dict_set (d : dict) (key : string) (v : pyval) : dict :=
  match d with
  | [] => [(key, v)]
  | (k, v') :: d' => if String.eqb k key then (k, v) :: d' else (k, v') :: dict_set d' key v
  end.

(** [del d[key]] for a key of [d]. *)
Fixpoint dict_del (d : dict) (key : string) : dict :=
  match d with
  | [] => []
  | (k, v) :: d' => if String.eqb k key then d' else (k, v) :: dict_del d' key
  end.

Definition type_name (v : pyval) : string :=
  match v with
  | PyNone => "NoneType"
  | PyBool _ => "bool"
  | PyInt _ => "int"
  | PyFloat _ => "float"
  | PyStr _ => "str"
  | PyList _ => "list"
  | PyDict _ => "dict"
  end.

Definition is_str (key : string) (v : pyval) : bool :=
  match v with
  | PyStr s => String.eqb s key
  | _ => false
  end.

(** [key in v] for a [str] key: a key of a dict, an item of a list, a
    substring of a string; the other types are not iterable. *)
Definition py_in (key : string) (v : pyval) : result bool :=
  match v with
  | PyDict d => Ok (dict_has d key)
  | PyList items => Ok (existsb (is_str key) items)
  | PyStr s => Ok (str_contains key s)
  | _ => Raise (TypeError ("argument of type '" +++ type_name v +++ "' is not iterable"))
  end.

(** [v.get(key, default)] *)
Definition py_get (v : pyval) (key : string) (default : pyval) : result pyval :=
  match v with
  | PyDict d =>
      Ok match dict_lookup d key with
         | Some x => x
         | None => default
         end
  | _ => Raise (AttributeError ("'" +++ type_name v +++ "' object has no attribute 'get'"))
  end.

(** [v * w] for a [float] [w]. *)
Definition py_mul_float (v : pyval) (w : float) : result float :=
  match v with
  | PyInt z => bind (float_of_int z) (fun f => Ok (f * w)%float)
  | PyBool b => Ok ((if b then 1 else 0) * w)%float
  | PyFloat f => Ok (f * w)%float
  | PyStr _ | PyList _ => Raise (TypeError "can't multiply sequence by non-int of type 'float'")
  | PyNone | PyDict _ =>
      Raise (TypeError ("unsupported operand type(s) for *: '" +++ type_name v +++ "' and 'float'"))
  end.

(** [v[key]] for a [str] key. *)
Definition py_getitem (v : pyval) (key : string) : result pyval :=
  match v with
  | PyDict d =>
      match dict_lookup d key with
      | Some x => Ok x
      | None => Raise (KeyError key)
      end
  | PyList _ => Raise (TypeError "list indices must be integers or slices, not str")
  | PyStr _ => Raise (TypeError "string indices must be integers, not 'str'")
  | _ => Raise (TypeError ("'" +++ type_name v +++ "' object is not subscriptable"))
  end.

(** [v.copy()] *)
Definition py_copy (v : pyval) : result pyval :=
  match v with
  | PyDict _ | PyList _ => Ok v
  | _ => Raise (AttributeError ("'" +++ type_name v +++ "' object has no attribute 'copy'"))
  end.

(** [del v[key]] for a [str] key. *)
Definition py_delitem (v : pyval) (key : string) : result pyval :=
  match v with
  | PyDict d => if dict_has d key then Ok (PyDict (dict_del d key)) else Raise (KeyError key)
  | PyList _ => Raise (TypeError "list indices must be integers or slices, not str")
  | _ => Raise (TypeError ("'" +++ type_name v +++ "' object does not support item deletion"))
  end.

End Py.

(** ** The two regular expressions of the parser *)

Module Re.
Import Py.

(** [re.findall(r'({[\s\S]*})', s)].  The leftmost match starts at the first
    opening brace that has a closing brace after it; the star is greedy, so
    the match runs to the last closing brace of [s]; the search resumes
    after it, where no closing brace remains.  Hence at most one match: the
    text from the first opening brace to the last closing brace. *)
Definition findall_braces (s : string) : list string :=
  match find_index "{" s with
  | None => []
  | Some i =>
      let tail := str_drop i s in
      match rfind_index "}" tail with
      | Some j => [str_take (S j) tail]
      | None => []
      end
  end.

Fixpoint word_run (s : string) : nat :=
  match s with
  | EmptyString => 0
  | String c s' => if is_word c then S (word_run s') else 0
  end.

(** The number of characters the optional group [(?:\w*\n)?] takes at the
    head of [s]: a maximal run of word characters and the newline after it,
    or nothing when no newline follows the run. *)
Definition label_length (s : string) : nat :=
  let n := word_run s in
  match str_drop n s with
  | String c _ => if Ascii.eqb c newline then S n else 0
  | EmptyString => 0
  end.

(** [re.findall(r'```(?:\w*\n)?([\s\S]*?)```', s)], as a scan of [s].
    [cur] is [None] outside a block and the reversed body inside one; [skip]
    counts the characters of a fence or label still to be passed.  An
    opening fence with no closing fence after it yields nothing: neither it
    nor a later fence can start a match, and the group's characters hold no
    fence, so giving the group back finds no match either. *)
Fixpoint blocks_scan (skip : nat) (cur : option string) (s : string) : list string :=
  match s with
  | EmptyString => []
  | String c s' =>
      match skip with
      | S k => blocks_scan k cur s'
      | O =>
          if prefix "```" s
          then match cur with
               | None => blocks_scan (2 + label_length (str_drop 3 s)) (Some EmptyString) s'
               | Some body => str_rev body :: blocks_scan 2 None s'
               end
          else match cur with
               | None => blocks_scan 0 None s'
               | Some body => blocks_scan 0 (Some (String c body)) s'
               end
      end
  end.

Definition findall_code_blocks (s : string) : list string := blocks_scan 0 None s.

End Re.

(** ** A JSON decoder

    [Json.loads] follows [json.loads] with its default arguments: JSON
    whitespace, objects (a repeated key keeps its first place and its last
    value), arrays, strings with their escapes, [int] and [float] numbers,
    [true], [false], [null], and the [NaN], [Infinity] and [-Infinity]
    literals Python accepts.  A [JSONDecodeError] carries the kind of the
    error without its position.  A [\u] escape above [00FF] has no
    counterpart in [string] and is reported as a [ValueError]. *)

Module Json.
Import Py.

Definition is_ws (c : ascii) : bool :=
  let n := nat_of_ascii c in
  (n =? 32) || (n =? 9) || (n =? 10) || (n =? 13).

Fixpoint skip_ws (s : string) : string :=
  match s with
  | EmptyString => EmptyString
  | String c s' => if is_ws c then skip_ws s' else s
  end.

Definition is_digit (c : ascii) : bool :=
  let n := nat_of_ascii c in (48 <=? n) && (n <=? 57).

Definition digit_value (c : ascii) : Z := Z.of_nat (nat_of_ascii c - 48).

(** The digits at the head of [s]: their count, their value, and the rest. *)
Fixpoint scan_digits (count : nat) (acc : Z) (s : string) : nat * Z * string :=
  match s with
  | EmptyString => (count, acc, s)
  | String c s' =>
      if is_digit c then scan_digits (S count) (10 * acc + digit_value c)%Z s'
      else (count, acc, s)
  end.

Definition hex_value (c : ascii) : option nat :=
  let n := nat_of_ascii c in
  if (48 <=? n) && (n <=? 57) then Some (n - 48)
  else if (65 <=? n) && (n <=? 70) then Some (n - 55)
  else if (97 <=? n) && (n <=? 102) then Some (n - 87)
  else None.

Definition scan_hex4 (s : string) : option (nat * string) :=
  match s with
  | String a (String b (String c (String d rest))) =>
      match hex_value a, hex_value b, hex_value c, hex_value d with
      | Some x, Some y, Some z, Some w => Some (((x * 16 + y) * 16 + z) * 16 + w, rest)
      | _, _, _, _ => None
      end
  | _ => None
  end.

(** The body of a string literal, after its opening quote; [acc] is the
    decoded text, reversed. *)
Fixpoint scan_string (acc : string) (s : string) : result (string * string) :=
  match s with
  | EmptyString => Raise (JSONDecodeError "Unterminated string starting at")
  | String c s' =>
      if Ascii.eqb c dquote then Ok (str_rev acc, s')
      else if nat_of_ascii c <? 32 then Raise (JSONDecodeError "Invalid control character at")
      else if Ascii.eqb c backslash then
        match s' with
        | EmptyString => Raise (JSONDecodeError "Unterminated string starting at")
        | String e s'' =>
            let simple (d : ascii) := scan_string (String d acc) s'' in
            if Ascii.eqb e dquote then simple dquote
            else if Ascii.eqb e backslash then simple backslash
            else if Ascii.eqb e "/" then simple "/"%char
            else if Ascii.eqb e "b" then simple (ascii_of_nat 8)
            else if Ascii.eqb e "f" then simple (ascii_of_nat 12)
            else if Ascii.eqb e "n" then simple newline
            else if Ascii.eqb e "r" then simple (ascii_of_nat 13)
            else if Ascii.eqb e "t" then simple (ascii_of_nat 9)
            else if Ascii.eqb e "u" then
              match scan_hex4 s'' with
              | Some (n, _) =>
                  if n <? 256
                  then scan_string (String (ascii_of_nat n) acc) (str_drop 4 s'')
                  else Raise (ValueError "code point above U+00FF")
              | None => Raise (JSONDecodeError "Invalid \uXXXX escape")
              end
            else Raise (JSONDecodeError "Invalid \escape")
        end
      else scan_string (String c acc) s'
  end.

(** [float(text)] for the decimal [m * 10 ^ e10] with sign [neg]. *)
Definition decimal_to_float (neg : bool) (m e10 : Z) : float :=
  SF2Prim (if (0 <=? e10)%Z then round_ratio neg (m * 10 ^ e10) 1
           else round_ratio neg m (10 ^ (- e10))).

(** A number at the head of [s], as the decoder's pattern takes it: an
    optional minus sign, then [0] or a digit run that does not start with
    [0], then an optional fraction (a dot and digits), then an optional
    exponent ([e] or [E], an optional sign, digits).  It is an [int] when it
    has neither fraction nor exponent and a [float] otherwise. *)
Definition scan_number (s : string) : option (pyval * string) :=
  let '(neg, s1) :=
    match s with
    | String "-" r => (true, r)
    | _ => (false, s)
    end in
  match s1 with
  | EmptyString => None
  | String c r =>
      if is_digit c then
        let '(_, vi, r1) := if Ascii.eqb c "0" then (1, 0%Z, r) else scan_digits 0 0%Z s1 in
        let '(nf, m, r2) :=
          match r1 with
          | String "." r' =>
              match scan_digits 0 vi r' with
              | (O, _, _) => (O, vi, r1)
              | found => found
              end
          | _ => (O, vi, r1)
          end in
        let '(has_exp, ex, r3) :=
          match r2 with
          | String e r' =>
              if Ascii.eqb e "e" || Ascii.eqb e "E" then
                let '(minus, r'') :=
                  match r' with
                  | String "-" t => (true, t)
                  | String "+" t => (false, t)
                  | _ => (false, r')
                  end in
                match scan_digits 0 0%Z r'' with
                | (O, _, _) => (false, 0%Z, r2)
                | (_, v, t) => (true, if minus then (- v)%Z else v, t)
                end
              else (false, 0%Z, r2)
          | EmptyString => (false, 0%Z, r2)
          end in
        if (nf =? 0) && negb has_exp
        then Some (PyInt (if neg then (- vi)%Z else vi), r3)
        else Some (PyFloat (decimal_to_float neg m (ex - Z.of_nat nf)), r3)
      else None
  end.

Definition expecting_value {A : Type} : result A := Raise (JSONDecodeError "Expecting value").

(** One value at the head of [s] and the text after it.  [scan_members] and
    [scan_items] read what follows the first key of an object and the first
    item of an array.  [fuel] bounds the calls; [loads] gives enough. *)
Fixpoint scan_value (fuel : nat) (s : string) : result (pyval * string) :=
  match fuel with
  | O => Raise (RecursionError "maximum recursion depth exceeded")
  | S fuel' =>
      match s with
      | EmptyString => expecting_value
      | String c rest =>
          if Ascii.eqb c dquote then
            bind (scan_string EmptyString rest) (fun '(text, rest') => Ok (PyStr text, rest'))
          else if Ascii.eqb c "{" then
            match skip_ws rest with
            | String "}" rest' => Ok (PyDict [], rest')
            | body => scan_members fuel' [] body
            end
          else if Ascii.eqb c "[" then
            match skip_ws rest with
            | String "]" rest' => Ok (PyList [], rest')
            | body => scan_items fuel' [] body
            end
          else if prefix "null" s then Ok (PyNone, str_drop 4 s)
          else if prefix "true" s then Ok (PyBool true, str_drop 4 s)
          else if prefix "false" s then Ok (PyBool false, str_drop 5 s)
          else
            match scan_number s with
            | Some found => Ok found
            | None =>
                if prefix "NaN" s then Ok (PyFloat nan, str_drop 3 s)
                else if prefix "Infinity" s then Ok (PyFloat infinity, str_drop 8 s)
                else if prefix "-Infinity" s then Ok (PyFloat neg_infinity, str_drop 9 s)
                else expecting_value
            end
      end
  end
with scan_members (fuel : nat) (acc : dict) (s : string) : result (pyval * string) :=
  match fuel with
  | O => Raise (RecursionError "maximum recursion depth exceeded")
  | S fuel' =>
      match s with
      | String c rest =>
          if Ascii.eqb c dquote then
            bind (scan_string EmptyString rest) (fun '(key, after_key) =>
            match skip_ws after_key with
            | String ":" after_colon =>
                bind (scan_value fuel' (skip_ws after_colon)) (fun '(v, after_value) =>
                let acc' := dict_set acc key v in
                match skip_ws after_value with
                | String "}" rest' => Ok (PyDict acc', rest')
                | String "," rest' => scan_members fuel' acc' (skip_ws rest')
                | _ => Raise (JSONDecodeError "Expecting ',' delimiter")
                end)
            | _ => Raise (JSONDecodeError "Expecting ':' delimiter")
            end)
          else Raise (JSONDecodeError "Expecting property name enclosed in double quotes")
      | EmptyString => Raise (JSONDecodeError "Expecting property name enclosed in double quotes")
      end
  end
with scan_items (fuel : nat) (acc : list pyval) (s : string) : result (pyval * string) :=
  match fuel with
  | O => Raise (RecursionError "maximum recursion depth exceeded")
  | S fuel' =>
      bind (scan_value fuel' s) (fun '(v, after_value) =>
      let acc' := acc ++ [v] in
      match skip_ws after_value with
      | String "]" rest' => Ok (PyList acc', rest')
      | String "," rest' => scan_items fuel' acc' (skip_ws rest')
      | _ => Raise (JSONDecodeError "Expecting ',' delimiter")
      end)
  end.

(** [json.loads(s)] *)
Definition loads (s : string) : result pyval :=
  bind (scan_value (2 * String.length s + 2) (skip_ws s)) (fun '(v, rest) =>
  match skip_ws rest with
  | EmptyString => Ok v
  | _ => Raise (JSONDecodeError "Extra data")
  end).

End Json.

(** ** [core/openai_client.py] *)

Module Client.
Import Py.

(** The dictionary [generate_evaluation] returns and [parse_json_response]
    reads, by its keys; [None] is an absent key. *)
Record response : Type := mk_response {
  resp_error : option string;
  resp_content : option string;
  resp_usage : option pyval
}.

Definition error_response (msg : string) : response :=
  {| resp_error := Some msg; resp_content := None; resp_usage := None |}.

Definition content_response (content : string) (usage : pyval) : response :=
  {| resp_error := None; resp_content := Some content; resp_usage := Some usage |}.

(** [response.get("content", "")] *)
Definition content_of (response : response) : string :=
  match resp_content response with
  | Some c => c
  | None => EmptyString
  end.

(** What the code reads of a chat completion: the content of each choice's
    message ([None] when the message has none) and the usage record ([None]
    when the service reports none). *)
Record completion : Type := mk_completion {
  choices : list (option string);
  usage : option pyval
}.

Inductive api_outcome : Type :=
| ApiRaises (e : exn)
| ApiReturns (c : completion).

(** The observable effects of a run: the requests sent to the endpoint and
    the time slept, oldest first. *)
Record world : Type := mk_world {
  requests : list (string * string);
  sleeps : list float
}.

Definition initial_world : world := {| requests := []; sleeps := [] |}.

Definition log_request (system_prompt user_prompt : string) (w : world) : world :=
  {| requests := requests w ++ [(system_prompt, user_prompt)]; sleeps := sleeps w |}.

Definition log_sleep (seconds : float) (w : world) : world :=
  {| requests := requests w; sleeps := sleeps w ++ [seconds] |}.

(** A computation that reads and extends the world and may raise. *)
Definition M (A : Type) : Type := world -> result A * world.

Definition ret {A : Type} (a : A) : M A := fun w => (Ok a, w).

Definition throw {A : Type} (e : exn) : M A := fun w => (Raise e, w).

Definition lift {A : Type} (c : result A) : M A := fun w => (c, w).

Definition mbind {A B : Type} (c : M A) (k : A -> M B) : M B :=
  fun w =>
    match c w with
    | (Ok a, w') => k a w'
    | (Raise e, w') => (Raise e, w')
    end.

Definition mtry {A : Type} (body : M A) (handler : exn -> M A) : M A :=
  fun w =>
    match body w with
    | (Ok a, w') => (Ok a, w')
    | (Raise e, w') => handler e w'
    end.

Notation "x <- c ;; k" := (mbind c (fun x => k))
  (at level 61, c at next level, right associativity).

(** [time.sleep(seconds)] *)
Definition time_sleep (seconds : float) : M unit :=
  fun w =>
    if PrimFloat.ltb seconds 0 then (Raise (ValueError "sleep length must be non-negative"), w)
    else if negb (PrimFloat.eqb seconds seconds)
         then (Raise (ValueError "Invalid value NaN (not a number)"), w)
    else (Ok tt, log_sleep seconds w).

Section Endpoint.

(** [openai.chat.completions.create]: the outcome of the request, given how
    many requests went before it and the two prompts (the model and the
    sampling parameters are fixed for a run). *)
Variable create : nat -> string -> string -> api_outcome.

(** [generate_evaluation]: one request; every exception of the body is
    turned into an error response. *)
Definition generate_evaluation (system_prompt user_prompt : string) : M response :=
  fun w =>
    (try_except
       match create (List.length (requests w)) system_prompt user_prompt with
       | ApiRaises e => Raise e
       | ApiReturns c =>
           match choices c with
           | [] => Raise (IndexError "list index out of range")
           | None :: _ => Raise (TypeError "'NoneType' object is not subscriptable")
           | Some content :: _ =>
               match usage c with
               | None => Raise (AttributeError "'NoneType' object has no attribute 'to_dict'")
               | Some u => Ok (content_response content u)
               end
           end
       end
       (fun e => Ok (error_response (exn_str e))),
     log_request system_prompt user_prompt w).

End Endpoint.

Section Retry.

(** The method [process_with_retry] calls on [self]. *)
Variable generate : string -> string -> M response.

(** [backoff_factor ** retry] *)
Variable float_pow : float -> Z -> result float.

(** The [while] loop of [process_with_retry] from the counter value
    [retry]; [None] is falling off the end of the function.  [fuel] bounds
    the iterations; an exhausted bound with the loop condition still true
    is reported as a [RecursionError], which [retry_loop_fuel] excludes. *)
Fixpoint retry_loop (fuel : nat) (system_prompt user_prompt : string)
    (max_retries : Z) (backoff_factor : float) (retry : Z) : M (option response) :=
  if (retry <? max_retries)%Z then
    match fuel with
    | O => throw (RecursionError "retry_loop: out of fuel")
    | S fuel' =>
        mtry (r <- generate system_prompt user_prompt ;; ret (Some r))
             (fun e =>
                let retry := (retry + 1)%Z in
                if (retry >=? max_retries)%Z
                then ret (Some (error_response (exn_str e)))
                else
                  sleep_time <- lift (float_pow backoff_factor retry) ;;
                  _ <- time_sleep sleep_time ;;
                  retry_loop fuel' system_prompt user_prompt max_retries backoff_factor retry)
    end
  else ret None.

(** [process_with_retry] *)
Definition process_with_retry (system_prompt user_prompt : string)
    (max_retries : Z) (backoff_factor : float) : M (option response) :=
  retry_loop (Z.to_nat max_retries) system_prompt user_prompt max_retries backoff_factor 0%Z.

End Retry.

Section Parser.

(** [json.loads] *)
Variable json_loads : string -> result pyval.

(** ["skills" in result and "experience" in result and "education" in result] *)
Definition has_category_keys (v : pyval) : result bool :=
  bind (py_in "skills" v) (fun skills =>
  if skills then
    bind (py_in "experience" v) (fun experience =>
    if experience then py_in "education" v else Ok false)
  else Ok false).

(** The loop over [matches]: the first match that decodes to a value with
    the three keys; a match that fails to decode, or whose key test raises,
    is passed over ([except: continue]). *)
Fixpoint first_structured (matches : list string) : option pyval :=
  match matches with
  | [] => None
  | m :: rest =>
      match bind (json_loads m) (fun result =>
            bind (has_category_keys result) (fun ok =>
            Ok (if ok then Some result else None))) with
      | Ok (Some result) => Some result
      | Ok None | Raise _ => first_structured rest
      end
  end.

(** The loop over [code_blocks]: the first block that decodes. *)
Fixpoint first_decoded (blocks : list string) : option pyval :=
  match blocks with
  | [] => None
  | block :: rest =>
      match json_loads (str_strip block) with
      | Ok result => Some result
      | Raise _ => first_decoded rest
      end
  end.

(** [l[i]] *)
Definition list_item (l : list string) (i : nat) : result string :=
  match nth_error l i with
  | Some x => Ok x
  | None => Raise (IndexError "list index out of range")
  end.

(** [content.split("```json")[1].split("```")[0].strip()] *)
Definition labeled_block (content : string) : result string :=
  bind (list_item (str_split content "```json") 1) (fun after =>
  bind (list_item (str_split after "```") 0) (fun block =>
  Ok (str_strip block))).

Definition category_fallback (reasoning : string) : pyval :=
  PyDict [("score", PyInt 0); ("reasoning", PyStr reasoning);
          ("strengths", PyList []); ("gaps", PyList [])].

Definition fallback_record (error reasoning : string) : pyval :=
  PyDict [("error", PyStr error);
          ("skills", category_fallback reasoning);
          ("experience", category_fallback reasoning);
          ("education", category_fallback reasoning);
          ("overall", PyDict [("score", PyInt 0); ("reasoning", PyStr reasoning)])].

(** The record returned when nothing could be parsed (lines 140-146). *)
Definition parse_failure (content : string) : pyval :=
  fallback_record
    ("Could not parse JSON from response. Raw response: " +++ str_take 500 content +++ "...")
    "Error parsing response".

(** The record returned by the outer handler (lines 154-160). *)
Definition exception_fallback (e : exn) : pyval :=
  fallback_record ("JSON parsing error: " +++ exn_str e) ("Error: " +++ exn_str e).

(** The last two attempts (lines 123-136): the whole content, then the text
    from the first opening brace to the last closing brace. *)
Definition last_resort (content : string) : option pyval :=
  match json_loads content with
  | Ok result => Some result
  | Raise _ =>
      let start_idx := str_find content "{" in
      let end_idx := str_rfind content "}" in
      if negb (start_idx =? -1)%Z && negb (end_idx =? -1)%Z && (end_idx >? start_idx)%Z
      then match json_loads (str_slice content start_idx (end_idx + 1)) with
           | Ok result => Some result
           | Raise _ => None
           end
      else None
  end.

(** The body of the outer [try] (lines 88-146). *)
Definition parse_body (content : string) : result pyval :=
  match first_structured (Re.findall_braces content) with
  | Some result => Ok result
  | None =>
      if str_contains "```json" content then
        bind (labeled_block content) (fun json_str =>
        bind (json_loads json_str) (fun result =>
        Ok result))
      else
        match (if str_contains "```" content
               then first_decoded (Re.findall_code_blocks content)
               else None) with
        | Some result => Ok result
        | None =>
            match last_resort content with
            | Some result => Ok result
            | None => Ok (parse_failure content)
            end
        end
  end.

(** [parse_json_response] *)
Definition parse_json_response (response : response) : result pyval :=
  match resp_error response with
  | Some error => Ok (PyDict [("error", PyStr error)])
  | None =>
      let content := content_of response in
      if String.eqb content EmptyString
      then Ok (PyDict [("error", PyStr "Empty response from model")])
      else try_except (parse_body content) (fun e => Ok (exception_fallback e))
  end.

End Parser.

End Client.

(** ** [str.format] with keyword arguments

    [format_template] follows the iterator of CPython's [unicode_format.h]:
    literal text up to a brace, a doubled brace as one brace, otherwise a
    replacement field: its name up to [:], [!] or the closing brace, then a
    format specification up to the matching closing brace.  A field is looked up
    before it is rendered, so a name that is no keyword raises [KeyError]
    before anything later in the template is read.  Rendering covers the plain
    field of a [str] argument; a field with an attribute, an index, a
    conversion or a format specification is beyond this fragment. *)

Module Format.
Import Py.

Definition is_brace (c : ascii) : bool := Ascii.eqb c "{" || Ascii.eqb c "}".

(** The text before the first brace of [s], that brace, and what follows. *)
Fixpoint scan_literal (s : string) : string * option ascii * string :=
  match s with
  | EmptyString => (EmptyString, None, EmptyString)
  | String c s' =>
      if is_brace c then (EmptyString, Some c, s')
      else let '(lit, brace, rest) := scan_literal s' in (String c lit, brace, rest)
  end.

(** Past a bracketed index: up to, not including, the closing bracket. *)
Fixpoint scan_index (s : string) : string * string :=
  match s with
  | EmptyString => (EmptyString, EmptyString)
  | String c s' =>
      if Ascii.eqb c "]" then (EmptyString, s)
      else let '(inside, rest) := scan_index s' in (String c inside, rest)
  end.

(** The field name at the head of [s], the character that ended it ([None]
    at the end of the template), and the rest.  [fuel] bounds the steps. *)
Fixpoint scan_field_name (fuel : nat) (s : string) : result (string * option ascii * string) :=
  match fuel with
  | O => Raise (RecursionError "scan_field_name: out of fuel")
  | S fuel' =>
      match s with
      | EmptyString => Ok (EmptyString, None, EmptyString)
      | String c s' =>
          if Ascii.eqb c "{" then Raise (ValueError "unexpected '{' in field name")
          else if Ascii.eqb c "}" || Ascii.eqb c ":" || Ascii.eqb c "!" then Ok (EmptyString, Some c, s')
          else if Ascii.eqb c "[" then
            let '(inside, rest) := scan_index s' in
            bind (scan_field_name fuel' rest) (fun '(name, stop, rest') =>
            Ok (String c (inside +++ name), stop, rest'))
          else
            bind (scan_field_name fuel' s') (fun '(name, stop, rest') =>
            Ok (String c name, stop, rest'))
      end
  end.

(** The format specification at the head of [s], up to the closing brace
    that matches the field's opening brace; [count] is the nesting depth. *)
Fixpoint scan_spec (count : nat) (s : string) : result (string * string) :=
  match s with
  | EmptyString => Raise (ValueError "unmatched '{' in format spec")
  | String c s' =>
      let continue (count' : nat) :=
        bind (scan_spec count' s') (fun '(spec, rest) => Ok (String c spec, rest)) in
      if Ascii.eqb c "{" then continue (S count)
      else if Ascii.eqb c "}" then
        match count with
        | O | S O => Ok (EmptyString, s')
        | S count' => continue count'
        end
      else continue count
  end.

(** A parsed replacement field. *)
Record field : Type := mk_field {
  field_name : string;
  conversion : option ascii;
  format_spec : string
}.

(** [parse_field]: the field after its opening brace, and the rest. *)
Definition parse_field (s : string) : result (field * string) :=
  bind (scan_field_name (S (String.length s)) s) (fun '(name, stop, rest) =>
  match stop with
  | Some "}"%char => Ok (mk_field name None EmptyString, rest)
  | Some ":"%char =>
      bind (scan_spec 1 rest) (fun '(spec, rest') => Ok (mk_field name None spec, rest'))
  | Some "!"%char =>
      match rest with
      | EmptyString => Raise (ValueError "end of string while looking for conversion specifier")
      | String conv EmptyString =>
          bind (scan_spec 1 EmptyString) (fun '(spec, rest') => Ok (mk_field name (Some conv) spec, rest'))
      | String conv (String c rest') =>
          if Ascii.eqb c "}" then Ok (mk_field name (Some conv) EmptyString, rest')
          else if Ascii.eqb c ":" then
            bind (scan_spec 1 rest') (fun '(spec, rest'') => Ok (mk_field name (Some conv) spec, rest''))
          else Raise (ValueError "expected ':' after conversion specifier")
      end
  | _ => Raise (ValueError "expected '}' before end of string")
  end).

Fixpoint all_digits (s : string) : bool :=
  match s with
  | EmptyString => true
  | String c s' => Json.is_digit c && all_digits s'
  end.

(** The part of a field name before its first dot or opening bracket. *)
Fixpoint first_part (s : string) : string :=
  match s with
  | EmptyString => EmptyString
  | String c s' => if Ascii.eqb c "." || Ascii.eqb c "[" then EmptyString else String c (first_part s')
  end.

Fixpoint lookup (kwargs : list (string * string)) (key : string) : option string :=
  match kwargs with
  | [] => None
  | (k, v) :: kwargs' => if String.eqb k key then Some v else lookup kwargs' key
  end.

(** The text a field stands for, called with keyword arguments only. *)
Definition render_field (kwargs : list (string * string)) (f : field) : result string :=
  let key := first_part (field_name f) in
  if String.eqb key EmptyString || all_digits key
  then Raise (IndexError "Replacement index out of range for positional args tuple")
  else
    match lookup kwargs key with
    | None => Raise (KeyError key)
    | Some v =>
        match conversion f with
        | None =>
            if String.eqb key (field_name f) && String.eqb (format_spec f) EmptyString
            then Ok v
            else Raise (ValueError "replacement field beyond the modelled fragment")
        | Some _ => Raise (ValueError "replacement field beyond the modelled fragment")
        end
    end.

Fixpoint format_loop (fuel : nat) (kwargs : list (string * string)) (s : string) : result string :=
  match fuel with
  | O => Raise (RecursionError "format_loop: out of fuel")
  | S fuel' =>
      match s with
      | EmptyString => Ok EmptyString
      | _ =>
          let '(lit, brace, rest) := scan_literal s in
          match brace with
          | None => Ok lit
          | Some c =>
              match rest with
              | EmptyString =>
                  if Ascii.eqb c "}"
                  then Raise (ValueError "Single '}' encountered in format string")
                  else Raise (ValueError "Single '{' encountered in format string")
              | String c' rest' =>
                  if Ascii.eqb c c' then
                    bind (format_loop fuel' kwargs rest') (fun out => Ok (lit +++ String c out))
                  else if Ascii.eqb c "}"
                  then Raise (ValueError "Single '}' encountered in format string")
                  else
                    bind (parse_field rest) (fun '(f, after) =>
                    bind (render_field kwargs f) (fun text =>
                    bind (format_loop fuel' kwargs after) (fun out =>
                    Ok (lit +++ text +++ out))))
              end
          end
      end
  end.

(** [template.format(k1=v1, ...)] for the keyword arguments [kwargs]. *)
Definition format_template (template : string) (kwargs : list (string * string)) : result string :=
  format_loop (S (String.length template)) kwargs template.

End Format.

(** ** [config.py] and [prompts/base_prompts.py] *)

Module Config.
Import Py.

Record weights : Type := mk_weights {
  w_skills : float;
  w_experience : float;
  w_education : float
}.

Definition WEIGHTS : weights :=
  {| w_skills := 0.4; w_experience := 0.4; w_education := 0.2 |}.

Definition BATCH_SIZE : nat := 5.

Definition SYSTEM_PROMPT : string :=
  join_lines [
    "";
    "You are an expert HR recruiter with deep experience in CV evaluation. Your task is to evaluate CVs against job descriptions and provide detailed scoring on skills, experience, and education match. Be objective and thorough in your assessment.";
    "";
    "Follow these guidelines:";
    "1. Analyze the CV against the job description systematically";
    "2. Provide numerical scores for each category (skills, experience, education)";
    "3. Justify each score with specific evidence from the CV";
    "4. Identify both strengths and gaps for each category";
    "5. Provide your assessment in the exact JSON format requested";
    ""].

Definition EVALUATION_PROMPT_TEMPLATE : string :=
  join_lines [
    "";
    "# Job Description";
    "{job_description}";
    "";
    "# CV to Evaluate";
    "{cv_text}";
    "";
    "# Evaluation Criteria";
    "Please evaluate this CV against the job description using the following criteria:";
    "1. Skills Match (0-10): How well do the candidate's skills align with job requirements?";
    "2. Experience Match (0-10): How relevant is the candidate's work experience?";
    "3. Education Match (0-10): How suitable is the candidate's educational background?";
    "4. Overall Fit (0-10): Overall assessment of candidate suitability";
    "";
    "For each criterion, provide:";
    "- Score (0-10)";
    "- Detailed reasoning for your score";
    "- Specific strengths and gaps identified";
    "";
    "# Output Format";
    "Provide your evaluation in the following JSON format:";
    "```json";
    dq (join_lines [
    "{";
    "  'skills': {";
    "    'score': 0-10,";
    "    'reasoning': 'detailed explanation',";
    "    'strengths': ['strength1', 'strength2'],";
    "    'gaps': ['gap1', 'gap2']";
    "  },";
    "  'experience': {";
    "    'score': 0-10,";
    "    'reasoning': 'detailed explanation',";
    "    'strengths': ['strength1', 'strength2'],";
    "    'gaps': ['gap1', 'gap2']";
    "  },";
    "  'education': {";
    "    'score': 0-10,";
    "    'reasoning': 'detailed explanation',";
    "    'strengths': ['strength1', 'strength2'],";
    "    'gaps': ['gap1', 'gap2']";
    "  },";
    "  'overall': {";
    "    'score': 0-10,";
    "    'reasoning': 'detailed explanation'";
    "  }";
    "}"])].

End Config.

(** ** [core/ranking_engine.py] *)

Module Engine.
Import Py Client Config.

(** A processed CV, by the keys the engine reads ([None]: the key is
    absent). *)
Record cv_data : Type := mk_cv {
  cv_filename : option string;
  cv_full_text : option string;
  cv_error : option string
}.

(** The dictionary [evaluate_cv] returns, by its keys.  [evaluation] is
    [PyNone] for Python's [None]; [error], [warning], [raw_response] and
    [rank] are [None] when the key is absent. *)
Record cv_result : Type := mk_result {
  filename : string;
  error : option string;
  score : number;
  evaluation : pyval;
  warning : option pyval;
  raw_response : option string;
  rank : option Z
}.

(** The outcome the specification reads off a result: [Failed] when it has
    an [error] key, [Warning] when it has a [warning] key, [Success]
    otherwise. *)
Inductive status : Type := Success | Warning | Failed.

Definition status_of (r : cv_result) : status :=
  match error r, warning r with
  | Some _, _ => Failed
  | None, Some _ => Warning
  | None, None => Success
  end.

Definition has_error (r : cv_result) : bool :=
  match error r with
  | Some _ => true
  | None => false
  end.

Definition failed_result (name msg : string) (raw : option string) : cv_result :=
  {| filename := name; error := Some msg; score := Int 0; evaluation := PyNone;
     warning := None; raw_response := raw; rank := None |}.

Definition text_of (cv : cv_data) : string :=
  match cv_full_text cv with
  | Some text => text
  | None => EmptyString
  end.

Definition name_of (cv : cv_data) : string :=
  match cv_filename cv with
  | Some name => name
  | None => "Unknown"
  end.

(** The text between the brace that opens the JSON example of the template
    and its first colon: a newline, two spaces and the quoted word
    [skills]. *)
Definition template_stray_field : string := String newline (dq "  'skills'").

(** [format_prompt] *)
Definition format_prompt (job_description : string) (cv : cv_data) : result string :=
  Format.format_template EVALUATION_PROMPT_TEMPLATE
    [("job_description", job_description); ("cv_text", text_of cv)].

(** The [float] a numeric score is multiplied as. *)
Definition score_as_float (v : pyval) : option float :=
  match v with
  | PyFloat f => Some f
  | PyInt z =>
      match float_of_int z with
      | Ok f => Some f
      | Raise _ => None
      end
  | _ => None
  end.

Section Scoring.

(** [self.weights] *)
Variable weights : Config.weights.

(** [calculate_weighted_score] *)
Definition calculate_weighted_score (evaluation : pyval) : float :=
  match
    bind (py_get evaluation "skills" (PyDict [])) (fun skills =>
    bind (py_get skills "score" (PyInt 0)) (fun skills_raw =>
    bind (py_mul_float skills_raw (w_skills weights)) (fun skills_score =>
    bind (py_get evaluation "experience" (PyDict [])) (fun experience =>
    bind (py_get experience "score" (PyInt 0)) (fun experience_raw =>
    bind (py_mul_float experience_raw (w_experience weights)) (fun experience_score =>
    bind (py_get evaluation "education" (PyDict [])) (fun education =>
    bind (py_get education "score" (PyInt 0)) (fun education_raw =>
    bind (py_mul_float education_raw (w_education weights)) (fun education_score =>
    Ok (skills_score + experience_score + education_score)%float)))))))))
  with
  | Ok total => total
  | Raise _ => 0%float
  end.

End Scoring.

Section Pipeline.

Variable create : nat -> string -> string -> api_outcome.
Variable float_pow : float -> Z -> result float.
Variable json_loads : string -> result pyval.

(** [str(v)] for a value that is not a [str]. *)
Variable value_str : pyval -> string.

Variable weights : Config.weights.

(** The method [evaluate_cv] calls on [self] to build the user prompt. *)
Variable build_prompt : string -> cv_data -> result string.

(** A value inside an f-string. *)
Definition format_value (v : pyval) : string :=
  match v with
  | PyStr s => s
  | _ => value_str v
  end.

(** The body of the [try] of [evaluate_cv] (lines 44-138). *)
Definition evaluate_cv_body (job_description : string) (cv : cv_data) : M cv_result :=
  match cv_error cv with
  | Some err => ret (failed_result (name_of cv) err None)
  | None =>
      if String.eqb (text_of cv) EmptyString
      then ret (failed_result (name_of cv) "No CV text available for evaluation" None)
      else
        user_prompt <- lift (build_prompt job_description cv) ;;
        reply <- process_with_retry (generate_evaluation create) float_pow
                   SYSTEM_PROMPT user_prompt 3 2 ;;
        match reply with
        | None => throw (TypeError "argument of type 'NoneType' is not iterable")
        | Some response =>
            match resp_error response with
            | Some err =>
                ret (failed_result (name_of cv) ("API error: " +++ err) (Some (content_of response)))
            | None =>
                let raw := content_of response in
                parsed <- lift (parse_json_response json_loads response) ;;
                with_error <- lift (py_in "error" parsed) ;;
                with_skills <- lift (if with_error then py_in "skills" parsed else Ok false) ;;
                if with_error && with_skills then
                  diagnostic <- lift (py_getitem parsed "error") ;;
                  evaluation_copy <- lift (bind (py_copy parsed) (fun c => py_delitem c "error")) ;;
                  ret {| filename := name_of cv; error := None;
                         score := Float (calculate_weighted_score weights evaluation_copy);
                         evaluation := evaluation_copy; warning := Some diagnostic;
                         raw_response := Some raw; rank := None |}
                else if with_error then
                  diagnostic <- lift (py_getitem parsed "error") ;;
                  ret (failed_result (name_of cv)
                         ("Error parsing API response: " +++ format_value diagnostic) (Some raw))
                else
                  ret {| filename := name_of cv; error := None;
                         score := Float (calculate_weighted_score weights parsed);
                         evaluation := parsed; warning := None;
                         raw_response := Some raw; rank := None |}
            end
        end
  end.

(** [evaluate_cv] for a prompt builder. *)
Definition evaluate_cv_with (job_description : string) (cv : cv_data) : M cv_result :=
  mtry (evaluate_cv_body job_description cv)
       (fun e => ret (failed_result (name_of cv)
                        ("Error evaluating CV " +++ name_of cv +++ ": " +++ exn_str e) None)).

(** [batch_process] *)
Fixpoint batch_process_with (job_description : string) (cv_batch : list cv_data)
    : M (list cv_result) :=
  match cv_batch with
  | [] => ret []
  | cv :: rest =>
      r <- evaluate_cv_with job_description cv ;;
      rs <- batch_process_with job_description rest ;;
      ret (r :: rs)
  end.

(** [range(0, stop, step)] *)
Definition range_step (stop step : nat) : list nat :=
  map (fun k => k * step) (seq 0 ((stop + step - 1) / step)).

(** [l[i:j]] *)
Definition list_slice {A : Type} (l : list A) (i j : nat) : list A :=
  firstn (j - i) (skipn i l).

(** The loop over the batches of [rank_cvs] (lines 166-169). *)
Fixpoint process_batches (job_description : string) (cv_list : list cv_data)
    (starts : list nat) (all_results : list cv_result) : M (list cv_result) :=
  match starts with
  | [] => ret all_results
  | i :: starts' =>
      batch_results <- batch_process_with job_description (list_slice cv_list i (i + BATCH_SIZE)) ;;
      process_batches job_description cv_list starts' (all_results ++ batch_results)
  end.

End Pipeline.

(** [sorted(results, key=lambda x: x["score"], reverse=True)].  [list.sort]
    with [reverse=True] reverses the list, sorts it ascending and stable,
    and reverses the outcome.  The ascending sort is a stable insertion sort
    on [<]; every stable sort returns the same list when [<] is a strict weak
    order on the keys. *)
Fixpoint insert_by_score (x : cv_result) (l : list cv_result) : list cv_result :=
  match l with
  | [] => [x]
  | y :: l' => if num_ltb (score y) (score x) then y :: insert_by_score x l' else x :: y :: l'
  end.

Fixpoint sort_by_score (l : list cv_result) : list cv_result :=
  match l with
  | [] => []
  | x :: l' => insert_by_score x (sort_by_score l')
  end.

Definition sorted_by_score_desc (l : list cv_result) : list cv_result :=
  rev (sort_by_score (rev l)).

Definition set_rank (r : cv_result) (k : Z) : cv_result :=
  {| filename := filename r; error := error r; score := score r; evaluation := evaluation r;
     warning := warning r; raw_response := raw_response r; rank := Some k |}.

(** [for i, result in enumerate(ranked_results): result["rank"] = i + 1] *)
Fixpoint assign_ranks (i : nat) (l : list cv_result) : list cv_result :=
  match l with
  | [] => []
  | r :: l' => set_rank r (Z.of_nat i + 1) :: assign_ranks (S i) l'
  end.

Section Ranking.

Variable create : nat -> string -> string -> api_outcome.
Variable float_pow : float -> Z -> result float.
Variable json_loads : string -> result pyval.
Variable value_str : pyval -> string.
Variable weights : Config.weights.

(** [rank_cvs] for a prompt builder. *)
Definition rank_cvs_with (build_prompt : string -> cv_data -> result string)
    (job_description : string) (cv_list : list cv_data) : M (list cv_result) :=
  all_results <- process_batches create float_pow json_loads value_str weights build_prompt
                   job_description cv_list (range_step (List.length cv_list) BATCH_SIZE) [] ;;
  ret (assign_ranks 0 (sorted_by_score_desc all_results)).

(** [evaluate_cv], [batch_process] and [rank_cvs]: the prompt is built by
    [format_prompt]. *)
Definition evaluate_cv : string -> cv_data -> M cv_result :=
  evaluate_cv_with create float_pow json_loads value_str weights format_prompt.

Definition batch_process : string -> list cv_data -> M (list cv_result) :=
  batch_process_with create float_pow json_loads value_str weights format_prompt.

Definition rank_cvs : string -> list cv_data -> M (list cv_result) :=
  rank_cvs_with format_prompt.

End Ranking.

(** [sum(r.get("score", 0) for r in results)]: from [0], left to right. *)
Fixpoint sum_scores (acc : number) (results : list cv_result) : result number :=
  match results with
  | [] => Ok acc
  | r :: results' => bind (num_add acc (score r)) (fun acc' => sum_scores acc' results')
  end.

Record report : Type := mk_report {
  total_cvs : nat;
  successful_evaluations : nat;
  failed_evaluations : nat;
  average_score : number;
  top_candidates : list cv_result;
  all_rankings : list cv_result
}.

(** [generate_ranking_report] *)
Definition generate_ranking_report (results : list cv_result) : result report :=
  bind (sum_scores (Int 0) results) (fun total =>
  bind (num_truediv total (Z.of_nat (Nat.max (List.length results) 1))) (fun average =>
  Ok {| total_cvs := List.length results;
        successful_evaluations := List.length (filter (fun r => negb (has_error r)) results);
        failed_evaluations := List.length (filter has_error results);
        average_score := average;
        top_candidates := filter (fun r => negb (has_error r)) (firstn 5 results);
        all_rankings := results |})).

End Engine.

(** ** The parser as an ordered chain of strategies

    The specification describes the parser as five strategies tried in a
    fixed order, the first success winning.  The strategies below are the
    five attempts of [parse_body], each taken on its own; [first_verdict] is
    the combinator.  A strategy accepts a value, passes to the next one, or
    aborts the chain with the exception it raised. *)

Module Strategies.
Import Py Client.

Inductive verdict : Type :=
| Accept (v : pyval)
| Pass
| Abort (e : exn).

Fixpoint first_verdict (chain : list (string -> verdict)) (content : string) : verdict :=
  match chain with
  | [] => Pass
  | strategy :: chain' =>
      match strategy content with
      | Pass => first_verdict chain' content
      | decided => decided
      end
  end.

Section Chain.

Variable json_loads : string -> result pyval.

(** 1. The brace scan: the candidates of the greedy brace pattern, a
    candidate being accepted when it decodes to a value with the three
    category keys. *)
Definition brace_scan (content : string) : verdict :=
  match first_structured json_loads (Re.findall_braces content) with
  | Some v => Accept v
  | None => Pass
  end.

(** 2. The fenced block labeled [json]. *)
Definition labeled_fence (content : string) : verdict :=
  if str_contains "```json" content then
    match bind (labeled_block content) json_loads with
    | Ok v => Accept v
    | Raise e => Abort e
    end
  else Pass.

(** 3. Any fenced block. *)
Definition any_fence (content : string) : verdict :=
  if str_contains "```" content then
    match first_decoded json_loads (Re.findall_code_blocks content) with
    | Some v => Accept v
    | None => Pass
    end
  else Pass.

(** 4. The whole reply. *)
Definition whole_reply (content : string) : verdict :=
  match json_loads content with
  | Ok v => Accept v
  | Raise _ => Pass
  end.

(** 5. The text from the first opening brace to the last closing brace. *)
Definition brace_span (content : string) : verdict :=
  let start_idx := str_find content "{" in
  let end_idx := str_rfind content "}" in
  if negb (start_idx =? -1)%Z && negb (end_idx =? -1)%Z && (end_idx >? start_idx)%Z
  then match json_loads (str_slice content start_idx (end_idx + 1)) with
       | Ok v => Accept v
       | Raise _ => Pass
       end
  else Pass.

Definition strategies : list (string -> verdict) :=
  [brace_scan; labeled_fence; any_fence; whole_reply; brace_span].

End Chain.

End Strategies.

(** ** The notions the properties are stated with *)

Module Notions.
Import Py Engine.

(** A score as [evaluate_cv] sets it: the [int] 0 or a [float]. *)
Definition engine_score (n : number) : Prop := n = Int 0 \/ exists f, n = Float f.

(** The score of a failed result. *)
Definition is_zero (n : number) : Prop := n = Int 0.

(** An engine score that is a number: not the [float] NaN. *)
Definition is_number (n : number) : Prop := engine_score n /\ is_nan n = false.

(** The binary64 datum a score is compared as. *)
Definition key (n : number) : spec_float :=
  match n with
  | Int _ => S754_zero false
  | Float f => Prim2SF f
  end.

Definition succeeded (r : cv_result) : bool :=
  match status_of r with
  | Success | Warning => true
  | Failed => false
  end.

(** The top five of the entries that did not fail, in rank order: the
    reading the specification gives of [top_candidates]. *)
Definition top_five_non_failed (results : list cv_result) : list cv_result :=
  firstn 5 (filter succeeded results).

(** The results whose score equals [k], in their order. *)
Definition ties (k : number) (l : list cv_result) : list cv_result :=
  filter (fun r => num_eqb (score r) k) l.

Definition comparable_scores (comparable : number -> Prop) (l : list cv_result) : Prop :=
  Forall (fun r => comparable (score r)) l.

(** No later element is less than an earlier one. *)
Definition ascending (l : list cv_result) : Prop :=
  StronglySorted (fun x y => num_ltb (score y) (score x) = false) l.

(** Every element is greater than or equal to the ones after it. *)
Definition non_increasing (l : list cv_result) : Prop :=
  StronglySorted (fun x y => num_geb (score x) (score y) = true) l.

(** What every result says of the CV it was made for, whatever the prompt
    builder: the CV's name, no rank yet, and either an error with score 0
    and no evaluation, or a [float] score. *)
Definition result_of (cv : cv_data) (r : cv_result) : Prop :=
  filename r = name_of cv
  /\ rank r = None
  /\ (if has_error r
      then score r = Int 0 /\ evaluation r = PyNone /\ warning r = None
      else exists f, score r = Float f).

Definition failed_for (cv : cv_data) (r : cv_result) : Prop :=
  exists msg, r = failed_result (name_of cv) msg None.

Definition zero_category : pyval :=
  PyDict [("score", PyInt 0); ("reasoning", PyStr "Error parsing response");
          ("strengths", PyList []); ("gaps", PyList [])].

(** The evaluation a [Warning] result carries: the fallback record without
    its [error] key. *)
Definition zero_evaluation : pyval :=
  PyDict [("skills", zero_category); ("experience", zero_category);
          ("education", zero_category);
          ("overall", PyDict [("score", PyInt 0);
                              ("reasoning", PyStr "Error parsing response")])].

End Notions.

(** ** Sample inputs

    Replies, endpoints and records on which the definitions above are run. *)

Module Samples.
Import Py Client Config Engine.

Definition nl : string := String newline EmptyString.

Definition full_record_text : string :=
  dq "{'skills': {'score': 8}, 'experience': {'score': 6}, 'education': {'score': 10}}".

Definition full_record : pyval :=
  PyDict [("skills", PyDict [("score", PyInt 8)]);
          ("experience", PyDict [("score", PyInt 6)]);
          ("education", PyDict [("score", PyInt 10)])].

(** The usual shape of a reply: the record inside a fenced block labeled
    [json]. *)
Definition fenced_full_reply : string :=
  "```json" +++ nl +++ full_record_text +++ nl +++ "```".

(** Valid JSON without the [education] key. *)
Definition reply_without_education : string :=
  dq "{'skills': {'score': 7}, 'experience': {'score': 5}}".

Definition record_without_education : pyval :=
  PyDict [("skills", PyDict [("score", PyInt 7)]);
          ("experience", PyDict [("score", PyInt 5)])].

(** A labeled block with a trailing comma, then the corrected record in an
    unlabeled block. *)
Definition reply_with_broken_labeled_block : string :=
  "```json" +++ nl +++ dq "{'skills': {'score': 7},}" +++ nl +++ "```" +++ nl
  +++ "Corrected:" +++ nl
  +++ "```" +++ nl +++ dq "{'skills': {'score': 7}}" +++ nl +++ "```".

Definition garbage_reply : string := "I cannot evaluate this CV.".

Definition reply (content : string) : response := content_response content (PyDict []).

(** An endpoint whose every request fails. *)
Definition failing_api : nat -> string -> string -> api_outcome :=
  fun _ _ _ => ApiRaises (APIError "Connection error.").

(** An endpoint that answers every request with [content]. *)
Definition replying_api (content : string) : nat -> string -> string -> api_outcome :=
  fun _ _ _ => ApiReturns {| choices := [Some content]; usage := Some (PyDict []) |}.

(** [b ** k] by repeated multiplication, exact for the powers of two. *)
Fixpoint repeat_mul (b : float) (n : nat) : float :=
  match n with
  | O => 1%float
  | S n' => (b * repeat_mul b n')%float
  end.

Definition pow_by_mul (b : float) (k : Z) : result float := Ok (repeat_mul b (Z.to_nat k)).

(** A stand-in for [str] on values that are not strings. *)
Definition opaque_str (v : pyval) : string := "<" +++ type_name v +++ ">".

(** A prompt builder that does not fail. *)
Definition plain_prompt (job_description : string) (cv : cv_data) : result string :=
  Ok (job_description +++ nl +++ text_of cv).

Definition good_cv : cv_data :=
  {| cv_filename := Some "a.pdf"; cv_full_text := Some "Python developer"; cv_error := None |}.

Definition unreadable_cv : cv_data :=
  {| cv_filename := Some "b.docx"; cv_full_text := None;
     cv_error := Some "No text could be extracted from b.docx" |}.

Definition other_cv : cv_data :=
  {| cv_filename := Some "c.txt"; cv_full_text := Some "Accountant"; cv_error := None |}.

Definition ranked (name : string) (err : option string) (points : number) (k : Z)
    : cv_result :=
  {| filename := name; error := err; score := points;
     evaluation := match err with Some _ => PyNone | None => PyDict [] end;
     warning := None; raw_response := None; rank := Some k |}.

(** A ranking of six results with equal scores: a failed one first, then
    five that succeeded with score 0. *)
Definition tied_ranking : list cv_result :=
  [ranked "a.pdf" (Some "No CV text available for evaluation") (Int 0) 1;
   ranked "b.pdf" None (Float 0) 2; ranked "c.pdf" None (Float 0) 3;
   ranked "d.pdf" None (Float 0) 4; ranked "e.pdf" None (Float 0) 5;
   ranked "f.pdf" None (Float 0) 6].

End Samples.

(** ** More of the Python runtime: the [str] methods and [os.path] functions
    that the document processor, the uploader and the utilities call *)

Module Text.
Import Py.

(** [str.lower] on code points below 256: the Latin capitals and the
    accented capitals, the multiplication sign apart. *)
Definition lower_char (c : ascii) : ascii :=
  let n := nat_of_ascii c in
  if ((65 <=? n) && (n <=? 90)) || ((192 <=? n) && (n <=? 222) && negb (n =? 215))
  then ascii_of_nat (n + 32)
  else c.

Fixpoint str_lower (s : string) : string :=
  match s with
  | EmptyString => EmptyString
  | String c s' => String (lower_char c) (str_lower s')
  end.

(** [str.isprintable] on code points below 256. *)
Definition is_printable (c : ascii) : bool :=
  let n := nat_of_ascii c in
  negb ((n <? 32) || ((127 <=? n) && (n <=? 160)) || (n =? 173)).

(** [sep.join(pieces)] *)
Fixpoint str_join (sep : string) (pieces : list string) : string :=
  match pieces with
  | [] => EmptyString
  | [piece] => piece
  | piece :: pieces' => piece +++ sep +++ str_join sep pieces'
  end.

(** [s.split()]: the maximal runs of characters that are not whitespace.
    [cur] is the current run, reversed. *)
Fixpoint split_ws_scan (cur : string) (s : string) : list string :=
  match s with
  | EmptyString =>
      match cur with
      | EmptyString => []
      | _ => [str_rev cur]
      end
  | String c s' =>
      if is_space c
      then match cur with
           | EmptyString => split_ws_scan EmptyString s'
           | _ => str_rev cur :: split_ws_scan EmptyString s'
           end
      else split_ws_scan (String c cur) s'
  end.

Definition str_split_ws (s : string) : list string := split_ws_scan EmptyString s.

(** [''.join(c for c in s if keep(c))] *)
Fixpoint str_filter (keep : ascii -> bool) (s : string) : string :=
  match s with
  | EmptyString => EmptyString
  | String c s' => if keep c then String c (str_filter keep s') else str_filter keep s'
  end.

(** [s.replace(old, new)] for a non-empty [old]: the pieces between the
    occurrences of [old], joined by [new]. *)
Definition str_replace (s old new : string) : string := str_join new (str_split s old).

(** [s[:stop]]: a negative [stop] counts from the end. *)
Definition str_prefix_to (s : string) (stop : Z) : string :=
  if (0 <=? stop)%Z then str_take (Z.to_nat stop) s
  else str_take (Z.to_nat (Z.of_nat (String.length s) + stop)) s.

(** [l[-1]] of a list of strings, which [str.split] never returns empty. *)
Definition last_piece (pieces : list string) : string := List.last pieces EmptyString.

(** [str(n)] for an [int]. *)
Definition int_str (n : Z) : string := NilZero.string_of_int (Z.to_int n).

(** [any(keyword in s for keyword in keywords)] *)
Definition contains_any (keywords : list string) (s : string) : bool :=
  existsb (fun keyword => str_contains keyword s) keywords.

End Text.

(** [os.path] of a POSIX system ([posixpath]). *)
Module OsPath.
Import Py Text.

(** The loop of [genericpath._splitext] over the characters between the
    last separator and the last dot: [true] when one of them is not a dot. *)
Fixpoint has_stem (between : string) : bool :=
  match between with
  | EmptyString => false
  | String c rest => if Ascii.eqb c "." then has_stem rest else true
  end.

(** [os.path.splitext]: the extension starts at the last dot, when that dot
    comes after the last separator and after a character of the file name
    that is not a dot. *)
Definition splitext (p : string) : string * string :=
  let sepIndex := str_rfind p "/" in
  let dotIndex := str_rfind p "." in
  if (sepIndex <? dotIndex)%Z && has_stem (str_slice p (sepIndex + 1) dotIndex)
  then (str_take (Z.to_nat dotIndex) p, str_drop (Z.to_nat dotIndex) p)
  else (p, EmptyString).

(** [os.path.basename] *)
Definition basename (p : string) : string :=
  str_drop (Z.to_nat (str_rfind p "/" + 1)) p.

End OsPath.

(** ** [core/utils.py] *)

Module Utils.
Import Py Text OsPath.

(** [format_filename] *)
Definition format_filename (filename : string) : string :=
  let max_length := 25%Z in
  if (max_length <? Z.of_nat (String.length filename))%Z
  then
    let '(name, ext) := splitext filename in
    str_prefix_to name (max_length - Z.of_nat (String.length ext) - 3) +++ "..." +++ ext
  else filename.

(** The files of the machine: the paths that exist, and whether [os.remove]
    succeeds on a path or raises. *)
Record files : Type := mk_files {
  present : list string;
  removable : string -> bool
}.

(** [os.path.exists] *)
Definition path_exists (fs : files) (path : string) : bool :=
  existsb (String.eqb path) (present fs).

(** [os.remove], when it succeeds. *)
Definition remove (fs : files) (path : string) : files :=
  {| present := filter (fun p => negb (String.eqb path p)) (present fs);
     removable := removable fs |}.

(** [clean_temp_files]: a path that does not exist is skipped, and an
    exception of [os.remove] is logged and ends that iteration only. *)
Fixpoint clean_temp_files (file_paths : list string) (fs : files) : files :=
  match file_paths with
  | [] => fs
  | file_path :: rest =>
      clean_temp_files rest
        (if path_exists fs file_path && removable fs file_path
         then remove fs file_path
         else fs)
  end.

End Utils.

(** ** [ui/uploader.py] *)

Module Uploader.
Import Py Text OsPath.

(** [config.ALLOWED_EXTENSIONS] and [config.MAX_FILE_SIZE] (in MB). *)
Definition ALLOWED_EXTENSIONS : list string := ["pdf"; "docx"; "txt"].
Definition MAX_FILE_SIZE : Z := 5.

(** An uploaded file, by the attributes [validate_file] reads. *)
Record uploaded_file : Type := mk_upload {
  name : string;
  size : Z
}.

(** [validate_file] *)
Definition validate_file (file : uploaded_file) : bool * string :=
  let file_ext := str_replace (str_lower (snd (splitext (name file)))) "." EmptyString in
  if negb (existsb (String.eqb file_ext) ALLOWED_EXTENSIONS)
  then (false, "File type not allowed. Please upload "
                 +++ str_join ", " ALLOWED_EXTENSIONS +++ " files.")
  else if (MAX_FILE_SIZE * 1024 * 1024 <? size file)%Z
  then (false, "File too large. Maximum size is " +++ int_str MAX_FILE_SIZE +++ "MB.")
  else (true, EmptyString).

(** The suffix [file_uploader_section] gives the temporary copy of an
    upload: a dot and what follows the last dot of its name. *)
Definition temp_suffix (file : uploaded_file) : string :=
  "." +++ last_piece (str_split (name file) ".").

(** The path of a [tempfile.NamedTemporaryFile]: in the directory [dir], the
    prefix [tmp], the random characters [random] and the suffix. *)
Definition temp_path (dir random suffix : string) : string :=
  dir +++ "/" +++ "tmp" +++ random +++ suffix.

End Uploader.

(** ** The patterns of the [re] module that the document processor uses *)

Module Regex.
Import Py.

(** The fragment of the pattern language that the section headers are
    written in: literal text, the word boundary, a run of whitespace,
    concatenation, alternation and the optional group. *)
Inductive regex : Type :=
| Empty
| Lit (text : string)
| WordBoundary
| Spaces
| Cat (r1 r2 : regex)
| Or (r1 r2 : regex)
| Maybe (r : regex).

Fixpoint chain (rs : list regex) : regex :=
  match rs with
  | [] => Empty
  | [r] => r
  | r :: rs' => Cat r (chain rs')
  end.

Fixpoint any_of (rs : list regex) : regex :=
  match rs with
  | [] => Empty
  | [r] => r
  | r :: rs' => Or r (any_of rs')
  end.

Definition word_before (prev : option ascii) : bool :=
  match prev with
  | Some c => is_word c
  | None => false
  end.

Definition word_after (s : string) : bool :=
  match s with
  | String c _ => is_word c
  | EmptyString => false
  end.

(** The text [s], read after the character [prev], continues with [text]:
    the last character read and what is left. *)
Fixpoint read_literal (text : string) (prev : option ascii) (s : string)
    : option (option ascii * string) :=
  match text with
  | EmptyString => Some (prev, s)
  | String c text' =>
      match s with
      | String d s' => if Ascii.eqb c d then read_literal text' (Some d) s' else None
      | EmptyString => None
      end
  end.

(** One or more whitespace characters, then [k]: every length of the run
    is tried, the longest first. *)
Fixpoint spaces_then (s : string) (k : option ascii -> string -> bool) : bool :=
  match s with
  | String c s' => is_space c && (spaces_then s' k || k (Some c) s')
  | EmptyString => false
  end.

(** [r] matches at the start of [s], which follows the character [prev],
    and [k] accepts what is left. *)
Fixpoint matches (r : regex) (prev : option ascii) (s : string)
    (k : option ascii -> string -> bool) : bool :=
  match r with
  | Empty => k prev s
  | Lit text =>
      match read_literal text prev s with
      | Some (prev', s') => k prev' s'
      | None => false
      end
  | WordBoundary => xorb (word_before prev) (word_after s) && k prev s
  | Spaces => spaces_then s k
  | Cat r1 r2 => matches r1 prev s (fun prev' s' => matches r2 prev' s' k)
  | Or r1 r2 => matches r1 prev s k || matches r2 prev s k
  | Maybe r' => matches r' prev s k || k prev s
  end.

Fixpoint search_from (r : regex) (prev : option ascii) (s : string) : bool :=
  matches r prev s (fun _ _ => true)
  || match s with
     | String c s' => search_from r (Some c) s'
     | EmptyString => false
     end.

(** [re.search(r, s)] finds a match. *)
Definition search (r : regex) (s : string) : bool := search_from r None s.

(** The longest run of whitespace at the start of [s] that ends in a
    newline: its length. *)
Fixpoint blank_run (s : string) : option nat :=
  match s with
  | String c s' =>
      if is_space c
      then match blank_run s' with
           | Some n => Some (S n)
           | None => if Ascii.eqb c newline then Some 1 else None
           end
      else None
  | EmptyString => None
  end.

(** [re.sub] of a newline, whitespace and a newline by two newlines.
    [skip] counts the characters of a match still to be dropped. *)
Fixpoint sub_blank_lines_scan (skip : nat) (s : string) : string :=
  match s with
  | EmptyString => EmptyString
  | String c s' =>
      match skip with
      | S k => sub_blank_lines_scan k s'
      | O =>
          if Ascii.eqb c newline
          then match blank_run s' with
               | Some n => String newline (String newline (sub_blank_lines_scan n s'))
               | None => String c (sub_blank_lines_scan O s')
               end
          else String c (sub_blank_lines_scan O s')
      end
  end.

Definition sub_blank_lines (s : string) : string := sub_blank_lines_scan O s.

End Regex.

(** ** [core/cv_processor.py] *)

Module Processor.
Import Py Text OsPath Regex.

(** The exceptions of the processor, as far as its handlers tell them
    apart: [UnicodeDecodeError], the [ValueError] the processor raises, and
    [Exception] for every other one, read through [str] only. *)
Inductive raised : Type :=
| UnicodeDecodeError (msg : string)
| ValueError (msg : string)
| Exception (msg : string).

Definition raised_str (e : raised) : string :=
  match e with
  | UnicodeDecodeError msg | ValueError msg | Exception msg => msg
  end.

Inductive outcome (A : Type) : Type :=
| Returned (a : A)
| Raised (e : raised).

Arguments Returned {A} a.
Arguments Raised {A} e.

Definition and_then {A B : Type} (c : outcome A) (k : A -> outcome B) : outcome B :=
  match c with
  | Returned a => k a
  | Raised e => Raised e
  end.

(** A [docx.Document]: the text of its paragraphs, and the text of the
    cells of its tables, row by row. *)
Record document : Type := mk_document {
  paragraphs : list string;
  tables : list (list (list string))
}.

Inductive encoding : Type := Utf8 | Latin1.

(** The four sections of a CV. *)
Inductive section : Type := Skills | Experience | Education | Other.

Record sections : Type := mk_sections {
  skills : string;
  experience : string;
  education : string;
  other : string
}.

(** The dictionary [process_cv] returns, by its keys ([None]: the key is
    absent). *)
Record processed_cv : Type := mk_processed {
  doc_filename : string;
  doc_error : option string;
  doc_full_text : option string;
  doc_sections : option sections
}.

(** What the ranking engine reads of it. *)
Definition as_cv_data (d : processed_cv) : Engine.cv_data :=
  {| Engine.cv_filename := Some (doc_filename d);
     Engine.cv_full_text := doc_full_text d;
     Engine.cv_error := doc_error d |}.

(** *** The section headers *)

Definition header (rs : list regex) : regex := chain (WordBoundary :: rs ++ [WordBoundary]).

Definition skills_patterns : list regex :=
  [ header [Maybe (Cat (Lit "technical") Spaces); Lit "skills"];
    header [Lit "competenc"; Or (Lit "y") (Lit "ies")];
    header [Lit "proficienc"; Or (Lit "y") (Lit "ies")];
    header [Lit "qualifications"];
    header [Lit "core"; Spaces; Lit "abilities"];
    header [Lit "key"; Spaces; Lit "skills"];
    header [Lit "areas"; Spaces; Lit "of"; Spaces; Lit "expertise"] ].

Definition experience_patterns : list regex :=
  [ header [Lit "work"; Spaces; Lit "experience"];
    header [Lit "employment"; Spaces; Or (Lit "history") (Lit "record")];
    header [Lit "professional"; Spaces; Lit "experience"];
    header [Lit "career"; Spaces; Lit "history"];
    header [Lit "job"; Spaces; Lit "history"];
    header [Lit "work"; Spaces; Lit "history"];
    header [Lit "experience"] ].

Definition education_patterns : list regex :=
  [ header [Lit "education"; Maybe (Lit "al"); Spaces;
            Maybe (any_of [Lit "background"; Lit "history"; Lit "qualifications"])];
    header [Lit "academic"; Spaces;
            any_of [Lit "background"; Lit "history"; Lit "qualifications"; Lit "record"]];
    header [Lit "qualifications"];
    header [Lit "degree"; Maybe (Lit "s")];
    header [Lit "education"] ].

Definition section_patterns : list (section * list regex) :=
  [ (Skills, skills_patterns);
    (Experience, experience_patterns);
    (Education, education_patterns) ].

(** The two loops over the sections and their patterns: the first section
    one of whose patterns is found in the line. *)
Fixpoint header_of (patterns : list (section * list regex)) (line : string) : option section :=
  match patterns with
  | [] => None
  | (section, rs) :: patterns' =>
      if existsb (fun r => search r line) rs then Some section else header_of patterns' line
  end.

Definition skill_keywords : list string :=
  [ "python"; "java"; "javascript"; "sql"; "html"; "css"; "react"; "angular"; "vue";
    "node"; "express"; "django"; "flask"; "spring"; "hibernate"; "jquery"; "bootstrap";
    "sass"; "less"; "webpack"; "babel"; "git"; "github"; "gitlab"; "bitbucket"; "svn";
    "aws"; "azure"; "gcp"; "docker"; "kubernetes"; "jenkins"; "circleci"; "travis";
    "agile"; "scrum"; "kanban"; "jira"; "confluence"; "trello"; "slack"; "teams";
    "linux"; "unix"; "windows"; "macos"; "android"; "ios"; "swift"; "kotlin";
    "objective-c"; "c"; "c++"; "c#"; ".net"; "asp.net"; "ruby"; "rails"; "php";
    "laravel"; "symfony"; "wordpress"; "drupal"; "joomla"; "magento"; "shopify";
    "woocommerce"; "prestashop"; "seo"; "sem"; "smm"; "google ads"; "facebook ads";
    "instagram ads"; "twitter ads"; "adobe"; "photoshop"; "illustrator"; "indesign";
    "xd"; "figma"; "sketch"; "invision"; "excel"; "word"; "powerpoint"; "access";
    "outlook"; "onedrive"; "sharepoint"; "mongodb"; "mysql"; "postgresql"; "oracle";
    "sql server"; "sqlite"; "redis"; "elasticsearch"; "communication"; "teamwork";
    "leadership"; "problem solving"; "critical thinking"; "time management";
    "organization"; "adaptability"; "flexibility"; "creativity"; "analytical";
    "detail-oriented"; "multitasking"; "decision making"; "negotiation"; "presentation";
    "public speaking"; "writing"; "editing"; "proofreading"; "research" ].

Definition education_keywords : list string :=
  [ "degree"; "university"; "college"; "school"; "bachelor"; "master"; "phd"; "diploma" ].

(** The lines of [text] one of whose keywords occurs in the lowered line,
    joined again. *)
Definition keyword_lines (keywords : list string) (text : string) : list string :=
  filter (fun line => contains_any keywords (str_lower line)) (str_split text (String newline EmptyString)).

(** [_extract_skills_from_text] *)
Definition _extract_skills_from_text (text : string) : string :=
  match keyword_lines skill_keywords text with
  | [] => EmptyString
  | skill_lines => join_lines skill_lines
  end.

(** *** Sections *)

(** [section_text]: the lines collected for each section, in order. *)
Record collected : Type := mk_collected {
  skills_lines : list string;
  experience_lines : list string;
  education_lines : list string;
  other_lines : list string
}.

Definition nothing_collected : collected :=
  {| skills_lines := []; experience_lines := []; education_lines := []; other_lines := [] |}.

(** [section_text[current_section].append(line)] *)
Definition collect (current_section : section) (line : string) (c : collected) : collected :=
  match current_section with
  | Skills =>
      {| skills_lines := skills_lines c ++ [line]; experience_lines := experience_lines c;
         education_lines := education_lines c; other_lines := other_lines c |}
  | Experience =>
      {| skills_lines := skills_lines c; experience_lines := experience_lines c ++ [line];
         education_lines := education_lines c; other_lines := other_lines c |}
  | Education =>
      {| skills_lines := skills_lines c; experience_lines := experience_lines c;
         education_lines := education_lines c ++ [line]; other_lines := other_lines c |}
  | Other =>
      {| skills_lines := skills_lines c; experience_lines := experience_lines c;
         education_lines := education_lines c; other_lines := other_lines c ++ [line] |}
  end.

(** The loop over the lines of [extract_sections] (lines 170-188). *)
Fixpoint scan_lines (lines : list string) (current_section : section) (c : collected)
    : collected :=
  match lines with
  | [] => c
  | line :: lines' =>
      let line := str_strip line in
      if String.eqb line EmptyString then scan_lines lines' current_section c
      else match header_of section_patterns (str_lower line) with
           | Some section => scan_lines lines' section c
           | None => scan_lines lines' current_section (collect current_section line c)
           end
  end.

Definition is_empty (s : string) : bool := String.eqb s EmptyString.

(** [extract_sections] *)
Definition extract_sections (text : string) : sections :=
  let lines := str_split text (String newline EmptyString) in
  let c := scan_lines lines Other nothing_collected in
  let joined :=
    {| skills := join_lines (skills_lines c); experience := join_lines (experience_lines c);
       education := join_lines (education_lines c); other := join_lines (other_lines c) |} in
  if negb (is_empty (other joined))
     && (is_empty (skills joined) || is_empty (experience joined) || is_empty (education joined))
  then
    let other_text := other joined in
    let skills' :=
      if is_empty (skills joined)
      then
        let skills_extracted := _extract_skills_from_text other_text in
        if negb (is_empty skills_extracted) then skills_extracted else skills joined
      else skills joined in
    let education' :=
      if is_empty (education joined)
      then
        match keyword_lines education_keywords other_text with
        | [] => education joined
        | education_lines => join_lines education_lines
        end
      else education joined in
    {| skills := skills'; experience := experience joined;
       education := education'; other := other joined |}
  else joined.

(** [preprocess_cv_text] *)
Definition preprocess_cv_text (text : string) : outcome string :=
  if is_empty text || (String.length (str_strip text) =? 0)
  then Raised (ValueError "Extracted text is empty after preprocessing")
  else
    let text := str_join " " (str_split_ws text) in
    let text := str_filter (fun c => is_printable c || is_space c) text in
    let text := sub_blank_lines text in
    Returned text.

Section Libraries.

(** [PyPDF2]: opening the file and its reader, then for each page of
    [reader.pages] what [extract_text] returns or raises. *)
Variable pdf_pages : string -> outcome (list (outcome string)).

(** [pdfminer.high_level.extract_text] *)
Variable pdfminer_extract_text : string -> outcome string.

(** [docx.Document] *)
Variable docx_document : string -> outcome document.

(** Opening a file in text mode with an encoding and reading it. *)
Variable read_text : string -> encoding -> outcome string.

(** [os.path.exists] *)
Variable path_exists : string -> bool.

(** The loop over the pages: the text read so far, and the exception that
    ended the loop, if one did. *)
Fixpoint read_pages (text : string) (pages : list (outcome string)) : string * option raised :=
  match pages with
  | [] => (text, None)
  | Returned page_text :: pages' =>
      read_pages (text +++ page_text +++ String newline EmptyString) pages'
  | Raised e :: _ => (text, Some e)
  end.

(** The end of [extract_text_from_pdf] (lines 44-50). *)
Definition pdf_result (text : string) (error_messages : list string) : outcome string :=
  if is_empty text
  then Raised (Exception ("Failed to extract text from PDF using multiple methods: "
                            +++ str_join ", " error_messages))
  else Returned text.

(** [extract_text_from_pdf] *)
Definition extract_text_from_pdf (file_path : string) : outcome string :=
  let '(text, failure) :=
    match pdf_pages file_path with
    | Returned pages => read_pages EmptyString pages
    | Raised e => (EmptyString, Some e)
    end in
  let enough :=
    match failure with
    | None => 100 <? String.length (str_strip text)
    | Some _ => false
    end in
  if enough then Returned text
  else
    let error_messages :=
      match failure with
      | Some e => ["PyPDF2 extraction failed: " +++ raised_str e]
      | None => []
      end in
    match pdfminer_extract_text file_path with
    | Returned mined =>
        if 0 <? String.length (str_strip mined) then Returned mined
        else pdf_result mined error_messages
    | Raised e =>
        pdf_result text (error_messages ++ ["pdfminer extraction failed: " +++ raised_str e])
    end.

(** [extract_text_from_docx] *)
Definition extract_text_from_docx (file_path : string) : outcome string :=
  match docx_document file_path with
  | Returned doc =>
      Returned (join_lines (paragraphs doc ++ List.concat (List.concat (tables doc))))
  | Raised e => Raised (Exception ("Failed to extract text from DOCX: " +++ raised_str e))
  end.

(** [extract_text_from_txt] *)
Definition extract_text_from_txt (file_path : string) : outcome string :=
  match read_text file_path Utf8 with
  | Returned text => Returned text
  | Raised (UnicodeDecodeError _) =>
      match read_text file_path Latin1 with
      | Returned text => Returned text
      | Raised e => Raised e
      end
  | Raised e => Raised (Exception ("Failed to extract text from TXT: " +++ raised_str e))
  end.

(** [extract_text] *)
Definition extract_text (file_path : string) : outcome string :=
  let ext := str_lower (snd (splitext file_path)) in
  if String.eqb ext ".pdf" then extract_text_from_pdf file_path
  else if String.eqb ext ".docx" then extract_text_from_docx file_path
  else if String.eqb ext ".txt" then extract_text_from_txt file_path
  else Raised (ValueError ("Unsupported file format: " +++ ext)).

Definition failed_cv (file_path error_msg : string) : processed_cv :=
  {| doc_filename := basename file_path; doc_error := Some error_msg;
     doc_full_text := None; doc_sections := None |}.

(** [process_cv] *)
Definition process_cv (file_path : string) : processed_cv :=
  let body :=
    if negb (path_exists file_path)
    then Returned (failed_cv file_path ("File does not exist: " +++ file_path))
    else
      and_then (extract_text file_path) (fun text =>
      if is_empty text || (String.length (str_strip text) =? 0)
      then Returned (failed_cv file_path ("No text could be extracted from " +++ file_path))
      else
        and_then (preprocess_cv_text text) (fun processed_text =>
        let sections := extract_sections processed_text in
        Returned {| doc_filename := basename file_path; doc_error := None;
                    doc_full_text := Some processed_text;
                    doc_sections := Some sections |})) in
  match body with
  | Returned d => d
  | Raised e =>
      failed_cv file_path ("Error processing CV " +++ file_path +++ ": " +++ raised_str e)
  end.

(** [process_batch] *)
Definition process_batch (file_paths : list string) : list processed_cv :=
  map process_cv file_paths.

End Libraries.

End Processor.

(** ** Notions used to state the properties of the document processor *)

Module TextNotions.
Import Py Text Processor.

(** No character of [s] is [a]. *)
Fixpoint lacks (a : ascii) (s : string) : Prop :=
  match s with
  | EmptyString => True
  | String c s' => c <> a /\ lacks a s'
  end.

(** Every character of [s] satisfies [p]. *)
Fixpoint every (p : ascii -> bool) (s : string) : Prop :=
  match s with
  | EmptyString => True
  | String c s' => p c = true /\ every p s'
  end.

(** [s] is empty or holds whitespace only. *)
Fixpoint blank (s : string) : bool :=
  match s with
  | EmptyString => true
  | String c s' => is_space c && blank s'
  end.

(** A space, or a printable character that is not whitespace. *)
Definition plain_char (c : ascii) : bool :=
  Ascii.eqb c " " || (is_printable c && negb (is_space c)).

(** The text of pages, each followed by a newline. *)
Fixpoint pages_text (pages : list string) : string :=
  match pages with
  | [] => EmptyString
  | page :: pages' => page +++ String newline (pages_text pages')
  end.

(** The line, lowered, holds a section header. *)
Definition is_header (line : string) : bool :=
  match header_of section_patterns (str_lower line) with
  | Some _ => true
  | None => false
  end.

Definition no_sections : sections :=
  {| skills := EmptyString; experience := EmptyString;
     education := EmptyString; other := EmptyString |}.

(** The last character of [s], and [prev] when [s] is empty. *)
Fixpoint last_char (prev : option ascii) (s : string) : option ascii :=
  match s with
  | EmptyString => prev
  | String c s' => last_char (Some c) s'
  end.

(** [before] does not end with a word character, [after] does not start
    with one: a word put between them is a word of its own. *)
Definition ends_word_free (before : string) : bool :=
  negb (Regex.word_before (last_char None before)).

Definition starts_word_free (after : string) : bool := negb (Regex.word_after after).

(** The names of the three main sections. *)
Definition section_words : list string := ["skills"; "experience"; "education"].

(** The lines collected for the four sections together. *)
Definition collected_lines (c : collected) : list string :=
  skills_lines c ++ experience_lines c ++ education_lines c ++ other_lines c.

(** The stripped line is kept by the loop over the lines: it is not empty
    and holds no section header. *)
Definition kept_line (line : string) : bool :=
  negb (Processor.is_empty line) && negb (is_header line).

(** [time.sleep] accepts the number of seconds: not negative, not NaN. *)
Definition sleepable (seconds : float) : bool :=
  negb (PrimFloat.ltb seconds 0) && PrimFloat.eqb seconds seconds.

(** The value is a dict. *)
Definition is_dict (v : pyval) : bool :=
  match v with
  | PyDict _ => true
  | _ => false
  end.

(** The three categories of an evaluation. *)
Definition categories : list string := ["skills"; "experience"; "education"].

End TextNotions.

(** ** Sample documents and libraries *)

Module Documents.
Import Py Text Processor.

(** A PDF of two pages that [PyPDF2] reads, and that [pdfminer] cannot. *)
Definition two_pages : string -> outcome (list (outcome string)) :=
  fun _ => Returned [Returned "Jane Doe"; Returned "Python developer"].

(** A PDF whose second page [PyPDF2] cannot read. *)
Definition broken_second_page : string -> outcome (list (outcome string)) :=
  fun _ => Returned [Returned "Jane Doe"; Raised (Exception "bad xref")].

Definition failing_pdfminer : string -> outcome string :=
  fun _ => Raised (Exception "no pages").

(** A PDF of one page of more than 100 characters. *)
Definition long_page_text : string :=
  "Jane Doe is a data engineer with ten years of work on pipelines, warehouses and "
  +++ "streaming systems in Python, SQL and Spark.".

Definition long_page : string -> outcome (list (outcome string)) :=
  fun _ => Returned [Returned long_page_text].

Definition no_document : string -> outcome document :=
  fun _ => Raised (Exception "not a document").

(** A text file read as the CV of Jane Doe, whatever the encoding. *)
Definition jane_doe_text : string :=
  "Jane Doe" +++ String newline ("Work Experience" +++ String newline "Acme, 2019-2024").

Definition read_jane_doe : string -> encoding -> outcome string :=
  fun _ _ => Returned jane_doe_text.

Definition every_path : string -> bool := fun _ => true.

Definition no_path : string -> bool := fun _ => false.

(** A callee of [process_with_retry] that sends its request and raises. *)
Definition raising_call : string -> string -> Client.M Client.response :=
  fun system_prompt user_prompt w =>
    (Raise (APIError "Connection error."), Client.log_request system_prompt user_prompt w).

(** [2 ** k] *)
Definition two_to_the (k : Z) : float := Samples.repeat_mul 2 (Z.to_nat k).

(** An evaluation whose experience is a number, not an object. *)
Definition flat_experience : pyval :=
  PyDict [("skills", PyDict [("score", PyInt 8)]);
          ("experience", PyInt 6);
          ("education", PyDict [("score", PyInt 10)])].

(** Three lines of a CV, none of them about skills. *)
Definition hobbies_text : string :=
  "Jane Doe" +++ String newline ("Hobbies: Chess" +++ String newline "Born in 1990").

Definition upload : Uploader.uploaded_file :=
  {| Uploader.name := "Jane Doe.CV.PDF"; Uploader.size := 120000 |}.

End Documents.

(** * Properties *)

(** ** The response parser *)

Module ParserFacts.
Import Py Client Strategies.

Section Decoder.

Variable json_loads : string -> result pyval.

Lemma first_structured_has_keys :
  forall matches v,
    first_structured json_loads matches = Some v -> has_category_keys v = Ok true.
Proof.
  induction matches as [|m rest IH]; intros v H; simpl in H.
  - discriminate.
  - destruct (json_loads m) as [decoded|e]; simpl in H.
    + destruct (has_category_keys decoded) as [[|]|e] eqn:Hkeys; simpl in H.
      * inversion H; subst; exact Hkeys.
      * apply IH; exact H.
      * apply IH; exact H.
    + apply IH; exact H.
Qed.

Lemma last_resort_chain :
  forall content,
    match last_resort json_loads content with
    | Some v => Ok v
    | None => Ok (parse_failure content)
    end =
    match first_verdict [whole_reply json_loads; brace_span json_loads] content with
    | Accept v => Ok v
    | Pass => Ok (parse_failure content)
    | Abort e => Raise e
    end.
Proof.
  intros content. unfold last_resort, whole_reply, brace_span. simpl.
  destruct (json_loads content); [reflexivity|].
  destruct (negb (str_find content "{" =? -1)%Z && negb (str_rfind content "}" =? -1)%Z
            && (str_rfind content "}" >? str_find content "{")%Z); [|reflexivity].
  destruct (json_loads _); reflexivity.
Qed.

(** The body of the parser is the chain of the five strategies: the first
    verdict that is not a pass decides, and when all pass the outcome is the
    parse failure record. *)
Lemma parse_body_chain :
  forall content,
    parse_body json_loads content =
      match first_verdict (strategies json_loads) content with
      | Accept v => Ok v
      | Pass => Ok (parse_failure content)
      | Abort e => Raise e
      end.
Proof.
  intros content. unfold parse_body, strategies.
  cbn [first_verdict]. unfold brace_scan at 1.
  destruct (first_structured json_loads (Re.findall_braces content)); [reflexivity|].
  unfold labeled_fence at 1.
  destruct (str_contains "```json" content).
  - destruct (labeled_block content) as [json_str|e]; simpl; [|reflexivity].
    destruct (json_loads json_str); reflexivity.
  - unfold any_fence at 1.
    destruct (str_contains "```" content).
    + destruct (first_decoded json_loads (Re.findall_code_blocks content)); [reflexivity|].
      apply last_resort_chain.
    + apply last_resort_chain.
Qed.

Lemma eqb_empty_false :
  forall s, s <> EmptyString -> String.eqb s EmptyString = false.
Proof.
  intros s H. destruct (String.eqb_spec s EmptyString); [contradiction|reflexivity].
Qed.

(** What [parse_json_response] returns on a non-empty reply, by the verdict
    of the chain. *)
Lemma parse_nonempty :
  forall response,
    resp_error response = None ->
    content_of response <> EmptyString ->
    parse_json_response json_loads response =
      Ok match first_verdict (strategies json_loads) (content_of response) with
         | Accept v => v
         | Pass => parse_failure (content_of response)
         | Abort e => exception_fallback e
         end.
Proof.
  intros response Herr Hne. unfold parse_json_response.
  rewrite Herr, (eqb_empty_false _ Hne), parse_body_chain.
  destruct (first_verdict (strategies json_loads) (content_of response)); reflexivity.
Qed.


(** C5 (as amended).  The parser never raises.  On an empty reply it returns
    the bare error record, with no fallback evaluation.  On a non-empty
    reply it returns the value a strategy accepted, and, when every strategy
    has passed, the parse failure record: the first 500 characters of the
    reply in its error text, score 0, the reasoning "Error parsing
    response" and empty strengths and gaps in every category, and overall
    score 0. *)
Theorem parse_never_raises :
  forall response,
    (exists v, parse_json_response json_loads response = Ok v)
    /\ (resp_error response = None ->
        (content_of response = EmptyString ->
           parse_json_response json_loads response =
             Ok (PyDict [("error", PyStr "Empty response from model")]))
        /\ (content_of response <> EmptyString ->
            (forall v,
               first_verdict (strategies json_loads) (content_of response) = Accept v ->
               parse_json_response json_loads response = Ok v)
            /\ (first_verdict (strategies json_loads) (content_of response) = Pass ->
                let zero :=
                  PyDict [("score", PyInt 0); ("reasoning", PyStr "Error parsing response");
                          ("strengths", PyList []); ("gaps", PyList [])] in
                parse_json_response json_loads response =
                  Ok (PyDict
                        [("error",
                          PyStr ("Could not parse JSON from response. Raw response: "
                                 +++ str_take 500 (content_of response) +++ "..."));
                         ("skills", zero); ("experience", zero); ("education", zero);
                         ("overall",
                          PyDict [("score", PyInt 0);
                                  ("reasoning", PyStr "Error parsing response")])])))).
Proof.
  intros response. split.
  - unfold parse_json_response.
    destruct (resp_error response); [eexists; reflexivity|].
    destruct (String.eqb (content_of response) EmptyString); [eexists; reflexivity|].
    destruct (parse_body json_loads (content_of response)); eexists; reflexivity.
  - intros Herr. split.
    + intros Hempty. unfold parse_json_response. rewrite Herr, Hempty. reflexivity.
    + intros Hne. rewrite (parse_nonempty response Herr Hne). split.
      * intros v Hv. rewrite Hv. reflexivity.
      * intros Hpass. rewrite Hpass. reflexivity.
Qed.

(** When the labeled block is reached and fails to decode, the exception
    leaves the body of the outer [try]: the parser returns the handler's
    record and none of the later strategies is tried. *)
Lemma labeled_failure_ends_parse :
  forall response e,
    resp_error response = None ->
    content_of response <> EmptyString ->
    brace_scan json_loads (content_of response) = Pass ->
    labeled_fence json_loads (content_of response) = Abort e ->
    parse_json_response json_loads response = Ok (exception_fallback e).
Proof.
  intros response e Herr Hne Hscan Hlabel.
  rewrite (parse_nonempty response Herr Hne).
  unfold strategies. cbn [first_verdict]. rewrite Hscan, Hlabel. reflexivity.
Qed.

End Decoder.



(** C5, counterexample.  The empty reply yields a bare error: it is neither
    a record with the three keys nor the parse failure record with its
    fallback evaluation. *)
Lemma parse_empty_reply_has_no_fallback :
  parse_json_response Json.loads (Samples.reply EmptyString)
    = Ok (PyDict [("error", PyStr "Empty response from model")])
  /\ has_category_keys (PyDict [("error", PyStr "Empty response from model")]) = Ok false
  /\ PyDict [("error", PyStr "Empty response from model")] <> parse_failure EmptyString.
Proof. vm_compute. repeat split. discriminate. Qed.

Example parse_garbage_reply :
  parse_json_response Json.loads (Samples.reply Samples.garbage_reply)
    = Ok (parse_failure Samples.garbage_reply).
Proof. vm_compute. reflexivity. Qed.

(** C6, at the failing input.  The labeled block does not decode; the parser
    returns the outer handler's record, although the unlabeled block that
    follows holds a record the third strategy accepts. *)
Lemma labeled_block_failure_skips_later_strategies :
  (exists e,
     labeled_fence Json.loads Samples.reply_with_broken_labeled_block = Abort e
     /\ parse_json_response Json.loads (Samples.reply Samples.reply_with_broken_labeled_block)
        = Ok (exception_fallback e))
  /\ any_fence Json.loads Samples.reply_with_broken_labeled_block
     = Accept (PyDict [("skills", PyDict [("score", PyInt 7)])]).
Proof.
  split.
  - eexists. split; vm_compute; reflexivity.
  - vm_compute. reflexivity.
Qed.

End ParserFacts.

(** ** The retry wrapper *)

Module RetryFacts.
Import Py Client.

(** [generate_evaluation] sends one request and returns a response, whatever
    the endpoint does: its handler leaves no exception to the caller. *)
Lemma generate_evaluation_returns :
  forall create system_prompt user_prompt w,
    exists r,
      generate_evaluation create system_prompt user_prompt w
        = (Ok r, log_request system_prompt user_prompt w).
Proof.
  intros create system_prompt user_prompt w. unfold generate_evaluation.
  destruct (create (List.length (requests w)) system_prompt user_prompt) as [e|c];
    [eexists; reflexivity|].
  destruct (choices c) as [|[content|] rest]; try (eexists; reflexivity).
  destruct (usage c); eexists; reflexivity.
Qed.

(** An endpoint failure becomes the error response that carries its
    message. *)
Lemma generate_evaluation_api_failure :
  forall create system_prompt user_prompt w e,
    create (List.length (requests w)) system_prompt user_prompt = ApiRaises e ->
    generate_evaluation create system_prompt user_prompt w
      = (Ok (error_response (exn_str e)), log_request system_prompt user_prompt w).
Proof.
  intros create system_prompt user_prompt w e H. unfold generate_evaluation.
  rewrite H. reflexivity.
Qed.

(** One call of [generate_evaluation] sends exactly one request and returns
    a response without raising; when the request fails, the response is the
    error that carries the failure's message. *)
Theorem generate_evaluation_one_request :
  forall create system_prompt user_prompt w,
    exists r,
      generate_evaluation create system_prompt user_prompt w
        = (Ok r,
           {| requests := requests w ++ [(system_prompt, user_prompt)];
              sleeps := sleeps w |})
      /\ (forall e,
            create (List.length (requests w)) system_prompt user_prompt = ApiRaises e ->
            r = error_response (exn_str e)).
Proof.
  intros create system_prompt user_prompt w.
  destruct (generate_evaluation_returns create system_prompt user_prompt w) as [r Hr].
  exists r. split; [exact Hr|].
  intros e He. rewrite (generate_evaluation_api_failure _ _ _ _ _ He) in Hr.
  inversion Hr. reflexivity.
Qed.

Section Loop.

Variable generate : string -> string -> M response.
Variable float_pow : float -> Z -> result float.

(** The bound [process_with_retry] gives the loop is never exhausted: with
    as many steps left as retries left, the loop obeys the equation of the
    [while] statement. *)
Lemma retry_loop_fuel :
  forall system_prompt user_prompt max_retries backoff_factor retry w,
    (0 <= retry < max_retries)%Z ->
    retry_loop generate float_pow (Z.to_nat (max_retries - retry))
      system_prompt user_prompt max_retries backoff_factor retry w
    = mtry (r <- generate system_prompt user_prompt ;; ret (Some r))
        (fun e =>
           if (retry + 1 >=? max_retries)%Z
           then ret (Some (error_response (exn_str e)))
           else
             sleep_time <- lift (float_pow backoff_factor (retry + 1)%Z) ;;
             _ <- time_sleep sleep_time ;;
             retry_loop generate float_pow (Z.to_nat (max_retries - (retry + 1)))
               system_prompt user_prompt max_retries backoff_factor (retry + 1)%Z) w.
Proof.
  intros system_prompt user_prompt max_retries backoff_factor retry w Hrange.
  replace (Z.to_nat (max_retries - retry))
    with (S (Z.to_nat (max_retries - (retry + 1)))) by lia.
  cbn [retry_loop].
  replace (retry <? max_retries)%Z with true by (symmetry; apply Z.ltb_lt; lia).
  reflexivity.
Qed.

(** Once the counter has reached [max_retries] the loop is over, whatever
    the bound. *)
Lemma retry_loop_done :
  forall fuel system_prompt user_prompt max_retries backoff_factor retry w,
    (max_retries <= retry)%Z ->
    retry_loop generate float_pow fuel system_prompt user_prompt
      max_retries backoff_factor retry w = (Ok None, w).
Proof.
  intros fuel system_prompt user_prompt max_retries backoff_factor retry w Hdone.
  destruct fuel; cbn [retry_loop];
    replace (retry <? max_retries)%Z with false by (symmetry; apply Z.ltb_ge; lia);
    reflexivity.
Qed.

(** C10.  With [max_retries <= 0] the loop body is never entered: the
    wrapper returns [None], neither a response nor an error, and sends no
    request. *)
Theorem process_with_retry_without_retries :
  forall system_prompt user_prompt max_retries backoff_factor w,
    (max_retries <= 0)%Z ->
    process_with_retry generate float_pow system_prompt user_prompt
      max_retries backoff_factor w = (Ok None, w).
Proof.
  intros system_prompt user_prompt max_retries backoff_factor w Hmax.
  unfold process_with_retry. apply retry_loop_done. exact Hmax.
Qed.

(** When the call does not raise, the wrapper returns its response after
    this one call. *)
Lemma process_with_retry_first_call :
  forall system_prompt user_prompt max_retries backoff_factor w r w',
    (0 < max_retries)%Z ->
    generate system_prompt user_prompt w = (Ok r, w') ->
    process_with_retry generate float_pow system_prompt user_prompt
      max_retries backoff_factor w = (Ok (Some r), w').
Proof.
  intros system_prompt user_prompt max_retries backoff_factor w r w' Hmax Hgen.
  unfold process_with_retry.
  replace (Z.to_nat max_retries) with (Z.to_nat (max_retries - 0))
    by (f_equal; lia).
  rewrite retry_loop_fuel by lia.
  unfold mtry, mbind, ret. rewrite Hgen. reflexivity.
Qed.

End Loop.

(** C2, the behaviour of the code.  For every endpoint and every positive
    [max_retries], the wrapper sends exactly one request, never sleeps, and
    returns what [generate_evaluation] returned: this is an error response
    when the request failed.  A failed request is not retried, because
    [generate_evaluation] has already turned the failure into a response. *)
Theorem process_with_retry_never_retries :
  forall create float_pow system_prompt user_prompt max_retries backoff_factor w,
    (0 < max_retries)%Z ->
    exists r,
      process_with_retry (generate_evaluation create) float_pow
        system_prompt user_prompt max_retries backoff_factor w
      = (Ok (Some r),
         {| requests := requests w ++ [(system_prompt, user_prompt)];
            sleeps := sleeps w |})
      /\ (forall e,
            create (List.length (requests w)) system_prompt user_prompt = ApiRaises e ->
            r = error_response (exn_str e)).
Proof.
  intros create float_pow system_prompt user_prompt max_retries backoff_factor w Hmax.
  destruct (generate_evaluation_returns create system_prompt user_prompt w) as [r Hr].
  exists r. split.
  - exact (process_with_retry_first_call _ float_pow _ _ _ backoff_factor _ _ _ Hmax Hr).
  - intros e He.
    rewrite (generate_evaluation_api_failure _ _ _ _ _ He) in Hr.
    inversion Hr. reflexivity.
Qed.

(** At the failing input: three retries allowed, an endpoint that always
    fails; one request, no sleep. *)
Lemma process_with_retry_never_retries_witness :
  exists r,
    process_with_retry (generate_evaluation Samples.failing_api) Samples.pow_by_mul
      "system" "user" 3 2 initial_world
    = (Ok (Some r), {| requests := [("system", "user")]; sleeps := [] |})
    /\ (forall e,
          Samples.failing_api 0 "system" "user" = ApiRaises e ->
          r = error_response (exn_str e)).
Proof.
  apply (process_with_retry_never_retries Samples.failing_api Samples.pow_by_mul
           "system" "user" 3 2 initial_world).
  reflexivity.
Defined.

Lemma process_with_retry_without_retries_witness :
  process_with_retry (generate_evaluation Samples.failing_api) Samples.pow_by_mul
    "system" "user" 0 2 initial_world = (Ok None, initial_world).
Proof.
  apply (process_with_retry_without_retries (generate_evaluation Samples.failing_api)
           Samples.pow_by_mul "system" "user" 0 2 initial_world).
  discriminate.
Defined.

(** The loop does retry a call that raises: three attempts, and sleeps of
    [2 ** 1] and [2 ** 2] seconds between them. *)
Example retry_loop_retries_a_raising_call :
  process_with_retry (fun _ _ => throw (APIError "Connection error.")) Samples.pow_by_mul
    "system" "user" 3 2 initial_world
  = (Ok (Some (error_response "Connection error.")),
     {| requests := []; sleeps := [2%float; 4%float] |}).
Proof. vm_compute. reflexivity. Qed.

End RetryFacts.

(** ** The weighted score *)

Module ScoringFacts.
Import Py Config Engine.

Lemma py_mul_float_number :
  forall v f w, score_as_float v = Some f -> py_mul_float v w = Ok (f * w)%float.
Proof.
  intros v f w H. destruct v; simpl in H; try discriminate.
  - simpl. destruct (float_of_int z); [|discriminate].
    inversion H; subst. reflexivity.
  - inversion H; subst. reflexivity.
Qed.

(** C7 (as amended).  For a record whose three categories carry numeric
    scores, the weighted score is the binary64 value of
    [skills * w_skills + experience * w_experience + education * w_education],
    summed in this order, with no clamping or normalization.  For the
    weights 0.4, 0.4, 0.2 and the scores 8, 6, 10 this value is
    7.6000000000000005. *)
Theorem weighted_score_formula :
  forall weights d skills experience education v1 v2 v3 f1 f2 f3,
    dict_lookup d "skills" = Some (PyDict skills) ->
    dict_lookup d "experience" = Some (PyDict experience) ->
    dict_lookup d "education" = Some (PyDict education) ->
    dict_lookup skills "score" = Some v1 ->
    dict_lookup experience "score" = Some v2 ->
    dict_lookup education "score" = Some v3 ->
    score_as_float v1 = Some f1 ->
    score_as_float v2 = Some f2 ->
    score_as_float v3 = Some f3 ->
    calculate_weighted_score weights (PyDict d)
      = (f1 * w_skills weights + f2 * w_experience weights + f3 * w_education weights)%float
    /\ calculate_weighted_score WEIGHTS Samples.full_record = 7.6000000000000005%float.
Proof.
  intros weights d skills experience education v1 v2 v3 f1 f2 f3
    Hs He Hd Hs1 Hs2 Hs3 Hf1 Hf2 Hf3.
  split; [|vm_compute; reflexivity].
  unfold calculate_weighted_score, py_get.
  rewrite Hs, He, Hd. cbn [bind]. rewrite Hs1, Hs2, Hs3. cbn [bind].
  rewrite (py_mul_float_number _ _ _ Hf1), (py_mul_float_number _ _ _ Hf2),
    (py_mul_float_number _ _ _ Hf3).
  reflexivity.
Qed.

Lemma weighted_score_formula_witness :
  calculate_weighted_score WEIGHTS Samples.full_record = (8 * 0.4 + 6 * 0.4 + 10 * 0.2)%float
  /\ calculate_weighted_score WEIGHTS Samples.full_record = 7.6000000000000005%float.
Proof.
  apply (weighted_score_formula WEIGHTS
           [("skills", PyDict [("score", PyInt 8)]);
            ("experience", PyDict [("score", PyInt 6)]);
            ("education", PyDict [("score", PyInt 10)])]
           [("score", PyInt 8)] [("score", PyInt 6)] [("score", PyInt 10)]
           (PyInt 8) (PyInt 6) (PyInt 10) 8%float 6%float 10%float);
    reflexivity.
Defined.

(** C7, counterexample.  The weighted score of the example is not the
    [float] 7.6: the two differ in the last bit, and Python's [==] tells
    them apart. *)
Lemma weighted_score_example_is_not_7_6 :
  calculate_weighted_score WEIGHTS Samples.full_record <> 7.6%float
  /\ PrimFloat.eqb (calculate_weighted_score WEIGHTS Samples.full_record) 7.6 = false.
Proof.
  split; [|vm_compute; reflexivity].
  intros H.
  assert (Heq : PrimFloat.eqb (calculate_weighted_score WEIGHTS Samples.full_record) 7.6 = true)
    by (rewrite H; vm_compute; reflexivity).
  vm_compute in Heq. discriminate.
Qed.

(** No clamping: a score outside [0, 10] and weights that do not sum to one
    go through the formula unchanged. *)
Example weighted_score_is_not_clamped :
  calculate_weighted_score {| w_skills := 2; w_experience := 1; w_education := 1 |}
    (PyDict [("skills", PyDict [("score", PyInt 50)]);
             ("experience", PyDict [("score", PyInt (-3))]);
             ("education", PyDict [("score", PyFloat 0.5)])])
  = 97.5%float.
Proof. vm_compute. reflexivity. Qed.

End ScoringFacts.

(** ** Sorting by score *)

Module SortFacts.
Import Py Engine Notions.

Lemma insert_by_score_perm :
  forall x l, Permutation (x :: l) (insert_by_score x l).
Proof.
  intros x l. induction l as [|y l IH]; simpl.
  - apply Permutation_refl.
  - destruct (num_ltb (score y) (score x)).
    + eapply Permutation_trans; [apply perm_swap|]. apply perm_skip. exact IH.
    + apply Permutation_refl.
Qed.

Lemma sort_by_score_perm :
  forall l, Permutation l (sort_by_score l).
Proof.
  induction l as [|x l IH]; simpl.
  - apply Permutation_refl.
  - eapply Permutation_trans; [apply perm_skip; exact IH|]. apply insert_by_score_perm.
Qed.

Lemma sorted_by_score_desc_perm :
  forall l, Permutation (sorted_by_score_desc l) l.
Proof.
  intros l. unfold sorted_by_score_desc.
  eapply Permutation_trans; [apply Permutation_sym, Permutation_rev|].
  eapply Permutation_trans; [apply Permutation_sym, sort_by_score_perm|].
  apply Permutation_sym, Permutation_rev.
Qed.

Lemma StronglySorted_app :
  forall (A : Type) (R : A -> A -> Prop) (l1 l2 : list A),
    StronglySorted R l1 -> StronglySorted R l2 ->
    (forall x y, In x l1 -> In y l2 -> R x y) ->
    StronglySorted R (l1 ++ l2).
Proof.
  intros A R l1 l2 H1 H2 Hcross. induction l1 as [|a l1 IH]; simpl.
  - exact H2.
  - inversion H1 as [|a' l1' Hs Hall]; subst. constructor.
    + apply IH; [exact Hs|]. intros x y Hx Hy. apply Hcross; [right; exact Hx|exact Hy].
    + apply Forall_app. split; [exact Hall|].
      apply Forall_forall. intros y Hy. apply Hcross; [left; reflexivity|exact Hy].
Qed.

Lemma StronglySorted_rev :
  forall (A : Type) (R : A -> A -> Prop) (l : list A),
    StronglySorted R l -> StronglySorted (fun x y => R y x) (rev l).
Proof.
  intros A R l H. induction H as [|a l Hs IH Hall]; simpl.
  - constructor.
  - apply StronglySorted_app.
    + exact IH.
    + constructor; constructor.
    + intros x y Hx Hy. destruct Hy as [Hy|[]]. subst y.
      apply in_rev in Hx. rewrite Forall_forall in Hall. apply Hall. exact Hx.
Qed.

Lemma filter_rev :
  forall (A : Type) (p : A -> bool) (l : list A), filter p (rev l) = rev (filter p l).
Proof.
  intros A p l. induction l as [|a l IH]; simpl; [reflexivity|].
  rewrite filter_app, IH. simpl. destruct (p a); simpl; [reflexivity|].
  apply app_nil_r.
Qed.

Section Laws.

(** The scores on which [<] and [==] behave as a strict weak order and its
    ties. *)
Variable comparable : number -> Prop.

Hypothesis lt_asym :
  forall a b, comparable a -> comparable b -> num_ltb a b = true -> num_ltb b a = false.

Hypothesis lt_cotrans :
  forall a b c, comparable a -> comparable b -> comparable c ->
    num_ltb a c = true -> num_ltb a b = true \/ num_ltb b c = true.

Hypothesis eq_is_tie :
  forall a b, comparable a -> comparable b ->
    (num_eqb a b = true <-> num_ltb a b = false /\ num_ltb b a = false).

Lemma not_lt_geb :
  forall a b, comparable a -> comparable b -> num_ltb a b = false -> num_geb a b = true.
Proof.
  intros a b Ha Hb Hlt. unfold num_geb.
  destruct (num_ltb b a) eqn:Hba; [reflexivity|]. simpl.
  apply (eq_is_tie a b Ha Hb). split; assumption.
Qed.

Lemma insert_by_score_in :
  forall x y l, In y (insert_by_score x l) -> y = x \/ In y l.
Proof.
  intros x y l H.
  apply (Permutation_in y (Permutation_sym (insert_by_score_perm x l))) in H.
  destruct H as [H|H]; [left; symmetry; exact H|right; exact H].
Qed.

Lemma insert_by_score_ascending :
  forall x l,
    comparable (score x) -> comparable_scores comparable l ->
    ascending l -> ascending (insert_by_score x l).
Proof.
  intros x l Hx Hl Hs. induction Hs as [|y l Hs IH Hall]; simpl.
  - constructor; constructor.
  - inversion Hl as [|y' l' Hy Hl']; subst.
    destruct (num_ltb (score y) (score x)) eqn:Hyx.
    + constructor; [apply IH; exact Hl'|].
      apply Forall_forall. intros z Hz.
      destruct (insert_by_score_in _ _ _ Hz) as [Hz'|Hz'].
      * subst z. apply lt_asym; assumption.
      * rewrite Forall_forall in Hall. apply Hall. exact Hz'.
    + constructor; [constructor; assumption|].
      constructor; [exact Hyx|].
      apply Forall_forall. intros z Hz.
      destruct (num_ltb (score z) (score x)) eqn:Hzx; [|reflexivity].
      assert (Hcz : comparable (score z)).
      { rewrite Forall_forall in Hl'. exact (Hl' z Hz). }
      destruct (lt_cotrans _ (score y) _ Hcz Hy Hx Hzx) as [Hzy|Hyx'].
      * rewrite Forall_forall in Hall. rewrite (Hall z Hz) in Hzy. discriminate.
      * rewrite Hyx in Hyx'. discriminate.
Qed.

Lemma sort_by_score_ascending :
  forall l, comparable_scores comparable l -> ascending (sort_by_score l).
Proof.
  induction l as [|x l IH]; intros Hl; simpl.
  - constructor.
  - inversion Hl; subst. apply insert_by_score_ascending; try assumption.
    + apply Forall_forall. intros z Hz.
      apply (Permutation_in z (Permutation_sym (sort_by_score_perm l))) in Hz.
      match goal with H : Forall _ l |- _ => rewrite Forall_forall in H; exact (H z Hz) end.
    + apply IH. assumption.
Qed.

(** Inserting keeps the elements tied with [k] in their order: the
    inserted element passes only elements that are less than it. *)
Lemma insert_by_score_ties :
  forall k x l,
    comparable k -> comparable (score x) -> comparable_scores comparable l ->
    ties k (insert_by_score x l) = ties k (x :: l).
Proof.
  intros k x l Hk Hx Hl. induction l as [|y l IH]; [reflexivity|].
  inversion Hl as [|y' l' Hy Hl']; subst. simpl.
  destruct (num_ltb (score y) (score x)) eqn:Hyx; [|reflexivity].
  unfold ties in *. simpl in *. rewrite (IH Hl').
  destruct (num_eqb (score x) k) eqn:Hxk; [|reflexivity].
  destruct (num_eqb (score y) k) eqn:Hyk; [|reflexivity].
  exfalso.
  apply (eq_is_tie _ _ Hx Hk) in Hxk. apply (eq_is_tie _ _ Hy Hk) in Hyk.
  destruct Hxk as [_ Hkx]. destruct Hyk as [Hyk _].
  destruct (lt_cotrans _ k _ Hy Hk Hx Hyx) as [H|H]; congruence.
Qed.

Lemma sort_by_score_ties :
  forall k l, comparable k -> comparable_scores comparable l -> ties k (sort_by_score l) = ties k l.
Proof.
  intros k l Hk. induction l as [|x l IH]; intros Hl; [reflexivity|].
  inversion Hl; subst. simpl sort_by_score.
  rewrite insert_by_score_ties; try assumption.
  - unfold ties in *. simpl. rewrite IH by assumption. reflexivity.
  - apply Forall_forall. intros z Hz.
    apply (Permutation_in z (Permutation_sym (sort_by_score_perm l))) in Hz.
    match goal with H : Forall _ l |- _ => rewrite Forall_forall in H; exact (H z Hz) end.
Qed.

Lemma comparable_scores_rev :
  forall l, comparable_scores comparable l -> comparable_scores comparable (rev l).
Proof.
  intros l H. apply Forall_forall. intros z Hz. apply in_rev in Hz.
  unfold comparable_scores in H. rewrite Forall_forall in H. exact (H z Hz).
Qed.

(** The descending sort: non-increasing scores, ties in input order. *)
Lemma sorted_by_score_desc_non_increasing :
  forall l, comparable_scores comparable l -> non_increasing (sorted_by_score_desc l).
Proof.
  intros l Hl. unfold sorted_by_score_desc, non_increasing.
  assert (Hasc := sort_by_score_ascending (rev l) (comparable_scores_rev l Hl)).
  assert (Hc : comparable_scores comparable (sort_by_score (rev l))).
  { apply Forall_forall. intros z Hz.
    apply (Permutation_in z (Permutation_sym (sort_by_score_perm (rev l)))) in Hz.
    apply in_rev in Hz. unfold comparable_scores in Hl. rewrite Forall_forall in Hl.
    exact (Hl z Hz). }
  apply StronglySorted_rev in Hasc.
  clear Hl. revert Hasc.
  assert (Hc' : comparable_scores comparable (rev (sort_by_score (rev l)))) by
    (apply comparable_scores_rev; exact Hc).
  clear Hc. generalize dependent (rev (sort_by_score (rev l))).
  intros l0 Hc Hs. induction Hs as [|a l0 Hs IH Hall]; constructor.
  - apply IH. inversion Hc; assumption.
  - inversion Hc as [|a' l0' Ha Hl0]; subst.
    rewrite Forall_forall in *. intros z Hz.
    apply not_lt_geb; [exact Ha|exact (Hl0 z Hz)|exact (Hall z Hz)].
Qed.

Lemma sorted_by_score_desc_ties :
  forall k l, comparable k -> comparable_scores comparable l ->
    ties k (sorted_by_score_desc l) = ties k l.
Proof.
  intros k l Hk Hl. unfold sorted_by_score_desc, ties.
  rewrite filter_rev.
  fold (ties k (sort_by_score (rev l))).
  rewrite (sort_by_score_ties k (rev l) Hk (comparable_scores_rev l Hl)).
  unfold ties. rewrite filter_rev. apply rev_involutive.
Qed.

End Laws.

Lemma zero_lt_asym :
  forall a b, is_zero a -> is_zero b -> num_ltb a b = true -> num_ltb b a = false.
Proof. unfold is_zero. intros a b -> -> H. discriminate H. Qed.

Lemma zero_lt_cotrans :
  forall a b c, is_zero a -> is_zero b -> is_zero c ->
    num_ltb a c = true -> num_ltb a b = true \/ num_ltb b c = true.
Proof. unfold is_zero. intros a b c -> -> -> H. discriminate H. Qed.

Lemma zero_eq_is_tie :
  forall a b, is_zero a -> is_zero b ->
    (num_eqb a b = true <-> num_ltb a b = false /\ num_ltb b a = false).
Proof. unfold is_zero. intros a b -> ->. simpl. tauto. Qed.

(** A NaN among the scores is not ordered by [<]: the sort leaves 1, NaN, 2
    as they are. *)
Example sorted_by_score_desc_with_nan :
  map score (sorted_by_score_desc
               [Samples.ranked "a.pdf" None (Float 1) 1;
                Samples.ranked "b.pdf" None (Float nan) 2;
                Samples.ranked "c.pdf" None (Float 2) 3])
  = [Float 1; Float nan; Float 2].
Proof. vm_compute. reflexivity. Qed.

End SortFacts.

(** ** The order of the scores

    On engine scores that are not NaN, [<] is a strict weak order and [==]
    is its tie: the comparisons of [float]s are those of their binary64
    data, which [SFcompare] orders by sign, exponent and mantissa, and the
    [int] 0 compares as the [float] zero. *)

Module NumberFacts.
Import Py Notions.

Ltac sf_compare_cases :=
  repeat match goal with
         | s : bool |- _ => destruct s
         end;
  simpl in *;
  repeat match goal with
         | H : context [Z.compare ?a ?b] |- _ => destruct (Z.compare_spec a b); simpl in H
         | |- context [Z.compare ?a ?b] => destruct (Z.compare_spec a b); simpl
         | H : context [Pos.compare_cont Eq ?a ?b] |- _ =>
             change (Pos.compare_cont Eq a b) with (Pos.compare a b) in H;
             destruct (Pos.compare_spec a b); simpl in H
         | |- context [Pos.compare_cont Eq ?a ?b] =>
             change (Pos.compare_cont Eq a b) with (Pos.compare a b);
             destruct (Pos.compare_spec a b); simpl
         end;
  try discriminate; try reflexivity; try tauto; try lia.

Lemma SFltb_asym : forall x y, SFltb x y = true -> SFltb y x = false.
Proof.
  intros x y. unfold SFltb. destruct x, y; simpl; try discriminate; try reflexivity;
  sf_compare_cases.
Qed.

Lemma SFltb_cotrans :
  forall x y z, y <> S754_nan -> SFltb x z = true -> SFltb x y = true \/ SFltb y z = true.
Proof.
  intros x y z Hy. unfold SFltb.
  destruct x, y, z; simpl; try discriminate; try congruence; try (intros; tauto);
  sf_compare_cases; intros; try discriminate; try (left; reflexivity); try (right; reflexivity); try lia.
Qed.

Lemma SFeqb_tie :
  forall x y, x <> S754_nan -> y <> S754_nan ->
    (SFeqb x y = true <-> SFltb x y = false /\ SFltb y x = false).
Proof.
  intros x y Hx Hy. unfold SFeqb, SFltb.
  destruct x, y; simpl; try congruence; try tauto; sf_compare_cases;
  split; intros; try discriminate; try tauto; try lia; try (destruct H; discriminate); try (repeat split; reflexivity).
Qed.

Lemma is_number_key : forall n, is_number n -> key n <> S754_nan.
Proof.
  intros n [Hs Hnan]. destruct Hs as [Hn|[f Hn]]; subst n; simpl; [discriminate|].
  simpl in Hnan. apply negb_false_iff in Hnan.
  rewrite FloatAxioms.eqb_spec in Hnan. intros E. rewrite E in Hnan. discriminate.
Qed.

Lemma zero_compare_finite :
  forall (s : bool) (m : positive) (e : Z),
    (if (0 <=? e)%Z
     then (0 ?= (if s then Z.neg m else Z.pos m) * 2 ^ e)%Z
     else (0 * 2 ^ (- e) ?= (if s then Z.neg m else Z.pos m))%Z)
    = if s then Gt else Lt.
Proof.
  intros s m e. destruct (0 <=? e)%Z eqn:He.
  - apply Z.leb_le in He.
    assert (Hpow : (0 < 2 ^ e)%Z) by (apply Z.pow_pos_nonneg; lia).
    destruct s.
    + apply Z.compare_gt_iff. nia.
    + apply Z.compare_lt_iff. nia.
  - destruct s; reflexivity.
Qed.

Lemma int_float_compare_zero :
  forall f, int_float_compare 0 f = SFcompare (S754_zero false) (Prim2SF f).
Proof.
  intros f. unfold int_float_compare.
  destruct (Prim2SF f) as [s|s| |s m e]; try reflexivity.
  cbv zeta. rewrite zero_compare_finite. reflexivity.
Qed.

Lemma SFcompare_swap :
  forall x y, SFcompare y x = option_map CompOpp (SFcompare x y).
Proof.
  intros x y. destruct x, y; simpl; try reflexivity;
  repeat match goal with s : bool |- _ => destruct s end; simpl; try reflexivity;
  rewrite (Z.compare_antisym e e0); destruct (e ?= e0)%Z; simpl; try reflexivity;
  change (Pos.compare_cont Eq ?a ?b) with (Pos.compare a b);
  rewrite (Pos.compare_antisym m m0); destruct (m ?= m0)%positive; reflexivity.
Qed.

Lemma num_ltb_key :
  forall a b, is_number a -> is_number b -> num_ltb a b = SFltb (key a) (key b).
Proof.
  intros a b [Ha _] [Hb _]. destruct Ha as [Ha|[x Ha]]; destruct Hb as [Hb|[y Hb]]; subst a b; simpl.
  - reflexivity.
  - rewrite int_float_compare_zero. reflexivity.
  - rewrite int_float_compare_zero. unfold SFltb.
    rewrite (SFcompare_swap (S754_zero false) (Prim2SF x)).
    destruct (SFcompare (S754_zero false) (Prim2SF x)) as [[| |]|]; reflexivity.
  - apply FloatAxioms.ltb_spec.
Qed.

Lemma num_eqb_key :
  forall a b, is_number a -> is_number b -> num_eqb a b = SFeqb (key a) (key b).
Proof.
  intros a b [Ha _] [Hb _]. destruct Ha as [Ha|[x Ha]]; destruct Hb as [Hb|[y Hb]]; subst a b; simpl.
  - reflexivity.
  - rewrite int_float_compare_zero. reflexivity.
  - rewrite int_float_compare_zero. unfold SFeqb.
    rewrite (SFcompare_swap (S754_zero false) (Prim2SF x)).
    destruct (SFcompare (S754_zero false) (Prim2SF x)) as [[| |]|]; reflexivity.
  - apply FloatAxioms.eqb_spec.
Qed.

Lemma number_lt_asym :
  forall a b, is_number a -> is_number b -> num_ltb a b = true -> num_ltb b a = false.
Proof.
  intros a b Ha Hb. rewrite (num_ltb_key a b Ha Hb), (num_ltb_key b a Hb Ha).
  apply SFltb_asym.
Qed.

Lemma number_lt_cotrans :
  forall a b c, is_number a -> is_number b -> is_number c ->
    num_ltb a c = true -> num_ltb a b = true \/ num_ltb b c = true.
Proof.
  intros a b c Ha Hb Hc.
  rewrite (num_ltb_key a c Ha Hc), (num_ltb_key a b Ha Hb), (num_ltb_key b c Hb Hc).
  apply SFltb_cotrans. apply is_number_key. exact Hb.
Qed.

Lemma number_eq_is_tie :
  forall a b, is_number a -> is_number b ->
    (num_eqb a b = true <-> num_ltb a b = false /\ num_ltb b a = false).
Proof.
  intros a b Ha Hb.
  rewrite (num_eqb_key a b Ha Hb), (num_ltb_key a b Ha Hb), (num_ltb_key b a Hb Ha).
  apply SFeqb_tie; apply is_number_key; assumption.
Qed.

End NumberFacts.

(** ** Evaluating and ranking *)

Module EngineFacts.
Import Py Client Config Engine Strategies Notions SortFacts NumberFacts.

(** [str.format] reads the brace that opens the JSON example of
    [EVALUATION_PROMPT_TEMPLATE] as the start of a replacement field.  The
    field's name is no keyword argument, so [format_prompt] raises
    [KeyError] for every job description and every CV. *)
Lemma format_prompt_raises :
  forall job_description cv,
    format_prompt job_description cv = Raise (KeyError template_stray_field).
Proof. intros job_description cv. vm_compute. reflexivity. Qed.

Lemma concat_slices :
  forall (A : Type) (l : list A) (count first : nat),
    List.length l <= (first + count) * BATCH_SIZE ->
    List.concat (map (fun i => list_slice l i (i + BATCH_SIZE))
              (map (fun k => k * BATCH_SIZE) (seq first count)))
    = skipn (first * BATCH_SIZE) l.
Proof.
  intros A l count. induction count as [|count IH]; intros first Hlen.
  - simpl. symmetry. apply skipn_all2. lia.
  - cbn [seq map List.concat]. rewrite (IH (S first)) by lia.
    unfold list_slice.
    replace (first * BATCH_SIZE + BATCH_SIZE - first * BATCH_SIZE) with BATCH_SIZE by lia.
    replace (S first * BATCH_SIZE) with (BATCH_SIZE + first * BATCH_SIZE) by lia.
    rewrite <- skipn_skipn. apply firstn_skipn.
Qed.

(** The batches of [rank_cvs] cover the list, in order and without
    overlap. *)
Lemma batches_cover :
  forall (A : Type) (l : list A),
    List.concat (map (fun i => list_slice l i (i + BATCH_SIZE))
              (range_step (List.length l) BATCH_SIZE)) = l.
Proof.
  intros A l. unfold range_step. rewrite concat_slices.
  - reflexivity.
  - change BATCH_SIZE with 5.
    pose proof (Nat.div_mod_eq (List.length l + 5 - 1) 5) as Hdiv.
    assert (Hmod : (List.length l + 5 - 1) mod 5 < 5) by (apply Nat.mod_upper_bound; lia).
    lia.
Qed.

Lemma assign_ranks_length :
  forall l i, List.length (assign_ranks i l) = List.length l.
Proof. induction l as [|r l IH]; intros i; simpl; [reflexivity|]. rewrite IH. reflexivity. Qed.

Lemma assign_ranks_filename :
  forall l i, map filename (assign_ranks i l) = map filename l.
Proof. induction l as [|r l IH]; intros i; simpl; [reflexivity|]. rewrite IH. reflexivity. Qed.

(** [rank = index + 1], the other keys unchanged. *)
Lemma assign_ranks_nth :
  forall l first i r,
    nth_error (assign_ranks first l) i = Some r ->
    exists r0, nth_error l i = Some r0 /\ r = set_rank r0 (Z.of_nat (first + i) + 1).
Proof.
  induction l as [|x l IH]; intros first i r H.
  - destruct i; discriminate H.
  - destruct i as [|i]; simpl in H.
    + inversion H; subst. exists x. split; [reflexivity|].
      rewrite Nat.add_0_r. reflexivity.
    + destruct (IH (S first) i r H) as [r0 [Hr0 Hr]].
      exists r0. split; [exact Hr0|].
      rewrite Hr. f_equal. lia.
Qed.

Section Generic.

Variable create : nat -> string -> string -> api_outcome.
Variable float_pow : float -> Z -> result float.
Variable json_loads : string -> result pyval.
Variable value_str : pyval -> string.
Variable weights : Config.weights.
Variable build_prompt : string -> cv_data -> result string.

Local Abbreviation evaluate :=
  (evaluate_cv_with create float_pow json_loads value_str weights build_prompt).
Local Abbreviation batch :=
  (batch_process_with create float_pow json_loads value_str weights build_prompt).
Local Abbreviation batches :=
  (process_batches create float_pow json_loads value_str weights build_prompt).

(** No exception of the evaluation of one CV reaches the batch. *)
Lemma evaluate_cv_with_returns :
  forall job_description cv w,
    exists r w', evaluate job_description cv w = (Ok r, w').
Proof.
  intros job_description cv w. unfold evaluate_cv_with, mtry.
  destruct (evaluate_cv_body _ _ _ _ _ _ _ _ w) as [[r|e] w']; eexists; eexists; reflexivity.
Qed.

(** A property every result of [evaluate_cv_with] has, relative to its CV. *)
Variable post : cv_data -> cv_result -> Prop.

Hypothesis evaluate_post :
  forall job_description cv w r w',
    evaluate job_description cv w = (Ok r, w') -> post cv r.

Lemma batch_process_with_returns :
  forall job_description cv_batch w,
    exists rs w',
      batch job_description cv_batch w = (Ok rs, w') /\ Forall2 post cv_batch rs.
Proof.
  intros job_description cv_batch. induction cv_batch as [|cv rest IH]; intros w.
  - exists [], w. split; [reflexivity|constructor].
  - destruct (evaluate_cv_with_returns job_description cv w) as [r [w1 Hr]].
    destruct (IH w1) as [rs [w2 [Hrs Hpost]]].
    exists (r :: rs), w2. split.
    + cbn [batch_process_with]. unfold mbind, ret. rewrite Hr, Hrs. reflexivity.
    + constructor; [exact (evaluate_post _ _ _ _ _ Hr)|exact Hpost].
Qed.

Lemma process_batches_returns :
  forall job_description cv_list starts all_results w,
    exists rs w',
      batches job_description cv_list starts all_results w = (Ok (all_results ++ rs), w')
      /\ Forall2 post
           (List.concat (map (fun i => list_slice cv_list i (i + BATCH_SIZE)) starts)) rs.
Proof.
  intros job_description cv_list starts.
  induction starts as [|i starts IH]; intros all_results w.
  - exists [], w. split; [simpl; rewrite app_nil_r; reflexivity|constructor].
  - destruct (batch_process_with_returns job_description
                (list_slice cv_list i (i + BATCH_SIZE)) w) as [rs1 [w1 [Hrs1 Hpost1]]].
    destruct (IH (all_results ++ rs1) w1) as [rs2 [w2 [Hrs2 Hpost2]]].
    exists (rs1 ++ rs2), w2. split.
    + cbn [process_batches]. unfold mbind. rewrite Hrs1, Hrs2, app_assoc. reflexivity.
    + cbn [map List.concat]. apply Forall2_app; assumption.
Qed.

(** [rank_cvs_with] evaluates every CV once, in input order, then sorts and
    ranks the results. *)
Lemma rank_cvs_with_returns :
  forall job_description cv_list w,
    exists all_results w',
      batches job_description cv_list (range_step (List.length cv_list) BATCH_SIZE) [] w
        = (Ok all_results, w')
      /\ Forall2 post cv_list all_results
      /\ rank_cvs_with create float_pow json_loads value_str weights build_prompt
           job_description cv_list w
         = (Ok (assign_ranks 0 (sorted_by_score_desc all_results)), w').
Proof.
  intros job_description cv_list w.
  destruct (process_batches_returns job_description cv_list
              (range_step (List.length cv_list) BATCH_SIZE) [] w) as [rs [w' [Hrs Hpost]]].
  rewrite batches_cover in Hpost. simpl in Hrs.
  exists rs, w'. split; [exact Hrs|]. split; [exact Hpost|].
  unfold rank_cvs_with, mbind, ret. rewrite Hrs. reflexivity.
Qed.

Lemma batch_process_with_app :
  forall job_description l1 l2 w,
    batch job_description (l1 ++ l2) w
    = (rs1 <- batch job_description l1 ;;
       rs2 <- batch job_description l2 ;;
       ret (rs1 ++ rs2)) w.
Proof.
  intros job_description l1 l2. induction l1 as [|cv l1 IH]; intros w.
  - simpl. unfold mbind, ret.
    destruct (batch job_description l2 w) as [[rs2|e] w2]; reflexivity.
  - cbn [app batch_process_with]. unfold mbind, ret in *.
    destruct (evaluate job_description cv w) as [[r|e] w1]; [|reflexivity].
    rewrite IH.
    destruct (batch job_description l1 w1) as [[rs1|e] w2]; [|reflexivity].
    destruct (batch job_description l2 w2) as [[rs2|e] w3]; reflexivity.
Qed.

Lemma process_batches_as_one_batch :
  forall job_description cv_list starts all_results w,
    batches job_description cv_list starts all_results w
    = (rs <- batch job_description
               (List.concat (map (fun i => list_slice cv_list i (i + BATCH_SIZE)) starts)) ;;
       ret (all_results ++ rs)) w.
Proof.
  intros job_description cv_list starts.
  induction starts as [|i starts IH]; intros all_results w.
  - simpl. unfold mbind, ret. simpl. rewrite app_nil_r. reflexivity.
  - cbn [process_batches map List.concat]. unfold mbind, ret in *.
    rewrite batch_process_with_app. unfold mbind, ret.
    destruct (batch job_description (list_slice cv_list i (i + BATCH_SIZE)) w)
      as [[rs1|e] w1]; [|reflexivity].
    rewrite IH.
    destruct (batch job_description _ w1) as [[rs2|e] w2]; [|reflexivity].
    rewrite app_assoc. reflexivity.
Qed.

(** Batching changes nothing: the loop over the batches evaluates the CVs
    as one batch of the whole list does. *)
Lemma batches_evaluate_in_input_order :
  forall job_description cv_list w,
    batches job_description cv_list (range_step (List.length cv_list) BATCH_SIZE) [] w
    = batch job_description cv_list w.
Proof.
  intros job_description cv_list w.
  rewrite process_batches_as_one_batch, batches_cover. unfold mbind, ret.
  destruct (batch job_description cv_list w) as [[rs|e] w1]; reflexivity.
Qed.

End Generic.

Section GenericResults.

Variable create : nat -> string -> string -> api_outcome.
Variable float_pow : float -> Z -> result float.
Variable json_loads : string -> result pyval.
Variable value_str : pyval -> string.
Variable weights : Config.weights.
Variable build_prompt : string -> cv_data -> result string.

Lemma failed_result_of :
  forall cv msg raw, result_of cv (failed_result (name_of cv) msg raw).
Proof. intros cv msg raw. repeat split. Qed.

Lemma evaluate_cv_body_result :
  forall job_description cv w r w',
    evaluate_cv_body create float_pow json_loads value_str weights build_prompt
      job_description cv w = (Ok r, w') ->
    result_of cv r.
Proof.
  intros job_description cv w r w' H.
  unfold evaluate_cv_body, mbind, lift, ret, throw in H.
  repeat match type of H with
         | context [match ?x with _ => _ end] => destruct x eqn:?
         end;
    try discriminate; inversion H; subst;
    try apply failed_result_of;
    (repeat split; eexists; reflexivity).
Qed.

Lemma evaluate_cv_with_result :
  forall job_description cv w r w',
    evaluate_cv_with create float_pow json_loads value_str weights build_prompt
      job_description cv w = (Ok r, w') ->
    result_of cv r.
Proof.
  intros job_description cv w r w' H. unfold evaluate_cv_with, mtry, ret in H.
  destruct (evaluate_cv_body _ _ _ _ _ _ _ _ w) as [[r0|e] w0] eqn:Hbody.
  - inversion H; subst. exact (evaluate_cv_body_result _ _ _ _ _ Hbody).
  - inversion H; subst. apply failed_result_of.
Qed.

(** Under a prompt builder that returns a prompt, the error paths and the
    warning path of [evaluate_cv] behave as the specification describes
    them. *)
Lemma evaluate_cv_with_api_failure :
  forall job_description cv w prompt e,
    cv_error cv = None ->
    text_of cv <> EmptyString ->
    build_prompt job_description cv = Ok prompt ->
    create (List.length (requests w)) SYSTEM_PROMPT prompt = ApiRaises e ->
    evaluate_cv_with create float_pow json_loads value_str weights build_prompt
      job_description cv w
    = (Ok (failed_result (name_of cv) ("API error: " +++ exn_str e) (Some EmptyString)),
       log_request SYSTEM_PROMPT prompt w).
Proof.
  intros job_description cv w prompt e Herr Htext Hprompt Hapi.
  unfold evaluate_cv_with, mtry, evaluate_cv_body.
  rewrite Herr, (ParserFacts.eqb_empty_false _ Htext).
  unfold mbind at 1, lift at 1. rewrite Hprompt.
  unfold mbind at 1.
  rewrite (RetryFacts.process_with_retry_first_call _ float_pow _ _ 3 2 _ _ _ eq_refl
             (RetryFacts.generate_evaluation_api_failure _ _ _ _ _ Hapi)).
  reflexivity.
Qed.

(** A reply that no strategy of the parser accepts gives the warning
    result: the zero-filled evaluation, its score and the diagnostic. *)
Lemma evaluate_cv_with_unparseable_reply :
  forall job_description cv w prompt content others u,
    cv_error cv = None ->
    text_of cv <> EmptyString ->
    build_prompt job_description cv = Ok prompt ->
    create (List.length (requests w)) SYSTEM_PROMPT prompt
      = ApiReturns {| choices := Some content :: others; usage := Some u |} ->
    content <> EmptyString ->
    first_verdict (strategies json_loads) content = Pass ->
    evaluate_cv_with create float_pow json_loads value_str weights build_prompt
      job_description cv w
    = (Ok {| filename := name_of cv; error := None;
             score := Float (calculate_weighted_score weights zero_evaluation);
             evaluation := zero_evaluation;
             warning :=
               Some (PyStr ("Could not parse JSON from response. Raw response: "
                            +++ str_take 500 content +++ "..."));
             raw_response := Some content; rank := None |},
       log_request SYSTEM_PROMPT prompt w).
Proof.
  intros job_description cv w prompt content others u Herr Htext Hprompt Hapi Hne Hpass.
  unfold evaluate_cv_with, mtry, evaluate_cv_body.
  rewrite Herr, (ParserFacts.eqb_empty_false _ Htext).
  unfold mbind at 1, lift at 1. rewrite Hprompt.
  unfold mbind at 1.
  assert (Hgen : generate_evaluation create SYSTEM_PROMPT prompt w
                 = (Ok (content_response content u), log_request SYSTEM_PROMPT prompt w)).
  { unfold generate_evaluation. rewrite Hapi. reflexivity. }
  rewrite (RetryFacts.process_with_retry_first_call _ float_pow _ _ 3 2 _ _ _ eq_refl Hgen).
  cbn [resp_error content_response content_of resp_content].
  unfold mbind at 1, lift at 1.
  rewrite (ParserFacts.parse_nonempty json_loads (content_response content u) eq_refl Hne).
  cbn [content_of resp_content content_response]. rewrite Hpass.
  reflexivity.
Qed.

(** No exception of the evaluation of one CV escapes: whatever the
    endpoint, the decoder and the prompt builder do, [evaluate_cv_with]
    returns a result for the CV. *)
Theorem evaluate_cv_with_never_raises :
  forall job_description cv w,
    exists r w',
      evaluate_cv_with create float_pow json_loads value_str weights build_prompt
        job_description cv w = (Ok r, w')
      /\ result_of cv r.
Proof.
  intros job_description cv w.
  destruct (evaluate_cv_with_returns create float_pow json_loads value_str weights
              build_prompt job_description cv w) as [r [w' Hr]].
  exists r, w'. split; [exact Hr|]. exact (evaluate_cv_with_result _ _ _ _ _ Hr).
Qed.

(** A document with an extraction error, or without text, is not sent to
    the endpoint: its result is a failure with score 0 and no evaluation. *)
Theorem evaluate_cv_with_invalid_document :
  forall job_description cv w,
    cv_error cv <> None \/ text_of cv = EmptyString ->
    exists msg,
      evaluate_cv_with create float_pow json_loads value_str weights build_prompt
        job_description cv w = (Ok (failed_result (name_of cv) msg None), w).
Proof.
  intros job_description cv w Hinvalid.
  unfold evaluate_cv_with, mtry, evaluate_cv_body.
  destruct (cv_error cv) as [err|]; [eexists; reflexivity|].
  destruct Hinvalid as [Herr|Htext]; [contradiction|].
  rewrite Htext. eexists. reflexivity.
Qed.

(** Batching is not observable: the loop over the batches evaluates the
    documents as one batch of the whole list does, with the same results,
    order and requests. *)
Theorem batching_is_unobservable :
  forall job_description cv_list w,
    process_batches create float_pow json_loads value_str weights build_prompt
      job_description cv_list (range_step (List.length cv_list) BATCH_SIZE) [] w
    = batch_process_with create float_pow json_loads value_str weights build_prompt
        job_description cv_list w.
Proof.
  intros job_description cv_list w. apply batches_evaluate_in_input_order.
Qed.

(** Whatever the prompt builder, [rank_cvs_with] gives every CV one result
    under its name. *)
Lemma rank_cvs_with_one_result_per_document :
  forall job_description cv_list w,
    exists ranked w',
      rank_cvs_with create float_pow json_loads value_str weights build_prompt
        job_description cv_list w = (Ok ranked, w')
      /\ List.length ranked = List.length cv_list
      /\ Permutation (map filename ranked) (map name_of cv_list).
Proof.
  intros job_description cv_list w.
  destruct (rank_cvs_with_returns create float_pow json_loads value_str weights build_prompt
              result_of evaluate_cv_with_result job_description cv_list w)
    as [all_results [w' [_ [Hpost Hrank]]]].
  assert (Hnames : map filename all_results = map name_of cv_list).
  { clear Hrank. induction Hpost as [|cv r cvs rs [Hname _] _ IH]; simpl.
    - reflexivity.
    - rewrite Hname, IH. reflexivity. }
  assert (Hperm : Permutation (map filename (assign_ranks 0 (sorted_by_score_desc all_results)))
                    (map name_of cv_list)).
  { rewrite assign_ranks_filename, <- Hnames.
    apply Permutation_map, sorted_by_score_desc_perm. }
  exists (assign_ranks 0 (sorted_by_score_desc all_results)), w'.
  split; [exact Hrank|]. split; [|exact Hperm].
  rewrite <- (length_map filename), (Permutation_length Hperm). apply length_map.
Qed.


End GenericResults.

(** *** The engine as it is: the prompt is built by [format_prompt] *)

Section Engine.

Variable create : nat -> string -> string -> api_outcome.
Variable float_pow : float -> Z -> result float.
Variable json_loads : string -> result pyval.
Variable value_str : pyval -> string.
Variable weights : Config.weights.

(** Every result of [evaluate_cv] is a failure with score 0, and no request
    is sent: a CV without an extraction error and with text fails when its
    prompt is built. *)
Lemma evaluate_cv_fails :
  forall job_description cv w,
    exists msg,
      evaluate_cv create float_pow json_loads value_str weights job_description cv w
      = (Ok (failed_result (name_of cv) msg None), w).
Proof.
  intros job_description cv w.
  unfold evaluate_cv, evaluate_cv_with, mtry, evaluate_cv_body.
  destruct (cv_error cv); [eexists; reflexivity|].
  destruct (String.eqb (text_of cv) EmptyString); [eexists; reflexivity|].
  unfold mbind at 1, lift at 1. rewrite format_prompt_raises.
  eexists. reflexivity.
Qed.

Lemma evaluate_cv_valid_cv_fails :
  forall job_description cv w,
    cv_error cv = None ->
    text_of cv <> EmptyString ->
    evaluate_cv create float_pow json_loads value_str weights job_description cv w
    = (Ok (failed_result (name_of cv)
             ("Error evaluating CV " +++ name_of cv +++ ": " +++ str_repr template_stray_field)
             None), w).
Proof.
  intros job_description cv w Herr Htext.
  unfold evaluate_cv, evaluate_cv_with, mtry, evaluate_cv_body.
  rewrite Herr, (ParserFacts.eqb_empty_false _ Htext).
  unfold mbind at 1, lift at 1. rewrite format_prompt_raises.
  reflexivity.
Qed.

Lemma evaluate_cv_failed_for :
  forall job_description cv w r w',
    evaluate_cv_with create float_pow json_loads value_str weights format_prompt
      job_description cv w = (Ok r, w') ->
    failed_for cv r.
Proof.
  intros job_description cv w r w' H.
  destruct (evaluate_cv_fails job_description cv w) as [msg Hmsg].
  unfold evaluate_cv in Hmsg. rewrite Hmsg in H. inversion H; subst.
  exists msg. reflexivity.
Qed.

Lemma failed_for_scores :
  forall cvs rs, Forall2 failed_for cvs rs -> comparable_scores is_zero rs.
Proof.
  intros cvs rs H. induction H as [|cv r cvs rs [msg Hr] _ IH]; constructor.
  - subst r. reflexivity.
  - exact IH.
Qed.

Lemma failed_for_filenames :
  forall cvs rs, Forall2 failed_for cvs rs -> map filename rs = map name_of cvs.
Proof.
  intros cvs rs H. induction H as [|cv r cvs rs [msg Hr] _ IH]; simpl.
  - reflexivity.
  - subst r. simpl. rewrite IH. reflexivity.
Qed.



End Engine.

Lemma evaluate_cv_with_invalid_document_witness :
  exists msg,
    evaluate_cv_with Samples.failing_api Samples.pow_by_mul Json.loads Samples.opaque_str
      WEIGHTS Samples.plain_prompt "Engineer" Samples.unreadable_cv initial_world
    = (Ok (failed_result "b.docx" msg None), initial_world).
Proof.
  apply (evaluate_cv_with_invalid_document Samples.failing_api Samples.pow_by_mul Json.loads
           Samples.opaque_str WEIGHTS Samples.plain_prompt "Engineer" Samples.unreadable_cv
           initial_world).
  left. discriminate.
Defined.

(** Three documents, the second with an extraction error: three results,
    one per filename, ranked 1 to 3 in input order. *)
Example rank_cvs_three_documents :
  exists ranked,
    rank_cvs Samples.failing_api Samples.pow_by_mul Json.loads Samples.opaque_str WEIGHTS
      "Engineer" [Samples.good_cv; Samples.unreadable_cv; Samples.other_cv] initial_world
    = (Ok ranked, initial_world)
    /\ map filename ranked = ["a.pdf"; "b.docx"; "c.txt"]
    /\ map rank ranked = [Some 1%Z; Some 2%Z; Some 3%Z]
    /\ map status_of ranked = [Failed; Failed; Failed].
Proof. eexists. vm_compute. repeat split. Qed.

(** C3, at the failing input.  A CV with text, an endpoint that answers
    with a reply no strategy can parse: [evaluate_cv] returns a [Failed]
    result with no evaluation and sends no request, because building the
    prompt raises.  The specification expects a [Warning] result here. *)
Lemma evaluate_cv_never_reaches_the_parser :
  evaluate_cv (Samples.replying_api Samples.garbage_reply) Samples.pow_by_mul Json.loads
    Samples.opaque_str WEIGHTS "Engineer" Samples.good_cv initial_world
  = (Ok (failed_result "a.pdf"
           ("Error evaluating CV a.pdf: " +++ str_repr template_stray_field) None),
     initial_world)
  /\ status_of (failed_result "a.pdf"
                  ("Error evaluating CV a.pdf: " +++ str_repr template_stray_field) None)
     = Failed.
Proof. split; vm_compute; reflexivity. Qed.

(** With a prompt builder that works, the same input yields the [Warning]
    result of the specification: the zero-filled evaluation, its weighted
    score and the diagnostic. *)
Example evaluate_cv_with_working_prompt_warns :
  exists r w',
    evaluate_cv_with (Samples.replying_api Samples.garbage_reply) Samples.pow_by_mul
      Json.loads Samples.opaque_str WEIGHTS Samples.plain_prompt
      "Engineer" Samples.good_cv initial_world = (Ok r, w')
    /\ status_of r = Warning
    /\ evaluation r = zero_evaluation
    /\ score r = Float 0
    /\ List.length (requests w') = 1.
Proof. eexists. eexists. vm_compute. repeat split. Qed.

End EngineFacts.

(** ** The ranking report *)

Module ReportFacts.
Import Py Engine Notions.

Lemma succeeded_no_error :
  forall r, negb (has_error r) = succeeded r.
Proof.
  intros r. unfold succeeded, status_of, has_error.
  destruct (error r); [reflexivity|]. destruct (warning r); reflexivity.
Qed.

Lemma failed_has_error :
  forall r, has_error r = negb (succeeded r).
Proof. intros r. rewrite <- succeeded_no_error. symmetry. apply negb_involutive. Qed.

Lemma filter_ext_bool :
  forall (A : Type) (p q : A -> bool) (l : list A),
    (forall x, p x = q x) -> filter p l = filter q l.
Proof.
  intros A p q l H. induction l as [|x l IH]; simpl; [reflexivity|].
  rewrite H, IH. reflexivity.
Qed.

Lemma filter_partition_length :
  forall (A : Type) (p : A -> bool) (l : list A),
    List.length (filter p l) + List.length (filter (fun x => negb (p x)) l) = List.length l.
Proof.
  intros A p l. induction l as [|x l IH]; simpl; [reflexivity|].
  destruct (p x); simpl; lia.
Qed.

(** The sum of engine scores is an engine score: no addition overflows. *)
Lemma sum_scores_engine :
  forall results acc,
    engine_score acc ->
    Forall (fun r => engine_score (score r)) results ->
    exists total, sum_scores acc results = Ok total /\ engine_score total.
Proof.
  induction results as [|r results IH]; intros acc Hacc Hall.
  - exists acc. split; [reflexivity|exact Hacc].
  - inversion Hall as [|r' results' Hr Hrest]; subst. cbn [sum_scores].
    destruct Hacc as [->|[x ->]]; destruct Hr as [->|[y ->]]; cbn [num_add bind].
    + apply IH; [left; reflexivity|exact Hrest].
    + change (float_of_int 0) with (@Ok float 0%float). cbn [bind].
      apply IH; [right; eexists; reflexivity|exact Hrest].
    + change (float_of_int 0) with (@Ok float 0%float). cbn [bind].
      apply IH; [right; eexists; reflexivity|exact Hrest].
    + apply IH; [right; eexists; reflexivity|exact Hrest].
Qed.

(** Where no failed entry stands among the first five, [top_candidates] is
    the top five of the entries that did not fail. *)
Lemma filter_firstn_all :
  forall (A : Type) (p : A -> bool) (n : nat) (l : list A),
    forallb p (firstn n l) = true ->
    filter p (firstn n l) = firstn n (filter p l).
Proof.
  intros A p n. induction n as [|n IH]; intros l H; [reflexivity|].
  destruct l as [|x l]; [reflexivity|].
  simpl in H. apply andb_true_iff in H. destruct H as [Hx Hrest].
  simpl. rewrite Hx. simpl. rewrite (IH l Hrest). reflexivity.
Qed.

(** C8 (as amended).  For results with engine scores, whose count converts
    to a [float], the report holds the total count, the count of the entries
    with status [Success] or [Warning], the count of the [Failed] entries,
    the sum of all scores divided by the total count (by 1 for the empty
    list, where the average is 0), and as top candidates the entries among
    the first five, in rank order, that did not fail.  These are the top
    five entries that did not fail whenever none of the first five
    failed. *)
Theorem report_aggregates :
  forall results count,
    Forall (fun r => engine_score (score r)) results ->
    float_of_int (Z.of_nat (Nat.max (List.length results) 1)) = Ok count ->
    exists rep total,
      generate_ranking_report results = Ok rep
      /\ total_cvs rep = List.length results
      /\ successful_evaluations rep = List.length (filter succeeded results)
      /\ failed_evaluations rep = List.length (filter (fun r => negb (succeeded r)) results)
      /\ successful_evaluations rep + failed_evaluations rep = total_cvs rep
      /\ sum_scores (Int 0) results = Ok total
      /\ num_truediv total (Z.of_nat (Nat.max (List.length results) 1))
         = Ok (average_score rep)
      /\ (results = [] -> average_score rep = Float 0)
      /\ top_candidates rep = filter succeeded (firstn 5 results)
      /\ (forallb succeeded (firstn 5 results) = true ->
          top_candidates rep = top_five_non_failed results)
      /\ all_rankings rep = results.
Proof.
  intros results count Hscores Hcount.
  destruct (sum_scores_engine results (Int 0) (or_introl eq_refl) Hscores)
    as [total [Hsum Htotal]].
  assert (Hdiv : exists average,
             num_truediv total (Z.of_nat (Nat.max (List.length results) 1)) = Ok average).
  { destruct Htotal as [->|[f ->]]; cbn [num_truediv].
    - eexists. reflexivity.
    - rewrite Hcount. eexists. reflexivity. }
  destruct Hdiv as [average Haverage].
  unfold generate_ranking_report. rewrite Hsum. cbn [bind]. rewrite Haverage. cbn [bind].
  eexists. exists total. split; [reflexivity|].
  cbn [total_cvs successful_evaluations failed_evaluations average_score
       top_candidates all_rankings].
  rewrite (filter_ext_bool _ _ succeeded results succeeded_no_error).
  rewrite (filter_ext_bool _ has_error (fun r => negb (succeeded r)) results failed_has_error).
  rewrite (filter_ext_bool _ _ succeeded (firstn 5 results) succeeded_no_error).
  repeat split.
  - apply filter_partition_length.
  - exact Haverage.
  - intros ->. simpl in Hsum. inversion Hsum; subst.
    cbn [num_truediv] in Haverage. vm_compute in Haverage. inversion Haverage. reflexivity.
  - intros Hnone. apply filter_firstn_all. exact Hnone.
Qed.

Lemma report_aggregates_witness :
  exists rep total,
    generate_ranking_report Samples.tied_ranking = Ok rep
    /\ total_cvs rep = 6
    /\ successful_evaluations rep = 5
    /\ failed_evaluations rep = 1
    /\ sum_scores (Int 0) Samples.tied_ranking = Ok total
    /\ average_score rep = Float 0.
Proof.
  destruct (report_aggregates Samples.tied_ranking 6%float) as [rep [total H]].
  - unfold Samples.tied_ranking.
    repeat (apply Forall_cons; [first [left; reflexivity|right; eexists; reflexivity]|]).
    apply Forall_nil.
  - vm_compute. reflexivity.
  - exists rep, total.
    destruct H as [Hrep [Htotal [Hok [Hfailed [_ [Hsum [Hdiv _]]]]]]].
    repeat split; try assumption.
    vm_compute in Hsum. inversion Hsum; subst total.
    vm_compute in Hdiv. inversion Hdiv as [Haverage]. symmetry. exact Haverage.
Defined.

(** C8, counterexample.  A failed entry ranked first ahead of five entries
    with the same score: the report lists four top candidates, while five
    entries did not fail. *)
Lemma top_candidates_are_not_the_top_five_non_failed :
  exists rep,
    generate_ranking_report Samples.tied_ranking = Ok rep
    /\ map filename (top_candidates rep) = ["b.pdf"; "c.pdf"; "d.pdf"; "e.pdf"]
    /\ map filename (top_five_non_failed Samples.tied_ranking)
       = ["b.pdf"; "c.pdf"; "d.pdf"; "e.pdf"; "f.pdf"]
    /\ top_candidates rep <> top_five_non_failed Samples.tied_ranking.
Proof.
  eexists. split; [vm_compute; reflexivity|].
  split; [vm_compute; reflexivity|].
  split; [vm_compute; reflexivity|].
  intros H. apply (f_equal (@List.length cv_result)) in H. vm_compute in H. discriminate.
Qed.

Example report_of_no_results :
  generate_ranking_report []
  = Ok {| total_cvs := 0; successful_evaluations := 0; failed_evaluations := 0;
          average_score := Float 0; top_candidates := []; all_rankings := [] |}.
Proof. vm_compute. reflexivity. Qed.

End ReportFacts.

(** * Properties of the processor, the utilities and the pipeline *)

(** ** Strings: lengths, prefixes, the last occurrence of a character *)

Module TextFacts.
Import Py Text TextNotions.

Lemma append_length :
  forall s t, String.length (s +++ t) = String.length s + String.length t.
Proof.
  induction s as [|c s IH]; intros t; simpl; [reflexivity|]. rewrite IH. reflexivity.
Qed.

Lemma append_empty : forall s, s +++ EmptyString = s.
Proof.
  induction s as [|c s IH]; simpl; [reflexivity|]. rewrite IH. reflexivity.
Qed.

Lemma append_assoc : forall s t u, (s +++ t) +++ u = s +++ t +++ u.
Proof.
  induction s as [|c s IH]; intros t u; simpl; [reflexivity|]. rewrite IH. reflexivity.
Qed.

Lemma take_drop : forall n s, str_take n s +++ str_drop n s = s.
Proof.
  induction n as [|n IH]; intros [|c s]; simpl; try reflexivity. rewrite IH. reflexivity.
Qed.

Lemma take_length : forall n s, String.length (str_take n s) = Nat.min n (String.length s).
Proof.
  induction n as [|n IH]; intros [|c s]; simpl; try reflexivity. rewrite IH. reflexivity.
Qed.

Lemma take_take : forall n m s, str_take n (str_take m s) = str_take (Nat.min n m) s.
Proof.
  induction n as [|n IH]; intros [|m] [|c s]; simpl; try reflexivity. rewrite IH. reflexivity.
Qed.

Lemma take_all : forall n s, String.length s <= n -> str_take n s = s.
Proof.
  induction n as [|n IH]; intros [|c s] H; simpl in *; try reflexivity; try lia.
  rewrite IH by lia. reflexivity.
Qed.

Lemma take_app : forall s t, str_take (String.length s) (s +++ t) = s.
Proof.
  induction s as [|c s IH]; intros t; simpl.
  - destruct t; reflexivity.
  - rewrite IH. reflexivity.
Qed.

Lemma drop_app : forall s t, str_drop (String.length s) (s +++ t) = t.
Proof.
  induction s as [|c s IH]; intros t; simpl.
  - destruct t; reflexivity.
  - apply IH.
Qed.

Lemma take_app_more :
  forall s t n, str_take (String.length s + n) (s +++ t) = s +++ str_take n t.
Proof.
  induction s as [|c s IH]; intros t n; simpl; [reflexivity|]. rewrite IH. reflexivity.
Qed.

Lemma drop_app_more :
  forall s t n, str_drop (String.length s + n) (s +++ t) = str_drop n t.
Proof.
  induction s as [|c s IH]; intros t n; simpl; [reflexivity|]. apply IH.
Qed.

Lemma lacks_app : forall a s t, lacks a (s +++ t) <-> lacks a s /\ lacks a t.
Proof.
  induction s as [|c s IH]; intros t; simpl; [tauto|]. rewrite IH. tauto.
Qed.

(** *** The last occurrence of a character *)

Lemma prefix_char :
  forall a c s, prefix (String a EmptyString) (String c s) = Ascii.eqb a c.
Proof.
  intros a c s. simpl. destruct (ascii_dec a c) as [->|Hne].
  - rewrite Ascii.eqb_refl. destruct s; reflexivity.
  - destruct (Ascii.eqb_spec a c); [contradiction|reflexivity].
Qed.

Lemma rfind_char_absent :
  forall a t, lacks a t -> rfind_index (String a EmptyString) t = None.
Proof.
  induction t as [|c t IH]; intros H.
  - reflexivity.
  - destruct H as [Hc Ht]. cbn [rfind_index]. rewrite (IH Ht), prefix_char.
    destruct (Ascii.eqb_spec a c); [subst; contradiction|reflexivity].
Qed.

Lemma rfind_char_last :
  forall a s t,
    lacks a t -> rfind_index (String a EmptyString) (s +++ String a t) = Some (String.length s).
Proof.
  induction s as [|c s IH]; intros t Ht.
  - cbn [String.append rfind_index]. rewrite (rfind_char_absent a t Ht), prefix_char.
    rewrite Ascii.eqb_refl. reflexivity.
  - cbn [String.append rfind_index]. rewrite (IH t Ht). reflexivity.
Qed.

Lemma rfind_char_before :
  forall a s t,
    lacks a t ->
    rfind_index (String a EmptyString) (s +++ t) = rfind_index (String a EmptyString) s.
Proof.
  induction s as [|c s IH]; intros t Ht.
  - cbn [String.append]. rewrite (rfind_char_absent a t Ht). reflexivity.
  - cbn [String.append rfind_index]. rewrite (IH t Ht), !prefix_char. reflexivity.
Qed.

Lemma rfind_char_found :
  forall a s d,
    rfind_index (String a EmptyString) s = Some d ->
    exists pre t, s = pre +++ String a t /\ String.length pre = d /\ lacks a t.
Proof.
  induction s as [|c s IH]; intros d H.
  - discriminate.
  - cbn [rfind_index] in H.
    destruct (rfind_index (String a EmptyString) s) as [i|] eqn:Hs.
    + inversion H; subst. destruct (IH i eq_refl) as [pre [t [Heq [Hlen Ht]]]].
      exists (String c pre), t. subst. repeat split; assumption.
    + rewrite prefix_char in H. destruct (Ascii.eqb_spec a c) as [->|]; [|discriminate].
      inversion H; subst. exists EmptyString, s. repeat split.
      clear -Hs. induction s as [|b s IH]; [exact I|].
      cbn [rfind_index] in Hs.
      destruct (rfind_index (String c EmptyString) s); [discriminate|].
      rewrite prefix_char in Hs. destruct (Ascii.eqb_spec c b); [discriminate|].
      split; [congruence|]. apply IH. reflexivity.
Qed.

Lemma rfind_char_bound :
  forall a s, (-1 <= str_rfind s (String a EmptyString) < Z.of_nat (String.length s))%Z
              \/ (s = EmptyString /\ str_rfind s (String a EmptyString) = (-1)%Z).
Proof.
  intros a s. unfold str_rfind.
  destruct (rfind_index (String a EmptyString) s) as [d|] eqn:H.
  - destruct (rfind_char_found a s d H) as [pre [t [-> [Hlen _]]]].
    left. cbn [index_or_minus_one]. rewrite append_length. simpl. lia.
  - cbn [index_or_minus_one]. destruct s; [right; split; reflexivity|left; simpl; lia].
Qed.

End TextFacts.

Module PathFacts.
Import Py Text OsPath TextNotions TextFacts.

(** [splitext] cuts the path in two: the root and the extension give the
    path back. *)
Lemma splitext_join : forall p, fst (splitext p) +++ snd (splitext p) = p.
Proof.
  intros p. unfold splitext.
  destruct ((str_rfind p "/" <? str_rfind p ".")%Z
            && has_stem (str_slice p (str_rfind p "/" + 1) (str_rfind p "."))); cbn [fst snd].
  - apply take_drop.
  - apply append_empty.
Qed.

Lemma splitext_lengths :
  forall p, String.length (fst (splitext p)) + String.length (snd (splitext p)) = String.length p.
Proof.
  intros p. rewrite <- append_length, splitext_join. reflexivity.
Qed.

(** The root is a prefix of the path. *)
Lemma splitext_root : forall p, fst (splitext p) = str_take (String.length (fst (splitext p))) p.
Proof.
  intros p. rewrite <- (splitext_join p) at 3. rewrite take_app. reflexivity.
Qed.

End PathFacts.

(** ** Splitting at a character, lowering, and the extension of a path *)

Module SplitFacts.
Import Py Text OsPath TextNotions TextFacts PathFacts.

Lemma rev_append_app :
  forall acc s t, str_rev_append acc s +++ t = str_rev_append acc (s +++ t).
Proof.
  induction acc as [|c acc IH]; intros s t; simpl; [reflexivity|]. apply IH.
Qed.

Lemma rev_cons : forall c cur t, str_rev (String c cur) +++ t = str_rev cur +++ String c t.
Proof.
  intros c cur t. unfold str_rev. cbn [str_rev_append]. rewrite !rev_append_app. reflexivity.
Qed.

Lemma split_char_absent :
  forall a t cur,
    lacks a t -> split_scan (String a EmptyString) 0 cur t = [str_rev cur +++ t].
Proof.
  induction t as [|c t IH]; intros cur H.
  - cbn. rewrite append_empty. reflexivity.
  - destruct H as [Hc Ht]. cbn [split_scan]. rewrite prefix_char.
    destruct (Ascii.eqb_spec a c) as [->|_]; [contradiction|].
    rewrite (IH _ Ht), rev_cons. reflexivity.
Qed.

Lemma split_char_nonempty :
  forall a s cur, split_scan (String a EmptyString) 0 cur s <> [].
Proof.
  induction s as [|c s IH]; intros cur; cbn [split_scan]; [discriminate|].
  destruct (prefix (String a EmptyString) (String c s)); [discriminate|apply IH].
Qed.

Lemma last_cons : forall (x : string) l d, l <> [] -> List.last (x :: l) d = List.last l d.
Proof.
  intros x [|y l] d H; [contradiction|reflexivity].
Qed.

(** What follows the last occurrence of the separator is the last piece. *)
Lemma split_char_last :
  forall a pre t cur,
    lacks a t ->
    last_piece (split_scan (String a EmptyString) 0 cur (pre +++ String a t)) = t.
Proof.
  unfold last_piece.
  induction pre as [|c pre IH]; intros t cur Ht; cbn [String.append split_scan].
  - rewrite prefix_char, Ascii.eqb_refl. cbn [String.length Nat.sub].
    rewrite (split_char_absent a t EmptyString Ht). reflexivity.
  - rewrite prefix_char. cbn [String.length Nat.sub].
    destruct (Ascii.eqb a c).
    + rewrite last_cons by apply split_char_nonempty. apply IH, Ht.
    + apply IH, Ht.
Qed.

(** Removing the separator from a string that starts with its only
    occurrence. *)
Lemma replace_leading_char :
  forall a t, lacks a t -> str_replace (String a t) (String a EmptyString) EmptyString = t.
Proof.
  intros a t Ht. unfold str_replace, str_split. cbn [split_scan].
  rewrite prefix_char, Ascii.eqb_refl. cbn [String.length Nat.sub].
  rewrite (split_char_absent a t EmptyString Ht). reflexivity.
Qed.

(** *** Lowering *)

Lemma lower_char_dot : forall c, lower_char c = "."%char -> c = "."%char.
Proof.
  intros c. destruct c as [[] [] [] [] [] [] [] []]; vm_compute; intros H;
    first [reflexivity | discriminate H].
Qed.

Lemma lower_char_slash : forall c, lower_char c = "/"%char -> c = "/"%char.
Proof.
  intros c. destruct c as [[] [] [] [] [] [] [] []]; vm_compute; intros H;
    first [reflexivity | discriminate H].
Qed.

Lemma lacks_lower :
  forall a s,
    (forall c, lower_char c = a -> c = a) -> lower_char a = a ->
    (lacks a (str_lower s) <-> lacks a s).
Proof.
  intros a s Hinj Hfix. induction s as [|c s IH]; cbn [str_lower lacks]; [tauto|].
  rewrite IH. split; intros [Hc Hs]; split; try assumption.
  - intros ->. apply Hc, Hfix.
  - intros H. apply Hc, Hinj, H.
Qed.

Lemma lower_app : forall s t, str_lower (s +++ t) = str_lower s +++ str_lower t.
Proof.
  induction s as [|c s IH]; intros t; simpl; [reflexivity|]. rewrite IH. reflexivity.
Qed.

(** *** The extension *)

(** An extension that is not empty starts at the last dot of the path. *)
Lemma splitext_extension :
  forall p,
    snd (splitext p) <> EmptyString ->
    exists pre t,
      p = pre +++ String "." t /\ lacks "." t /\ snd (splitext p) = String "." t.
Proof.
  intros p Hext. unfold splitext in *.
  destruct ((str_rfind p "/" <? str_rfind p ".")%Z
            && has_stem (str_slice p (str_rfind p "/" + 1) (str_rfind p "."))) eqn:Hcut;
    cbn [snd] in *; [|contradiction].
  apply andb_prop in Hcut. destruct Hcut as [Hlt _]. apply Z.ltb_lt in Hlt.
  unfold str_rfind in *.
  destruct (rfind_index "." p) as [d|] eqn:Hdot.
  - destruct (rfind_char_found "." p d Hdot) as [pre [t [-> [Hlen Ht]]]].
    exists pre, t. repeat split; try assumption.
    cbn [index_or_minus_one]. rewrite Nat2Z.id, <- Hlen. apply drop_app.
  - cbn [index_or_minus_one] in Hlt.
    destruct (rfind_index "/" p); cbn [index_or_minus_one] in Hlt; lia.
Qed.

(** The extension of a path that ends in a file name with a stem, a dot
    and a last part without dot or separator. *)
Lemma splitext_of_file_name :
  forall dir c stem t,
    c <> "."%char -> c <> "/"%char -> lacks "/" stem -> lacks "." t -> lacks "/" t ->
    splitext (dir +++ String "/" (String c stem) +++ String "." t)
    = (dir +++ String "/" (String c stem), String "." t).
Proof.
  intros dir c stem t Hdot Hsep Hstem Ht Hts. unfold splitext, str_rfind.
  assert (Hd : rfind_index "." (dir +++ String "/" (String c stem) +++ String "." t)
               = Some (String.length (dir +++ String "/" (String c stem)))).
  { rewrite <- append_assoc. apply rfind_char_last, Ht. }
  assert (Hs : rfind_index "/" (dir +++ String "/" (String c stem) +++ String "." t)
               = Some (String.length dir)).
  { cbn [String.append]. apply rfind_char_last. cbn [lacks]. split; [exact Hsep|].
    apply lacks_app. split; [exact Hstem|]. cbn [lacks]. split; [discriminate|exact Hts]. }
  rewrite Hd, Hs. cbn [index_or_minus_one].
  rewrite append_length. cbn [String.length].
  assert (Hlt : (Z.of_nat (String.length dir)
                 <? Z.of_nat (String.length dir + S (S (String.length stem))))%Z = true)
    by (apply Z.ltb_lt; lia).
  rewrite Hlt. cbn [andb].
  assert (Hhas :
    has_stem (str_slice (dir +++ String "/" (String c stem) +++ String "." t)
                (Z.of_nat (String.length dir) + 1)
                (Z.of_nat (String.length dir + S (S (String.length stem))))) = true).
  { unfold str_slice.
    replace (Z.to_nat (Z.of_nat (String.length dir) + 1)) with (String.length dir + 1) by lia.
    rewrite drop_app_more. cbn [str_drop String.append].
    replace (Z.to_nat (Z.of_nat (String.length dir + S (S (String.length stem)))
                       - (Z.of_nat (String.length dir) + 1)))
      with (S (String.length stem)) by lia.
    cbn [str_take has_stem].
    destruct (Ascii.eqb_spec c "."); [contradiction|reflexivity]. }
  rewrite Hhas, Nat2Z.id.
  replace (String.length dir + S (S (String.length stem)))
    with (String.length (dir +++ String "/" (String c stem)))
    by (rewrite append_length; reflexivity).
  rewrite <- append_assoc, take_app, drop_app. reflexivity.
Qed.

End SplitFacts.

(** ** [core/utils.py]: display names and temporary files *)

Module UtilsFacts.
Import Py Text OsPath Utils TextNotions TextFacts PathFacts.

Lemma prefix_to_length :
  forall s stop,
    String.length (str_prefix_to s stop)
    = Nat.min (Z.to_nat (if (0 <=? stop)%Z then stop else Z.of_nat (String.length s) + stop)%Z)
              (String.length s).
Proof.
  intros s stop. unfold str_prefix_to. destruct (0 <=? stop)%Z; apply take_length.
Qed.

(** The display name has at most 25 characters exactly when the file name
    has, or when its extension has at most 22: a long name is cut to 25
    characters around the dots, but a longer extension is kept whole and
    makes the display name longer than 25. *)
Theorem format_filename_length_bound :
  forall filename,
    String.length (format_filename filename) <= 25
    <-> (String.length filename <= 25 \/ String.length (snd (splitext filename)) <= 22).
Proof.
  intros filename. unfold format_filename.
  destruct (25 <? Z.of_nat (String.length filename))%Z eqn:Hlong.
  - apply Z.ltb_lt in Hlong.
    pose proof (splitext_lengths filename) as Hsum.
    destruct (splitext filename) as [name ext]. cbn [fst snd] in *.
    rewrite !append_length, prefix_to_length. cbn [String.length].
    destruct (0 <=? 25 - Z.of_nat (String.length ext) - 3)%Z eqn:Hstop.
    + apply Z.leb_le in Hstop. split; intros _; [right|]; lia.
    + apply Z.leb_gt in Hstop. split; intros H; [|destruct H]; lia.
  - apply Z.ltb_ge in Hlong. split; intros _; [left|]; lia.
Qed.

(** A file name of more than 25 characters whose extension has at most 22
    is shown as its first characters, three dots and the extension, 25
    characters in all. *)
Theorem format_filename_truncates :
  forall filename,
    25 < String.length filename ->
    String.length (snd (splitext filename)) <= 22 ->
    format_filename filename
    = str_take (22 - String.length (snd (splitext filename))) filename
      +++ "..." +++ snd (splitext filename)
    /\ String.length (format_filename filename) = 25.
Proof.
  intros filename Hlong Hext.
  assert (Hshape :
    format_filename filename
    = str_take (22 - String.length (snd (splitext filename))) filename
      +++ "..." +++ snd (splitext filename)).
  { unfold format_filename.
    destruct (25 <? Z.of_nat (String.length filename))%Z eqn:H; [|apply Z.ltb_ge in H; lia].
    pose proof (splitext_lengths filename) as Hsum.
    pose proof (splitext_root filename) as Hroot.
    destruct (splitext filename) as [name ext]. cbn [fst snd] in *.
    unfold str_prefix_to.
    destruct (0 <=? 25 - Z.of_nat (String.length ext) - 3)%Z eqn:Hstop;
      [|apply Z.leb_gt in Hstop; lia].
    replace (Z.to_nat (25 - Z.of_nat (String.length ext) - 3)) with (22 - String.length ext) by lia.
    rewrite Hroot, take_take. f_equal. f_equal. lia. }
  split; [exact Hshape|].
  rewrite Hshape, !append_length, take_length. cbn [String.length].
  pose proof (splitext_lengths filename). lia.
Qed.

Lemma format_filename_truncates_witness :
  format_filename "a_very_long_file_name_for_a_cv_document.pdf"
  = str_take (22 - String.length (snd (splitext "a_very_long_file_name_for_a_cv_document.pdf")))
      "a_very_long_file_name_for_a_cv_document.pdf"
    +++ "..." +++ snd (splitext "a_very_long_file_name_for_a_cv_document.pdf")
  /\ String.length (format_filename "a_very_long_file_name_for_a_cv_document.pdf") = 25.
Proof.
  apply (format_filename_truncates "a_very_long_file_name_for_a_cv_document.pdf");
    vm_compute; lia.
Defined.

(** *** Temporary files *)

Lemma path_exists_remove :
  forall fs path p,
    path_exists (remove fs path) p = path_exists fs p && negb (String.eqb path p).
Proof.
  intros fs path p. unfold path_exists, remove. cbn [present].
  induction (present fs) as [|q l IH]; [reflexivity|].
  cbn [filter existsb].
  destruct (String.eqb_spec path q) as [->|Hq]; cbn [negb existsb].
  - rewrite IH. destruct (String.eqb_spec p q) as [->|Hp].
    + rewrite String.eqb_refl. cbn. rewrite andb_false_r. reflexivity.
    + reflexivity.
  - rewrite IH. destruct (String.eqb_spec p q) as [->|Hp]; [|reflexivity].
    destruct (String.eqb_spec path q) as [->|_]; [contradiction|]. reflexivity.
Qed.

Lemma clean_temp_files_removable :
  forall file_paths fs, removable (clean_temp_files file_paths fs) = removable fs.
Proof.
  induction file_paths as [|a rest IH]; intros fs; [reflexivity|].
  cbn [clean_temp_files]. rewrite IH.
  destruct (path_exists fs a && removable fs a); reflexivity.
Qed.

(** After [clean_temp_files], a path exists exactly when it existed before
    and was not a listed path that [os.remove] can remove: the listed files
    are removed, a file that cannot be removed does not keep the later ones
    from being removed, and no other file is touched. *)
Theorem clean_temp_files_removes_the_listed_files :
  forall file_paths fs p,
    path_exists (clean_temp_files file_paths fs) p
    = path_exists fs p && negb (existsb (String.eqb p) file_paths && removable fs p).
Proof.
  induction file_paths as [|a rest IH]; intros fs p.
  - cbn. rewrite andb_true_r. reflexivity.
  - cbn [clean_temp_files existsb]. rewrite IH.
    destruct (path_exists fs a && removable fs a) eqn:Ha.
    + rewrite path_exists_remove. cbn [remove removable].
      apply andb_prop in Ha. destruct Ha as [_ Hrem].
      destruct (String.eqb_spec p a) as [->|Hp].
      * rewrite String.eqb_refl, Hrem. cbn. rewrite !andb_false_r. reflexivity.
      * destruct (String.eqb_spec a p) as [->|_]; [contradiction|].
        cbn. rewrite andb_true_r. reflexivity.
    + destruct (String.eqb_spec p a) as [->|Hp]; [|reflexivity].
      cbn [orb]. apply andb_false_iff in Ha.
      destruct (path_exists fs a) eqn:Hex; [|reflexivity].
      destruct Ha as [Ha|Ha]; [discriminate|]. rewrite Ha, andb_false_r. reflexivity.
Qed.

End UtilsFacts.

(** ** [ui/uploader.py]: what passes validation can be read *)

Module UploaderFacts.
Import Py Text OsPath Uploader Processor TextNotions TextFacts PathFacts SplitFacts.

(** The extension of a validated file, lowered, is one of the allowed
    extensions behind a dot, and the name ends with it. *)
Lemma validate_file_extension :
  forall file,
    fst (validate_file file) = true ->
    exists pre t,
      name file = pre +++ String "." t
      /\ lacks "." t /\ lacks "/" t
      /\ In (str_lower t) ALLOWED_EXTENSIONS.
Proof.
  intros file Hvalid. unfold validate_file in Hvalid.
  destruct (existsb
              (String.eqb (str_replace (str_lower (snd (splitext (name file)))) "." EmptyString))
              ALLOWED_EXTENSIONS) eqn:Hallowed; cbn [negb fst] in Hvalid; [|discriminate].
  clear Hvalid. apply existsb_exists in Hallowed. destruct Hallowed as [ext [Hin Heq]].
  apply String.eqb_eq in Heq.
  destruct (string_dec (snd (splitext (name file))) EmptyString) as [Hnone|Hsome].
  - rewrite Hnone in Heq. cbn in Heq. subst ext.
    cbn in Hin. destruct Hin as [H|[H|[H|[]]]]; discriminate.
  - destruct (splitext_extension (name file) Hsome) as [pre [t [Hname [Ht Hext]]]].
    rewrite Hext in Heq. cbn [str_lower] in Heq.
    replace (lower_char ".") with "."%char in Heq by reflexivity.
    assert (Hlow : lacks "." (str_lower t))
      by (apply (lacks_lower "." t lower_char_dot eq_refl), Ht).
    rewrite (replace_leading_char "." (str_lower t) Hlow) in Heq.
    exists pre, t. repeat split; try assumption.
    + apply (lacks_lower "/" t lower_char_slash eq_refl). rewrite Heq.
      cbn in Hin. destruct Hin as [<-|[<-|[<-|[]]]]; cbn; repeat split; discriminate.
    + rewrite Heq. exact Hin.
Qed.

Section Libraries.

Variable pdf_pages : string -> outcome (list (outcome string)).
Variable pdfminer_extract_text : string -> outcome string.
Variable docx_document : string -> outcome document.
Variable read_text : string -> encoding -> outcome string.

(** A file that [validate_file] accepts is saved under a temporary path
    whose extension [extract_text] supports: the text is read by the
    extractor of its type, and the error of an unsupported format cannot
    occur. *)
Theorem validated_upload_is_extracted :
  forall file dir random,
    fst (validate_file file) = true ->
    lacks "/" random ->
    exists ext,
      In ext ALLOWED_EXTENSIONS
      /\ str_lower (snd (splitext (temp_path dir random (temp_suffix file)))) = "." +++ ext
      /\ extract_text pdf_pages pdfminer_extract_text docx_document read_text
           (temp_path dir random (temp_suffix file))
         = if String.eqb ext "pdf"
           then extract_text_from_pdf pdf_pages pdfminer_extract_text
                  (temp_path dir random (temp_suffix file))
           else if String.eqb ext "docx"
           then extract_text_from_docx docx_document (temp_path dir random (temp_suffix file))
           else extract_text_from_txt read_text (temp_path dir random (temp_suffix file)).
Proof.
  intros file dir random Hvalid Hrandom.
  destruct (validate_file_extension file Hvalid) as [pre [t [Hname [Hdot [Hsep Hin]]]]].
  assert (Hsuffix : temp_suffix file = String "." t).
  { unfold temp_suffix, str_split. rewrite Hname, (split_char_last "." pre t EmptyString Hdot).
    reflexivity. }
  assert (Hpath : temp_path dir random (temp_suffix file)
                  = dir +++ String "/" (String "t" ("mp" +++ random)) +++ String "." t).
  { unfold temp_path. rewrite Hsuffix. reflexivity. }
  assert (Hsplit : splitext (temp_path dir random (temp_suffix file))
                   = (dir +++ String "/" (String "t" ("mp" +++ random)), String "." t)).
  { rewrite Hpath. apply splitext_of_file_name; try discriminate; try assumption.
    cbn. repeat split; try discriminate. exact Hrandom. }
  exists (str_lower t). split; [exact Hin|]. split.
  - rewrite Hsplit. reflexivity.
  - unfold extract_text. rewrite Hsplit. cbn [snd str_lower].
    replace (lower_char ".") with "."%char by reflexivity.
    cbn in Hin. destruct Hin as [<-|[<-|[<-|[]]]]; reflexivity.
Qed.

End Libraries.

Lemma validated_upload_is_extracted_witness :
  exists ext,
    In ext ALLOWED_EXTENSIONS
    /\ str_lower (snd (splitext (temp_path "/tmp" "k3x_9qab" (temp_suffix Documents.upload))))
       = "." +++ ext
    /\ extract_text Documents.two_pages Documents.failing_pdfminer Documents.no_document
         Documents.read_jane_doe (temp_path "/tmp" "k3x_9qab" (temp_suffix Documents.upload))
       = if String.eqb ext "pdf"
         then extract_text_from_pdf Documents.two_pages Documents.failing_pdfminer
                (temp_path "/tmp" "k3x_9qab" (temp_suffix Documents.upload))
         else if String.eqb ext "docx"
         then extract_text_from_docx Documents.no_document
                (temp_path "/tmp" "k3x_9qab" (temp_suffix Documents.upload))
         else extract_text_from_txt Documents.read_jane_doe
                (temp_path "/tmp" "k3x_9qab" (temp_suffix Documents.upload)).
Proof.
  apply (validated_upload_is_extracted Documents.two_pages Documents.failing_pdfminer
           Documents.no_document Documents.read_jane_doe Documents.upload "/tmp" "k3x_9qab").
  - reflexivity.
  - cbn. repeat split; discriminate.
Defined.

End UploaderFacts.

(** ** Whitespace: stripping, splitting and joining *)

Module SpaceFacts.
Import Py Text Regex TextNotions TextFacts SplitFacts.

Lemma rev_append_length :
  forall acc s, String.length (str_rev_append acc s) = String.length acc + String.length s.
Proof.
  induction acc as [|c acc IH]; intros s; simpl; [reflexivity|]. rewrite IH. simpl. lia.
Qed.

Lemma blank_rev_append :
  forall acc s, blank (str_rev_append acc s) = blank acc && blank s.
Proof.
  induction acc as [|c acc IH]; intros s; simpl; [reflexivity|].
  rewrite IH. simpl. destruct (is_space c), (blank acc), (blank s); reflexivity.
Qed.

Lemma blank_lstrip : forall s, blank (lstrip s) = blank s.
Proof.
  induction s as [|c s IH]; simpl; [reflexivity|].
  destruct (is_space c) eqn:Hc; simpl; [exact IH|]. rewrite Hc. reflexivity.
Qed.

Lemma lstrip_length : forall s, (String.length (lstrip s) =? 0) = blank s.
Proof.
  induction s as [|c s IH]; simpl; [reflexivity|].
  destruct (is_space c); simpl; [exact IH|reflexivity].
Qed.

(** The stripped string is empty exactly when the string is blank. *)
Lemma strip_length : forall s, (String.length (str_strip s) =? 0) = blank s.
Proof.
  intros s. unfold str_strip, str_rev.
  rewrite rev_append_length, Nat.add_0_r, lstrip_length, blank_rev_append, blank_lstrip.
  apply andb_true_r.
Qed.

Lemma is_empty_or_blank :
  forall s, Processor.is_empty s || (String.length (str_strip s) =? 0) = blank s.
Proof.
  intros s. rewrite strip_length. destruct s; reflexivity.
Qed.

Lemma lacks_rev_append :
  forall a acc s, lacks a (str_rev_append acc s) <-> lacks a acc /\ lacks a s.
Proof.
  induction acc as [|c acc IH]; intros s; simpl; [tauto|]. rewrite IH. simpl. tauto.
Qed.

Lemma lacks_lstrip : forall a s, lacks a s -> lacks a (lstrip s).
Proof.
  induction s as [|c s IH]; simpl; intros H; [exact I|].
  destruct (is_space c); [apply IH, H|exact H].
Qed.

Lemma lacks_strip : forall a s, lacks a s -> lacks a (str_strip s).
Proof.
  intros a s H. unfold str_strip, str_rev.
  apply lacks_rev_append. split; [|exact I].
  apply lacks_lstrip, lacks_rev_append. split; [|exact I]. apply lacks_lstrip, H.
Qed.

(** *** The words of a text *)

Lemma every_rev_append :
  forall p acc s, every p (str_rev_append acc s) <-> every p acc /\ every p s.
Proof.
  induction acc as [|c acc IH]; intros s; simpl; [tauto|]. rewrite IH. simpl. tauto.
Qed.

Lemma every_app : forall p s t, every p (s +++ t) <-> every p s /\ every p t.
Proof.
  induction s as [|c s IH]; intros t; simpl; [tauto|]. rewrite IH. tauto.
Qed.

Lemma every_weaken :
  forall (p q : ascii -> bool) s, (forall c, p c = true -> q c = true) -> every p s -> every q s.
Proof.
  intros p q s Hpq. induction s as [|c s IH]; simpl; [tauto|].
  intros [Hc Hs]. split; [apply Hpq, Hc|apply IH, Hs].
Qed.

(** No word of [s.split()] holds whitespace. *)
Lemma split_ws_words :
  forall s cur,
    every (fun c => negb (is_space c)) cur ->
    Forall (every (fun c => negb (is_space c))) (split_ws_scan cur s).
Proof.
  induction s as [|c s IH]; intros cur Hcur; cbn [split_ws_scan].
  - destruct cur; constructor; [|constructor].
    apply every_rev_append. split; [exact Hcur|exact I].
  - destruct (is_space c) eqn:Hc.
    + destruct cur.
      * apply IH. exact I.
      * constructor; [|apply IH; exact I].
        apply every_rev_append. split; [exact Hcur|exact I].
    + apply IH. cbn [every]. split; [rewrite Hc; reflexivity|exact Hcur].
Qed.

(** The words joined by single spaces hold no other whitespace. *)
Lemma join_words :
  forall words,
    Forall (every (fun c => negb (is_space c))) words ->
    every (fun c => Ascii.eqb c " " || negb (is_space c)) (str_join " " words).
Proof.
  induction words as [|w words IH]; intros H; [exact I|].
  inversion H as [|w' words' Hw Hwords]; subst.
  assert (Hweak : every (fun c => Ascii.eqb c " " || negb (is_space c)) w).
  { apply (every_weaken (fun c => negb (is_space c))); [|exact Hw].
    intros c Hc. rewrite Hc. apply orb_true_r. }
  cbn [str_join]. destruct words as [|w2 words]; [exact Hweak|].
  apply every_app. split; [exact Hweak|].
  cbn [String.append every]. split; [reflexivity|]. apply IH, Hwords.
Qed.

Lemma every_filter :
  forall keep q s, every q s -> every (fun c => keep c && q c) (str_filter keep s).
Proof.
  intros keep q. induction s as [|c s IH]; simpl; [tauto|].
  intros [Hc Hs]. destruct (keep c) eqn:Hk; [|apply IH, Hs].
  cbn [every]. rewrite Hk, Hc. split; [reflexivity|apply IH, Hs].
Qed.

Lemma plain_char_not_newline : forall c, plain_char c = true -> c <> newline.
Proof.
  intros c H ->. vm_compute in H. discriminate.
Qed.

Lemma every_plain_lacks_newline : forall s, every plain_char s -> lacks newline s.
Proof.
  induction s as [|c s IH]; simpl; [tauto|].
  intros [Hc Hs]. split; [apply plain_char_not_newline, Hc|apply IH, Hs].
Qed.

(** *** Blank lines *)

(** A text without newline has no blank line to replace. *)
Lemma sub_blank_lines_without_newline :
  forall s, lacks newline s -> sub_blank_lines s = s.
Proof.
  unfold sub_blank_lines. induction s as [|c s IH]; intros H; [reflexivity|].
  destruct H as [Hc Hs]. cbn [sub_blank_lines_scan].
  destruct (Ascii.eqb_spec c newline); [contradiction|]. rewrite (IH Hs). reflexivity.
Qed.

End SpaceFacts.

(** ** [core/cv_processor.py]: the text of a CV *)

Module PreprocessFacts.
Import Py Text Regex Processor TextNotions TextFacts SplitFacts SpaceFacts.

Lemma kept_word_char :
  forall c,
    (is_printable c || is_space c) && (Ascii.eqb c " " || negb (is_space c)) = true ->
    plain_char c = true.
Proof.
  intros c. unfold plain_char.
  destruct (Ascii.eqb c " "), (is_printable c), (is_space c); cbn; intros H;
    first [reflexivity | discriminate H].
Qed.

Lemma preprocess_one_line :
  forall text,
    preprocess_cv_text text
    = (if blank text
       then Raised (ValueError "Extracted text is empty after preprocessing")
       else Returned (str_filter (fun c => is_printable c || is_space c)
                        (str_join " " (str_split_ws text))))
    /\ (forall processed,
          preprocess_cv_text text = Returned processed ->
          every plain_char processed /\ lacks newline processed).
Proof.
  intros text.
  assert (Hplain : every plain_char
                     (str_filter (fun c => is_printable c || is_space c)
                        (str_join " " (str_split_ws text)))).
  { apply (every_weaken
             (fun c => (is_printable c || is_space c) && (Ascii.eqb c " " || negb (is_space c))));
      [exact kept_word_char|].
    apply every_filter, join_words, split_ws_words. exact I. }
  assert (Heq : preprocess_cv_text text
                = if blank text
                  then Raised (ValueError "Extracted text is empty after preprocessing")
                  else Returned (str_filter (fun c => is_printable c || is_space c)
                                   (str_join " " (str_split_ws text)))).
  { unfold preprocess_cv_text. rewrite is_empty_or_blank.
    destruct (blank text); [reflexivity|].
    rewrite (sub_blank_lines_without_newline _ (every_plain_lacks_newline _ Hplain)).
    reflexivity. }
  split; [exact Heq|].
  intros processed H. rewrite Heq in H. destruct (blank text); [discriminate|].
  inversion H; subst. split; [exact Hplain|apply every_plain_lacks_newline, Hplain].
Qed.

(** [preprocess_cv_text] raises on a blank text and on no other.  On every
    other text it returns the words of the text joined by single spaces,
    without the characters that are not printable: a text of spaces and of
    printable characters, on one line.  The replacement of blank lines, its
    last step, changes nothing. *)
Theorem preprocess_cv_text_gives_one_line :
  forall text,
    preprocess_cv_text text
    = (if blank text
       then Raised (ValueError "Extracted text is empty after preprocessing")
       else Returned (str_filter (fun c => is_printable c || is_space c)
                        (str_join " " (str_split_ws text))))
    /\ (forall processed,
          preprocess_cv_text text = Returned processed ->
          every plain_char processed /\ lacks newline processed).
Proof.
  intros text. destruct (preprocess_one_line text) as [Heq Hline].
  split; [exact Heq|exact Hline].
Qed.

End PreprocessFacts.

(** ** [core/cv_processor.py]: sections *)

Module SectionFacts.
Import Py Text Regex Processor TextNotions TextFacts SplitFacts SpaceFacts PreprocessFacts.

Lemma split_lines_of_one_line :
  forall text, lacks newline text -> str_split text (String newline EmptyString) = [text].
Proof.
  intros text H. unfold str_split. rewrite (split_char_absent newline text EmptyString H).
  reflexivity.
Qed.

Lemma keyword_lines_of_one_line :
  forall keywords line,
    lacks newline line ->
    keyword_lines keywords line
    = if contains_any keywords (str_lower line) then [line] else [].
Proof.
  intros keywords line H. unfold keyword_lines. rewrite (split_lines_of_one_line line H).
  cbn [filter]. reflexivity.
Qed.

Lemma one_line_sections :
  forall text,
    lacks newline text ->
    extract_sections text
    = if Processor.is_empty (str_strip text) || is_header (str_strip text)
      then no_sections
      else {| skills := if contains_any skill_keywords (str_lower (str_strip text))
                        then str_strip text else EmptyString;
              experience := EmptyString;
              education := if contains_any education_keywords (str_lower (str_strip text))
                           then str_strip text else EmptyString;
              other := str_strip text |}.
Proof.
  intros text Htext. unfold extract_sections.
  rewrite (split_lines_of_one_line text Htext). cbn [scan_lines].
  pose proof (lacks_strip newline text Htext) as Hline.
  unfold Processor.is_empty, is_header.
  destruct (String.eqb_spec (str_strip text) EmptyString) as [Hempty|Hfull].
  - cbn. reflexivity.
  - destruct (header_of section_patterns (str_lower (str_strip text))); [reflexivity|].
    cbn [scan_lines collect nothing_collected skills_lines experience_lines education_lines
         other_lines app join_lines skills experience education other orb].
    destruct (String.eqb_spec (str_strip text) EmptyString) as [|_]; [contradiction|].
    cbn [negb andb String.eqb orb].
    unfold _extract_skills_from_text.
    rewrite !(keyword_lines_of_one_line _ _ Hline).
    destruct (contains_any skill_keywords (str_lower (str_strip text)));
      destruct (contains_any education_keywords (str_lower (str_strip text)));
      cbn [join_lines Processor.is_empty String.eqb negb];
      try (destruct (String.eqb_spec (str_strip text) EmptyString) as [|_]; [contradiction|]);
      reflexivity.
Qed.

(** The sections of a text of one line.  A line that holds a section
    header is dropped, and every section is empty; another line is the
    section [other], and also the sections [skills] and [education] when it
    holds one of their keywords.  The section [experience] is empty. *)
Theorem extract_sections_of_one_line :
  forall text,
    lacks newline text ->
    extract_sections text
    = if Processor.is_empty (str_strip text) || is_header (str_strip text)
      then no_sections
      else {| skills := if contains_any skill_keywords (str_lower (str_strip text))
                        then str_strip text else EmptyString;
              experience := EmptyString;
              education := if contains_any education_keywords (str_lower (str_strip text))
                           then str_strip text else EmptyString;
              other := str_strip text |}.
Proof.
  intros text Htext. rewrite (one_line_sections text Htext). reflexivity.
Qed.

(** A line at the head of a list may as well stand at its end. *)
Ltac line_to_the_end :=
  cbn [app]; eapply Permutation_trans; [apply Permutation_cons_append|];
  rewrite <- ?app_assoc; reflexivity.

Lemma collect_adds_the_line :
  forall section line c,
    Permutation (collected_lines (collect section line c)) (collected_lines c ++ [line]).
Proof.
  intros section line c. unfold collected_lines.
  destruct section; cbn [collect skills_lines experience_lines education_lines other_lines].
  - rewrite <- !app_assoc. apply Permutation_app_head. line_to_the_end.
  - rewrite <- !app_assoc. do 2 apply Permutation_app_head. line_to_the_end.
  - rewrite <- !app_assoc. do 3 apply Permutation_app_head. line_to_the_end.
  - rewrite <- !app_assoc. reflexivity.
Qed.

Lemma scan_lines_collects :
  forall lines current_section c,
    Permutation (collected_lines (scan_lines lines current_section c))
      (collected_lines c ++ filter kept_line (map str_strip lines)).
Proof.
  induction lines as [|line lines IH]; intros current_section c; cbn [scan_lines map filter].
  - rewrite app_nil_r. reflexivity.
  - unfold kept_line at 1, is_header, Processor.is_empty.
    destruct (String.eqb (str_strip line) EmptyString); cbn [negb andb]; [apply IH|].
    destruct (header_of section_patterns (str_lower (str_strip line))); cbn [negb];
      [apply IH|].
    eapply Permutation_trans; [apply IH|].
    change (str_strip line :: filter kept_line (map str_strip lines))
      with ([str_strip line] ++ filter kept_line (map str_strip lines)).
    rewrite app_assoc. apply Permutation_app_tail, collect_adds_the_line.
Qed.

(** The loop over the lines files every line once: the lines of the four
    sections together are the stripped lines of the text that are not empty
    and hold no section header.  No such line is lost, none is filed twice,
    and no header or empty line is filed. *)
Theorem scan_lines_files_every_line_once :
  forall lines,
    Permutation (collected_lines (scan_lines lines Other nothing_collected))
      (filter kept_line (map str_strip lines)).
Proof.
  intros lines. exact (scan_lines_collects lines Other nothing_collected).
Qed.

Lemma extract_sections_of_one_line_witness :
  extract_sections "Jane Doe, Python developer, Acme 2019-2024"
  = if Processor.is_empty (str_strip "Jane Doe, Python developer, Acme 2019-2024")
       || is_header (str_strip "Jane Doe, Python developer, Acme 2019-2024")
    then no_sections
    else {| skills := if contains_any skill_keywords
                           (str_lower (str_strip "Jane Doe, Python developer, Acme 2019-2024"))
                      then str_strip "Jane Doe, Python developer, Acme 2019-2024"
                      else EmptyString;
            experience := EmptyString;
            education := if contains_any education_keywords
                              (str_lower (str_strip "Jane Doe, Python developer, Acme 2019-2024"))
                         then str_strip "Jane Doe, Python developer, Acme 2019-2024"
                         else EmptyString;
            other := str_strip "Jane Doe, Python developer, Acme 2019-2024" |}.
Proof.
  apply (extract_sections_of_one_line "Jane Doe, Python developer, Acme 2019-2024").
  cbn. repeat split; discriminate.
Defined.

End SectionFacts.

(** ** Section headers *)

Module HeaderFacts.
Import Py Text Regex Processor TextNotions TextFacts SplitFacts SpaceFacts SectionFacts.

(** A match that starts after [pre] is found by the search. *)
Lemma search_from_app :
  forall r pre rest prev,
    matches r (last_char prev pre) rest (fun _ _ => true) = true ->
    search_from r prev (pre +++ rest) = true.
Proof.
  induction pre as [|c pre IH]; intros rest prev H.
  - cbn [String.append]. cbn [last_char] in H.
    destruct rest; cbn [search_from]; rewrite H; reflexivity.
  - cbn [String.append search_from]. rewrite (IH rest (Some c) H). apply orb_true_r.
Qed.

Lemma header_of_found :
  forall patterns line section rs r,
    In (section, rs) patterns -> In r rs -> search r line = true ->
    header_of patterns line <> None.
Proof.
  induction patterns as [|[section' rs'] patterns IH]; intros line section rs r Hin Hr Hs.
  - destruct Hin.
  - cbn [header_of]. destruct (existsb (fun r0 => search r0 line) rs') eqn:Hex; [discriminate|].
    destruct Hin as [Heq|Hin].
    + inversion Heq; subst.
      assert (Htrue : existsb (fun r0 => search r0 line) rs = true)
        by (apply existsb_exists; exists r; split; assumption).
      congruence.
    + exact (IH line section rs r Hin Hr Hs).
Qed.

Lemma word_boundaries :
  forall pre post,
    ends_word_free pre = true -> starts_word_free post = true ->
    word_before (last_char None pre) = false /\ word_after post = false.
Proof.
  unfold ends_word_free, starts_word_free. intros pre post Hpre Hpost.
  split; apply negb_true_iff; assumption.
Qed.

Lemma skills_is_a_header :
  forall pre post,
    ends_word_free pre = true -> starts_word_free post = true ->
    search (header [Maybe (Cat (Lit "technical") Spaces); Lit "skills"])
      (pre +++ "skills" +++ post) = true.
Proof.
  intros pre post Hpre Hpost. destruct (word_boundaries pre post Hpre Hpost) as [Hb Ha].
  apply search_from_app. cbn [header chain app matches].
  cbn [word_after String.append]. rewrite Hb.
  replace (is_word "s") with true by reflexivity. cbn [xorb andb].
  apply orb_true_iff. right.
  cbn [read_literal Ascii.eqb Bool.eqb String.append]. cbn [word_before].
  replace (is_word "s") with true by reflexivity. rewrite Ha. reflexivity.
Qed.

Lemma experience_is_a_header :
  forall pre post,
    ends_word_free pre = true -> starts_word_free post = true ->
    search (header [Lit "experience"]) (pre +++ "experience" +++ post) = true.
Proof.
  intros pre post Hpre Hpost. destruct (word_boundaries pre post Hpre Hpost) as [Hb Ha].
  apply search_from_app. cbn [header chain app matches].
  cbn [word_after String.append]. rewrite Hb.
  replace (is_word "e") with true by reflexivity. cbn [xorb andb].
  cbn [read_literal Ascii.eqb Bool.eqb String.append]. cbn [word_before].
  replace (is_word "e") with true by reflexivity. rewrite Ha. reflexivity.
Qed.

Lemma education_is_a_header :
  forall pre post,
    ends_word_free pre = true -> starts_word_free post = true ->
    search (header [Lit "education"]) (pre +++ "education" +++ post) = true.
Proof.
  intros pre post Hpre Hpost. destruct (word_boundaries pre post Hpre Hpost) as [Hb Ha].
  apply search_from_app. cbn [header chain app matches].
  cbn [word_after String.append]. rewrite Hb.
  replace (is_word "e") with true by reflexivity. cbn [xorb andb].
  cbn [read_literal Ascii.eqb Bool.eqb String.append]. cbn [word_before].
  replace (is_word "n") with true by reflexivity. rewrite Ha. reflexivity.
Qed.

Lemma section_word_header :
  forall word pre post,
    In word section_words ->
    ends_word_free pre = true -> starts_word_free post = true ->
    header_of section_patterns (pre +++ word +++ post) <> None.
Proof.
  intros word pre post Hword Hpre Hpost.
  destruct Hword as [<-|[<-|[<-|[]]]].
  - apply (header_of_found section_patterns _ Skills skills_patterns
             (header [Maybe (Cat (Lit "technical") Spaces); Lit "skills"])).
    + left. reflexivity.
    + left. reflexivity.
    + apply skills_is_a_header; assumption.
  - apply (header_of_found section_patterns _ Experience experience_patterns
             (header [Lit "experience"])).
    + right. left. reflexivity.
    + do 6 right. left. reflexivity.
    + apply experience_is_a_header; assumption.
  - apply (header_of_found section_patterns _ Education education_patterns
             (header [Lit "education"])).
    + do 2 right. left. reflexivity.
    + do 4 right. left. reflexivity.
    + apply education_is_a_header; assumption.
Qed.

(** A line that holds one of the words [skills], [experience] and
    [education] as a word of its own is read as a section header, wherever
    the word stands in the line. *)
Theorem section_word_makes_a_header :
  forall word pre post,
    In word section_words ->
    ends_word_free pre = true -> starts_word_free post = true ->
    header_of section_patterns (pre +++ word +++ post) <> None.
Proof.
  intros word pre post Hword Hpre Hpost.
  exact (section_word_header word pre post Hword Hpre Hpost).
Qed.

Lemma section_word_makes_a_header_witness :
  header_of section_patterns
    ("ten years of " +++ "experience" +++ " in data engineering") <> None.
Proof.
  apply (section_word_makes_a_header "experience" "ten years of " " in data engineering").
  - right. left. reflexivity.
  - reflexivity.
  - reflexivity.
Defined.

End HeaderFacts.

(** ** [core/cv_processor.py]: reading a PDF *)

Module PdfFacts.
Import Py Text Processor TextNotions TextFacts SpaceFacts Documents.

Section Libraries.

Variable pdf_pages : string -> outcome (list (outcome string)).
Variable pdfminer_extract_text : string -> outcome string.

Lemma pdf_result_not_empty :
  forall text error_messages result,
    pdf_result text error_messages = Returned result -> result <> EmptyString.
Proof.
  intros text error_messages result H. unfold pdf_result, Processor.is_empty in H.
  destruct (String.eqb_spec text EmptyString) as [|Hne]; [discriminate|].
  inversion H; subst. exact Hne.
Qed.

(** [extract_text_from_pdf] never returns the empty string: it returns a
    text with a character, or it raises. *)
Theorem extract_text_from_pdf_is_never_empty :
  forall file_path text,
    extract_text_from_pdf pdf_pages pdfminer_extract_text file_path = Returned text ->
    text <> EmptyString.
Proof.
  intros file_path text H. unfold extract_text_from_pdf in H.
  destruct (match pdf_pages file_path with
            | Returned pages => read_pages EmptyString pages
            | Raised e => (EmptyString, Some e)
            end) as [read failure].
  destruct (match failure with
            | Some _ => false
            | None => 100 <? String.length (str_strip read)
            end) eqn:Henough.
  - inversion H; subst. destruct failure; [discriminate|].
    intros ->. cbn in Henough. discriminate.
  - destruct (pdfminer_extract_text file_path) as [mined|e].
    + destruct (0 <? String.length (str_strip mined)) eqn:Hmined.
      * inversion H; subst. intros ->. cbn in Hmined. discriminate.
      * exact (pdf_result_not_empty _ _ _ H).
    + exact (pdf_result_not_empty _ _ _ H).
Qed.

Lemma read_pages_until_failure :
  forall pages text e rest,
    read_pages text (map Returned pages ++ Raised e :: rest)
    = (text +++ pages_text pages, Some e).
Proof.
  induction pages as [|page pages IH]; intros text e rest; cbn [map app read_pages pages_text].
  - rewrite append_empty. reflexivity.
  - rewrite IH, !append_assoc. reflexivity.
Qed.

Lemma append_char_not_empty :
  forall s c t, Processor.is_empty (s +++ String c t) = false.
Proof.
  intros [|d s] c t; reflexivity.
Qed.

(** When [PyPDF2] fails on a page and [pdfminer] fails too, the text of the
    pages read before the failure is returned, each page followed by a
    newline; the failure is raised, with the messages of both libraries,
    only when no page was read. *)
Theorem extract_text_from_pdf_keeps_the_pages_read :
  forall file_path pages e rest e',
    pdf_pages file_path = Returned (map Returned pages ++ Raised e :: rest) ->
    pdfminer_extract_text file_path = Raised e' ->
    extract_text_from_pdf pdf_pages pdfminer_extract_text file_path
    = match pages with
      | [] =>
          Raised (Exception ("Failed to extract text from PDF using multiple methods: "
                               +++ "PyPDF2 extraction failed: " +++ raised_str e
                               +++ ", " +++ "pdfminer extraction failed: " +++ raised_str e'))
      | _ => Returned (pages_text pages)
      end.
Proof.
  intros file_path pages e rest e' Hpages Hmined.
  unfold extract_text_from_pdf. rewrite Hpages, Hmined, read_pages_until_failure.
  cbn [String.append app]. unfold pdf_result.
  destruct pages as [|page pages].
  - cbn [pages_text Processor.is_empty String.eqb str_join]. reflexivity.
  - cbn [pages_text]. rewrite append_char_not_empty. reflexivity.
Qed.

Lemma read_pages_to_the_end :
  forall pages text, read_pages text (map Returned pages) = (text +++ pages_text pages, None).
Proof.
  induction pages as [|page pages IH]; intros text; cbn [map read_pages pages_text].
  - rewrite append_empty. reflexivity.
  - rewrite IH, !append_assoc. reflexivity.
Qed.

(** When [PyPDF2] reads every page and the text has more than 100
    characters between its first and its last character that is not
    whitespace, this text is returned, whatever [pdfminer] would return or
    raise. *)
Theorem extract_text_from_pdf_keeps_a_long_text :
  forall file_path pages,
    pdf_pages file_path = Returned (map Returned pages) ->
    100 < String.length (str_strip (pages_text pages)) ->
    extract_text_from_pdf pdf_pages pdfminer_extract_text file_path
    = Returned (pages_text pages).
Proof.
  intros file_path pages Hpages Hlong.
  unfold extract_text_from_pdf. rewrite Hpages, read_pages_to_the_end.
  cbn [String.append]. apply Nat.ltb_lt in Hlong. rewrite Hlong. reflexivity.
Qed.

End Libraries.

Lemma extract_text_from_pdf_keeps_a_long_text_witness :
  extract_text_from_pdf long_page failing_pdfminer "cv.pdf"
  = Returned (pages_text [long_page_text]).
Proof.
  apply (extract_text_from_pdf_keeps_a_long_text long_page failing_pdfminer "cv.pdf"
           [long_page_text]).
  - reflexivity.
  - vm_compute. lia.
Defined.

Lemma extract_text_from_pdf_is_never_empty_witness :
  pages_text ["Jane Doe"; "Python developer"] <> EmptyString.
Proof.
  apply (extract_text_from_pdf_is_never_empty two_pages failing_pdfminer "cv.pdf").
  reflexivity.
Defined.

Lemma extract_text_from_pdf_keeps_the_pages_read_witness :
  extract_text_from_pdf broken_second_page failing_pdfminer "cv.pdf"
  = Returned (pages_text ["Jane Doe"]).
Proof.
  apply (extract_text_from_pdf_keeps_the_pages_read broken_second_page failing_pdfminer
           "cv.pdf" ["Jane Doe"] (Exception "bad xref") [] (Exception "no pages"));
    reflexivity.
Defined.

End PdfFacts.

(** ** [core/cv_processor.py]: processing a CV *)

Module ProcessFacts.
Import Py Text OsPath Regex Processor TextNotions TextFacts SplitFacts SpaceFacts.
Import PreprocessFacts SectionFacts HeaderFacts Documents.

Section Libraries.

Variable pdf_pages : string -> outcome (list (outcome string)).
Variable pdfminer_extract_text : string -> outcome string.
Variable docx_document : string -> outcome document.
Variable read_text : string -> encoding -> outcome string.
Variable path_exists : string -> bool.

Local Abbreviation process :=
  (process_cv pdf_pages pdfminer_extract_text docx_document read_text path_exists).

Lemma process_cv_filename : forall file_path, doc_filename (process file_path) = basename file_path.
Proof.
  intros file_path. unfold process_cv.
  destruct (path_exists file_path); cbn [negb]; [|reflexivity].
  destruct (extract_text pdf_pages pdfminer_extract_text docx_document read_text file_path)
    as [text|e]; cbn [and_then]; [|reflexivity].
  destruct (Processor.is_empty text || (String.length (str_strip text) =? 0)); [reflexivity|].
  destruct (preprocess_cv_text text); reflexivity.
Qed.

(** A CV without error is the preprocessed text and its sections. *)
Lemma process_cv_text :
  forall file_path processed,
    doc_full_text (process file_path) = Some processed ->
    lacks newline processed
    /\ every plain_char processed
    /\ doc_error (process file_path) = None
    /\ doc_sections (process file_path) = Some (extract_sections processed).
Proof.
  intros file_path processed. unfold process_cv.
  destruct (path_exists file_path); cbn [negb]; [|discriminate].
  destruct (extract_text pdf_pages pdfminer_extract_text docx_document read_text file_path)
    as [text|e]; cbn [and_then]; [|discriminate].
  destruct (Processor.is_empty text || (String.length (str_strip text) =? 0)); [discriminate|].
  destruct (preprocess_cv_text text) as [processed'|e] eqn:Hpre; cbn [and_then]; [|discriminate].
  cbn [doc_full_text doc_error doc_sections]. intros H. inversion H; subst.
  destruct (preprocess_one_line text) as [_ Hline].
  destruct (Hline processed Hpre) as [Hplain Hnl].
  repeat split; assumption.
Qed.

Lemma process_cv_error_or_text :
  forall file_path,
    doc_error (process file_path) = None ->
    exists processed, doc_full_text (process file_path) = Some processed.
Proof.
  intros file_path. unfold process_cv.
  destruct (path_exists file_path); cbn [negb]; [|discriminate].
  destruct (extract_text pdf_pages pdfminer_extract_text docx_document read_text file_path)
    as [text|e]; cbn [and_then]; [|discriminate].
  destruct (Processor.is_empty text || (String.length (str_strip text) =? 0)); [discriminate|].
  destruct (preprocess_cv_text text) as [processed|e]; cbn [and_then]; [|discriminate].
  intros _. exists processed. reflexivity.
Qed.

(** The text [process_cv] keeps of a CV is a single line, so its sections
    are those of one line: the section [experience] is empty for every CV,
    and the sections [skills] and [education] are empty or the whole text
    again. *)
Theorem process_cv_finds_no_experience :
  forall file_path,
    doc_error (process file_path) = None ->
    exists processed found,
      doc_full_text (process file_path) = Some processed
      /\ lacks newline processed
      /\ doc_sections (process file_path) = Some found
      /\ experience found = EmptyString
      /\ (skills found = EmptyString \/ skills found = other found)
      /\ (education found = EmptyString \/ education found = other found).
Proof.
  intros file_path Herr.
  destruct (process_cv_error_or_text file_path Herr) as [processed Htext].
  destruct (process_cv_text file_path processed Htext) as [Hnl [_ [_ Hsec]]].
  exists processed, (extract_sections processed).
  split; [exact Htext|]. split; [exact Hnl|]. split; [exact Hsec|].
  rewrite (one_line_sections processed Hnl).
  destruct (Processor.is_empty (str_strip processed) || is_header (str_strip processed)).
  - cbn. repeat split; left; reflexivity.
  - cbn [experience skills education other]. split; [reflexivity|].
    split.
    + destruct (contains_any skill_keywords (str_lower (str_strip processed)));
        [right|left]; reflexivity.
    + destruct (contains_any education_keywords (str_lower (str_strip processed)));
        [right|left]; reflexivity.
Qed.

(** A CV whose text holds one of the words [skills], [experience] and
    [education] as a word of its own, in any case, has four empty
    sections: its single line is read as a section header and dropped. *)
Theorem process_cv_drops_a_text_with_a_section_word :
  forall file_path processed word pre post,
    doc_full_text (process file_path) = Some processed ->
    In word section_words ->
    str_lower (str_strip processed) = pre +++ word +++ post ->
    ends_word_free pre = true -> starts_word_free post = true ->
    doc_sections (process file_path) = Some no_sections.
Proof.
  intros file_path processed word pre post Htext Hword Hline Hpre Hpost.
  destruct (process_cv_text file_path processed Htext) as [Hnl [_ [_ Hsec]]].
  rewrite Hsec, (one_line_sections processed Hnl). unfold is_header. rewrite Hline.
  pose proof (section_word_header word pre post Hword Hpre Hpost) as Hheader.
  destruct (header_of section_patterns (pre +++ word +++ post)); [|contradiction].
  rewrite orb_true_r. reflexivity.
Qed.

(** The outcomes of [process_cv]: a missing file, an exception of the
    extraction and a blank text give the three errors, and every other file
    gives its words joined by spaces, without the characters that are not
    printable, and the sections of this line.  [preprocess_cv_text] never
    raises here: the check before it has excluded the blank text. *)
Theorem process_cv_outcomes :
  forall file_path,
    process file_path
    = if negb (path_exists file_path)
      then failed_cv file_path ("File does not exist: " +++ file_path)
      else
        match extract_text pdf_pages pdfminer_extract_text docx_document read_text file_path with
        | Raised e =>
            failed_cv file_path
              ("Error processing CV " +++ file_path +++ ": " +++ raised_str e)
        | Returned text =>
            if blank text
            then failed_cv file_path ("No text could be extracted from " +++ file_path)
            else
              {| doc_filename := basename file_path; doc_error := None;
                 doc_full_text :=
                   Some (str_filter (fun c => is_printable c || is_space c)
                           (str_join " " (str_split_ws text)));
                 doc_sections :=
                   Some (extract_sections
                           (str_filter (fun c => is_printable c || is_space c)
                              (str_join " " (str_split_ws text)))) |}
        end.
Proof.
  intros file_path. unfold process_cv.
  destruct (path_exists file_path); cbn [negb]; [|reflexivity].
  destruct (extract_text pdf_pages pdfminer_extract_text docx_document read_text file_path)
    as [text|e]; cbn [and_then]; [|reflexivity].
  rewrite is_empty_or_blank.
  destruct (preprocess_one_line text) as [Hpre _]. rewrite Hpre.
  destruct (blank text); reflexivity.
Qed.

End Libraries.

Lemma process_cv_finds_no_experience_witness :
  exists processed found,
    doc_full_text (process_cv two_pages failing_pdfminer no_document read_jane_doe every_path
                     "/tmp/tmpk3x_9qab.txt") = Some processed
    /\ lacks newline processed
    /\ doc_sections (process_cv two_pages failing_pdfminer no_document read_jane_doe every_path
                       "/tmp/tmpk3x_9qab.txt") = Some found
    /\ experience found = EmptyString
    /\ (skills found = EmptyString \/ skills found = other found)
    /\ (education found = EmptyString \/ education found = other found).
Proof.
  apply (process_cv_finds_no_experience two_pages failing_pdfminer no_document read_jane_doe
           every_path "/tmp/tmpk3x_9qab.txt").
  reflexivity.
Defined.

Lemma process_cv_drops_a_text_with_a_section_word_witness :
  doc_sections (process_cv two_pages failing_pdfminer no_document read_jane_doe every_path
                  "/tmp/tmpk3x_9qab.txt") = Some no_sections.
Proof.
  apply (process_cv_drops_a_text_with_a_section_word two_pages failing_pdfminer no_document
           read_jane_doe every_path "/tmp/tmpk3x_9qab.txt"
           "Jane Doe Work Experience Acme, 2019-2024" "experience"
           "jane doe work " " acme, 2019-2024").
  - reflexivity.
  - right. left. reflexivity.
  - reflexivity.
  - reflexivity.
  - reflexivity.
Defined.

End ProcessFacts.

(** ** [core/cv_processor.py]: the lines of skills *)

Module SkillsFacts.
Import Py Text Processor TextNotions TextFacts SplitFacts SpaceFacts.

Lemma split_piece :
  forall a piece rest cur,
    lacks a piece ->
    split_scan (String a EmptyString) 0 cur (piece +++ String a rest)
    = (str_rev cur +++ piece) :: split_scan (String a EmptyString) 0 EmptyString rest.
Proof.
  induction piece as [|c piece IH]; intros rest cur H; cbn [String.append split_scan].
  - rewrite prefix_char, Ascii.eqb_refl, append_empty. reflexivity.
  - destruct H as [Hc Hpiece]. rewrite prefix_char.
    destruct (Ascii.eqb_spec a c) as [->|_]; [contradiction|].
    rewrite (IH rest _ Hpiece), rev_cons. reflexivity.
Qed.

(** Lines without newline, joined and split again, are the same lines. *)
Lemma split_join_lines :
  forall lines,
    Forall (lacks newline) lines -> lines <> [] ->
    str_split (join_lines lines) (String newline EmptyString) = lines.
Proof.
  unfold str_split.
  induction lines as [|line lines IH]; intros Hlines Hne; [contradiction|].
  inversion Hlines as [|line' lines' Hline Hrest]; subst.
  cbn [join_lines]. destruct lines as [|line2 lines].
  - rewrite (split_char_absent newline line EmptyString Hline). reflexivity.
  - rewrite (split_piece newline line _ EmptyString Hline).
    rewrite (IH Hrest) by discriminate. reflexivity.
Qed.

(** The pieces of a split do not hold the separator. *)
Lemma split_pieces_lack :
  forall a s cur,
    lacks a cur -> Forall (lacks a) (split_scan (String a EmptyString) 0 cur s).
Proof.
  induction s as [|c s IH]; intros cur Hcur; cbn [split_scan].
  - constructor; [|constructor]. apply lacks_rev_append. split; [exact Hcur|exact I].
  - rewrite prefix_char. cbn [String.length Nat.sub].
    destruct (Ascii.eqb_spec a c) as [->|Hne].
    + constructor; [|apply IH; exact I].
      apply lacks_rev_append. split; [exact Hcur|exact I].
    + apply IH. cbn [lacks]. split; [congruence|exact Hcur].
Qed.

Lemma keyword_lines_lack_newline :
  forall keywords text, Forall (lacks newline) (keyword_lines keywords text).
Proof.
  intros keywords text. unfold keyword_lines, str_split.
  apply Forall_forall. intros line Hin. apply filter_In in Hin. destruct Hin as [Hin _].
  pose proof (split_pieces_lack newline text EmptyString I) as Hall.
  rewrite Forall_forall in Hall. exact (Hall line Hin).
Qed.

Lemma filter_twice :
  forall (A : Type) (f : A -> bool) (l : list A), filter f (filter f l) = filter f l.
Proof.
  intros A f. induction l as [|x l IH]; [reflexivity|].
  cbn [filter]. destruct (f x) eqn:Hx; [|exact IH].
  cbn [filter]. rewrite Hx, IH. reflexivity.
Qed.

Lemma extract_skills_lines :
  forall text,
    _extract_skills_from_text text = join_lines (keyword_lines skill_keywords text).
Proof.
  intros text. unfold _extract_skills_from_text.
  destruct (keyword_lines skill_keywords text); reflexivity.
Qed.

(** The lines of the text that [_extract_skills_from_text] returns are the
    lines it kept. *)
Lemma extract_skills_kept_lines :
  forall text,
    keyword_lines skill_keywords text <> [] ->
    str_split (_extract_skills_from_text text) (String newline EmptyString)
    = keyword_lines skill_keywords text.
Proof.
  intros text Hne. rewrite extract_skills_lines.
  apply split_join_lines; [apply keyword_lines_lack_newline|exact Hne].
Qed.

(** Extracting the skills of the extracted skills changes nothing. *)
Theorem extract_skills_is_idempotent :
  forall text,
    _extract_skills_from_text (_extract_skills_from_text text) = _extract_skills_from_text text.
Proof.
  intros text.
  destruct (keyword_lines skill_keywords text) as [|line lines] eqn:Hlines.
  - rewrite (extract_skills_lines text), Hlines. reflexivity.
  - rewrite (extract_skills_lines (_extract_skills_from_text text)).
    unfold keyword_lines at 1. rewrite extract_skills_kept_lines by (rewrite Hlines; discriminate).
    unfold keyword_lines. rewrite filter_twice. symmetry. apply extract_skills_lines.
Qed.

(** The letter [c] is one of the keywords: every line of the text that
    holds a [c], small or capital, is returned as a line of skills. *)
Theorem a_line_with_the_letter_c_is_a_skill :
  forall text line,
    In line (str_split text (String newline EmptyString)) ->
    str_contains "c" (str_lower line) = true ->
    In line (str_split (_extract_skills_from_text text) (String newline EmptyString)).
Proof.
  intros text line Hin Hc.
  assert (Hkept : In line (keyword_lines skill_keywords text)).
  { unfold keyword_lines. apply filter_In. split; [exact Hin|].
    unfold contains_any. apply existsb_exists. exists "c". split; [|exact Hc].
    unfold skill_keywords. do 51 right. left. reflexivity. }
  rewrite extract_skills_kept_lines; [exact Hkept|].
  intros Hnone. rewrite Hnone in Hkept. destruct Hkept.
Qed.

Lemma a_line_with_the_letter_c_is_a_skill_witness :
  In "Hobbies: Chess" (str_split (_extract_skills_from_text Documents.hobbies_text)
                         (String newline EmptyString)).
Proof.
  apply (a_line_with_the_letter_c_is_a_skill Documents.hobbies_text "Hobbies: Chess").
  - right. left. reflexivity.
  - reflexivity.
Defined.

End SkillsFacts.

(** ** [core/openai_client.py]: the retry loop on a callee that raises *)

Module BackoffFacts.
Import Py Client TextNotions Documents.

Section Loop.

Variable generate : string -> string -> M response.
Variable float_pow : float -> Z -> result float.
Variable system_prompt user_prompt : string.
Variable max_retries : Z.
Variable backoff_factor : float.
Variable delay : Z -> float.
Variable e : exn.

Hypothesis generate_raises :
  forall w, generate system_prompt user_prompt w
            = (Raise e, log_request system_prompt user_prompt w).

Hypothesis delays :
  forall k, (1 <= k < max_retries)%Z ->
    float_pow backoff_factor k = Ok (delay k) /\ sleepable (delay k) = true.

Lemma time_sleep_sleepable :
  forall seconds w, sleepable seconds = true -> time_sleep seconds w = (Ok tt, log_sleep seconds w).
Proof.
  intros seconds w H. unfold sleepable in H. apply andb_prop in H. destruct H as [Hneg Hnan].
  unfold time_sleep. apply negb_true_iff in Hneg. rewrite Hneg, Hnan. reflexivity.
Qed.

Lemma retry_loop_raising :
  forall n retry w,
    (0 <= retry)%Z -> Z.of_nat n = (max_retries - retry - 1)%Z ->
    retry_loop generate float_pow (Z.to_nat (max_retries - retry))
      system_prompt user_prompt max_retries backoff_factor retry w
    = (Ok (Some (error_response (exn_str e))),
       {| requests := requests w ++ repeat (system_prompt, user_prompt) (S n);
          sleeps := sleeps w
                    ++ map (fun k => delay (Z.of_nat k)) (seq (Z.to_nat retry + 1) n) |}).
Proof.
  induction n as [|n IH]; intros retry w Hretry Hn.
  - rewrite RetryFacts.retry_loop_fuel by lia.
    unfold mtry, mbind. rewrite generate_raises.
    replace (retry + 1 >=? max_retries)%Z with true by (symmetry; apply Z.geb_le; lia).
    unfold ret, log_request. cbn [repeat seq map requests sleeps].
    rewrite app_nil_r. reflexivity.
  - rewrite RetryFacts.retry_loop_fuel by lia.
    unfold mtry. unfold mbind at 1. rewrite generate_raises.
    replace (retry + 1 >=? max_retries)%Z with false
      by (rewrite Z.geb_leb; symmetry; apply Z.leb_gt; lia).
    destruct (delays (retry + 1)%Z ltac:(lia)) as [Hpow Hsleep].
    unfold mbind at 1, lift. rewrite Hpow.
    unfold mbind at 1. rewrite (time_sleep_sleepable _ _ Hsleep).
    rewrite (IH (retry + 1)%Z) by lia.
    unfold log_sleep, log_request. cbn [requests sleeps].
    f_equal. f_equal.
    + rewrite <- app_assoc. reflexivity.
    + rewrite <- app_assoc. cbn [seq map app].
      replace (Z.of_nat (Z.to_nat retry + 1)) with (retry + 1)%Z by lia.
      replace (Z.to_nat (retry + 1) + 1) with (S (Z.to_nat retry + 1)) by lia.
      reflexivity.
Qed.

End Loop.

(** When the callee raises on every call, [process_with_retry] calls it
    [max_retries] times, sleeps [backoff_factor ** k] seconds after the
    failure number [k] for every [k] below [max_retries], and returns the
    error of the last failure: it does not raise. *)
Theorem process_with_retry_backs_off :
  forall generate float_pow system_prompt user_prompt max_retries backoff_factor delay e w,
    (0 < max_retries)%Z ->
    (forall w', generate system_prompt user_prompt w'
                = (Raise e, log_request system_prompt user_prompt w')) ->
    (forall k, (1 <= k < max_retries)%Z ->
       float_pow backoff_factor k = Ok (delay k) /\ sleepable (delay k) = true) ->
    process_with_retry generate float_pow system_prompt user_prompt max_retries backoff_factor w
    = (Ok (Some (error_response (exn_str e))),
       {| requests := requests w
                      ++ repeat (system_prompt, user_prompt) (Z.to_nat max_retries);
          sleeps := sleeps w
                    ++ map (fun k => delay (Z.of_nat k)) (seq 1 (Z.to_nat max_retries - 1)) |}).
Proof.
  intros generate float_pow system_prompt user_prompt max_retries backoff_factor delay e w
    Hmax Hraises Hdelays.
  unfold process_with_retry.
  replace (Z.to_nat max_retries) with (Z.to_nat (max_retries - 0)) at 1 by (f_equal; lia).
  rewrite (retry_loop_raising generate float_pow system_prompt user_prompt max_retries
             backoff_factor delay e Hraises Hdelays (Z.to_nat max_retries - 1) 0 w) by lia.
  replace (S (Z.to_nat max_retries - 1)) with (Z.to_nat max_retries) by lia.
  reflexivity.
Qed.

Lemma process_with_retry_backs_off_witness :
  process_with_retry raising_call Samples.pow_by_mul "system" "user" 3 2 initial_world
  = (Ok (Some (error_response "Connection error.")),
     {| requests := [("system", "user"); ("system", "user"); ("system", "user")];
        sleeps := [2%float; 4%float] |}).
Proof.
  apply (process_with_retry_backs_off raising_call Samples.pow_by_mul "system" "user" 3 2
           two_to_the (APIError "Connection error.") initial_world).
  - lia.
  - intros w'. reflexivity.
  - intros k Hk. assert (Hcases : k = 1%Z \/ k = 2%Z) by lia.
    destruct Hcases as [->| ->]; split; reflexivity.
Defined.

End BackoffFacts.

(** ** [core/ranking_engine.py]: the paths of one evaluation *)

Module EvaluationFacts.
Import Py Client Config Engine Strategies Notions TextNotions Documents.

(** [format_prompt] returns no prompt: for every job description and every
    CV it raises the [KeyError] of the brace that opens the JSON example of
    the template. *)
Theorem format_prompt_always_raises :
  forall job_description cv,
    format_prompt job_description cv = Raise (KeyError template_stray_field).
Proof.
  intros job_description cv. apply EngineFacts.format_prompt_raises.
Qed.

Section Scoring.

Variable weights : Config.weights.

Lemma get_score_of_a_value_that_is_no_dict :
  forall v, is_dict v = false -> exists e, py_get v "score" (PyInt 0) = Raise e.
Proof.
  intros v H. destruct v; try discriminate H; eexists; reflexivity.
Qed.

(** A category that is present but is no object (a number, a string, a
    list, [null]) makes the weighted score 0.0, whatever the other two
    categories hold: the exception is caught and the score of the whole
    evaluation is lost. *)
Theorem weighted_score_of_a_flat_category_is_zero :
  forall d category v,
    In category categories ->
    dict_lookup d category = Some v ->
    is_dict v = false ->
    calculate_weighted_score weights (PyDict d) = 0%float.
Proof.
  intros d category v Hin Hlookup Hflat.
  destruct (get_score_of_a_value_that_is_no_dict v Hflat) as [e He].
  unfold calculate_weighted_score. cbn [py_get].
  destruct Hin as [<-|[<-|[<-|[]]]]; rewrite ?Hlookup.
  - cbn [bind]. rewrite He. reflexivity.
  - cbn [bind].
    destruct (py_get match dict_lookup d "skills" with
                     | Some x => x
                     | None => PyDict []
                     end "score" (PyInt 0)) as [s|]; cbn [bind]; [|reflexivity].
    destruct (py_mul_float s (w_skills weights)); cbn [bind]; [|reflexivity].
    rewrite He. reflexivity.
  - cbn [bind].
    destruct (py_get match dict_lookup d "skills" with
                     | Some x => x
                     | None => PyDict []
                     end "score" (PyInt 0)) as [s|]; cbn [bind]; [|reflexivity].
    destruct (py_mul_float s (w_skills weights)); cbn [bind]; [|reflexivity].
    destruct (py_get match dict_lookup d "experience" with
                     | Some x => x
                     | None => PyDict []
                     end "score" (PyInt 0)) as [x|]; cbn [bind]; [|reflexivity].
    destruct (py_mul_float x (w_experience weights)); cbn [bind]; [|reflexivity].
    rewrite He. reflexivity.
Qed.

End Scoring.

Lemma weighted_score_of_a_flat_category_is_zero_witness :
  calculate_weighted_score WEIGHTS flat_experience = 0%float.
Proof.
  apply (weighted_score_of_a_flat_category_is_zero WEIGHTS
           [("skills", PyDict [("score", PyInt 8)]);
            ("experience", PyInt 6);
            ("education", PyDict [("score", PyInt 10)])]
           "experience" (PyInt 6)).
  - right. left. reflexivity.
  - reflexivity.
  - reflexivity.
Defined.

Section Evaluation.

Variable create : nat -> string -> string -> api_outcome.
Variable float_pow : float -> Z -> result float.
Variable json_loads : string -> result pyval.
Variable value_str : pyval -> string.
Variable weights : Config.weights.
Variable build_prompt : string -> cv_data -> result string.

(** Under a prompt builder that returns a prompt, a reply that a strategy
    of the parser accepts, and that has no [error] key, gives a result
    without error or warning: the accepted value as evaluation, its
    weighted score, and the raw reply, after one request. *)
Theorem evaluate_cv_with_accepted_reply :
  forall job_description cv w prompt content others u v,
    cv_error cv = None ->
    text_of cv <> EmptyString ->
    build_prompt job_description cv = Ok prompt ->
    create (List.length (requests w)) SYSTEM_PROMPT prompt
      = ApiReturns {| choices := Some content :: others; usage := Some u |} ->
    content <> EmptyString ->
    first_verdict (strategies json_loads) content = Accept v ->
    py_in "error" v = Ok false ->
    evaluate_cv_with create float_pow json_loads value_str weights build_prompt
      job_description cv w
    = (Ok {| filename := name_of cv; error := None;
             score := Float (calculate_weighted_score weights v);
             evaluation := v; warning := None;
             raw_response := Some content; rank := None |},
       log_request SYSTEM_PROMPT prompt w).
Proof.
  intros job_description cv w prompt content others u v Herr Htext Hprompt Hapi Hne Hv Hin.
  unfold evaluate_cv_with, mtry, evaluate_cv_body.
  rewrite Herr, (ParserFacts.eqb_empty_false _ Htext).
  unfold mbind at 1, lift at 1. rewrite Hprompt.
  unfold mbind at 1.
  assert (Hgen : generate_evaluation create SYSTEM_PROMPT prompt w
                 = (Ok (content_response content u), log_request SYSTEM_PROMPT prompt w)).
  { unfold generate_evaluation. rewrite Hapi. reflexivity. }
  rewrite (RetryFacts.process_with_retry_first_call _ float_pow _ _ 3 2 _ _ _ eq_refl Hgen).
  cbn [resp_error content_response content_of resp_content].
  unfold mbind at 1, lift at 1.
  rewrite (ParserFacts.parse_nonempty json_loads (content_response content u) eq_refl Hne).
  cbn [content_of resp_content content_response]. rewrite Hv.
  unfold mbind at 1, lift at 1. rewrite Hin.
  reflexivity.
Qed.

End Evaluation.

Lemma evaluate_cv_with_accepted_reply_witness :
  evaluate_cv_with (Samples.replying_api Samples.fenced_full_reply) Samples.pow_by_mul
    Json.loads Samples.opaque_str WEIGHTS Samples.plain_prompt
    "Engineer" Samples.good_cv initial_world
  = (Ok {| filename := "a.pdf"; error := None;
           score := Float (calculate_weighted_score WEIGHTS Samples.full_record);
           evaluation := Samples.full_record; warning := None;
           raw_response := Some Samples.fenced_full_reply; rank := None |},
     log_request SYSTEM_PROMPT ("Engineer" +++ Samples.nl +++ "Python developer") initial_world).
Proof.
  apply (evaluate_cv_with_accepted_reply (Samples.replying_api Samples.fenced_full_reply)
           Samples.pow_by_mul Json.loads Samples.opaque_str WEIGHTS Samples.plain_prompt
           "Engineer" Samples.good_cv initial_world
           ("Engineer" +++ Samples.nl +++ "Python developer")
           Samples.fenced_full_reply [] (PyDict []) Samples.full_record).
  - reflexivity.
  - discriminate.
  - reflexivity.
  - reflexivity.
  - discriminate.
  - vm_compute. reflexivity.
  - reflexivity.
Defined.

Lemma evaluate_cv_with_api_failure_witness :
  evaluate_cv_with Samples.failing_api Samples.pow_by_mul Json.loads Samples.opaque_str
    WEIGHTS Samples.plain_prompt "Engineer" Samples.good_cv initial_world
  = (Ok (failed_result "a.pdf" "API error: Connection error." (Some EmptyString)),
     log_request SYSTEM_PROMPT ("Engineer" +++ Samples.nl +++ "Python developer") initial_world).
Proof.
  apply (EngineFacts.evaluate_cv_with_api_failure Samples.failing_api Samples.pow_by_mul
           Json.loads Samples.opaque_str WEIGHTS Samples.plain_prompt
           "Engineer" Samples.good_cv initial_world
           ("Engineer" +++ Samples.nl +++ "Python developer") (APIError "Connection error.")).
  - reflexivity.
  - discriminate.
  - reflexivity.
  - reflexivity.
Defined.

Lemma evaluate_cv_with_unparseable_reply_witness :
  exists r,
    evaluate_cv_with (Samples.replying_api Samples.garbage_reply) Samples.pow_by_mul
      Json.loads Samples.opaque_str WEIGHTS Samples.plain_prompt
      "Engineer" Samples.good_cv initial_world
    = (Ok r,
       log_request SYSTEM_PROMPT ("Engineer" +++ Samples.nl +++ "Python developer")
         initial_world)
    /\ status_of r = Warning /\ evaluation r = zero_evaluation.
Proof.
  eexists. split.
  - apply (EngineFacts.evaluate_cv_with_unparseable_reply
             (Samples.replying_api Samples.garbage_reply) Samples.pow_by_mul
             Json.loads Samples.opaque_str WEIGHTS Samples.plain_prompt
             "Engineer" Samples.good_cv initial_world
             ("Engineer" +++ Samples.nl +++ "Python developer")
             Samples.garbage_reply [] (PyDict [])).
    + reflexivity.
    + discriminate.
    + reflexivity.
    + reflexivity.
    + discriminate.
    + vm_compute. reflexivity.
  - split; reflexivity.
Defined.

End EvaluationFacts.

(** ** From the files to the ranking *)

Module PipelineFacts.
Import Py Client Config Engine Notions Text OsPath Processor TextNotions Documents.

Lemma insert_by_score_zero :
  forall x l,
    score x = Int 0 -> Forall (fun r => score r = Int 0) l -> insert_by_score x l = x :: l.
Proof.
  intros x [|y l] Hx Hl; [reflexivity|].
  inversion Hl as [|y' l' Hy _]; subst. cbn [insert_by_score]. rewrite Hx, Hy. reflexivity.
Qed.

Lemma sort_by_score_zero :
  forall l, Forall (fun r => score r = Int 0) l -> sort_by_score l = l.
Proof.
  induction l as [|x l IH]; intros H; [reflexivity|].
  inversion H as [|x' l' Hx Hl]; subst. cbn [sort_by_score].
  rewrite (IH Hl). apply insert_by_score_zero; assumption.
Qed.

(** Results that all have the score 0 are sorted as they are. *)
Lemma sorted_by_score_desc_zero :
  forall l, Forall (fun r => score r = Int 0) l -> sorted_by_score_desc l = l.
Proof.
  intros l H. unfold sorted_by_score_desc.
  rewrite sort_by_score_zero by (apply Forall_rev, H). apply rev_involutive.
Qed.

Lemma assign_ranks_at :
  forall l first i r,
    nth_error l i = Some r ->
    nth_error (assign_ranks first l) i = Some (set_rank r (Z.of_nat (first + i) + 1)).
Proof.
  induction l as [|x l IH]; intros first i r H.
  - destruct i; discriminate H.
  - destruct i as [|i]; cbn [nth_error assign_ranks] in *.
    + inversion H; subst. rewrite Nat.add_0_r. reflexivity.
    + rewrite (IH (S first) i r H).
      replace (first + S i) with (S first + i) by lia. reflexivity.
Qed.

Lemma Forall2_at :
  forall (A B : Type) (P : A -> B -> Prop) l l' i x,
    Forall2 P l l' -> nth_error l i = Some x -> exists y, nth_error l' i = Some y /\ P x y.
Proof.
  intros A B P l l' i x H. revert i. induction H as [|a b l l' Hab _ IH]; intros i Hi.
  - destruct i; discriminate Hi.
  - destruct i as [|i]; cbn [nth_error] in *.
    + inversion Hi; subst. exists b. split; [reflexivity|exact Hab].
    + exact (IH i Hi).
Qed.

Section Engine.

Variable create : nat -> string -> string -> api_outcome.
Variable float_pow : float -> Z -> result float.
Variable json_loads : string -> result pyval.
Variable value_str : pyval -> string.
Variable weights : Config.weights.

Lemma batch_process_fails :
  forall job_description cv_batch w,
    exists rs,
      batch_process_with create float_pow json_loads value_str weights format_prompt
        job_description cv_batch w = (Ok rs, w)
      /\ Forall2 failed_for cv_batch rs.
Proof.
  intros job_description cv_batch w. induction cv_batch as [|cv rest IH].
  - exists []. split; [reflexivity|constructor].
  - destruct (EngineFacts.evaluate_cv_fails create float_pow json_loads value_str weights
                job_description cv w) as [msg Hcv].
    destruct IH as [rs [Hrs Hfailed]].
    exists (failed_result (name_of cv) msg None :: rs). split.
    + cbn [batch_process_with]. unfold mbind, ret.
      unfold evaluate_cv in Hcv. rewrite Hcv, Hrs. reflexivity.
    + constructor; [exists msg; reflexivity|exact Hfailed].
Qed.

(** [rank_cvs] sends no request and never sleeps: since no prompt can be
    built, every CV fails with score 0, and the ranking is the input order,
    the CV number [i] at the rank [i + 1]. *)
Theorem rank_cvs_fails_every_cv_in_input_order :
  forall job_description cv_list w,
    exists ranked,
      rank_cvs create float_pow json_loads value_str weights job_description cv_list w
        = (Ok ranked, w)
      /\ List.length ranked = List.length cv_list
      /\ (forall i cv,
            nth_error cv_list i = Some cv ->
            exists msg,
              nth_error ranked i
              = Some (set_rank (failed_result (name_of cv) msg None) (Z.of_nat i + 1))).
Proof.
  intros job_description cv_list w.
  destruct (batch_process_fails job_description cv_list w) as [rs [Hrs Hfailed]].
  assert (Hzero : Forall (fun r => score r = Int 0) rs).
  { clear Hrs. induction Hfailed as [|cv r cvs rs' [msg Hr] _ IH]; constructor.
    - subst r. reflexivity.
    - exact IH. }
  exists (assign_ranks 0 rs). split; [|split].
  - unfold rank_cvs, rank_cvs_with, mbind, ret.
    rewrite EngineFacts.batches_evaluate_in_input_order, Hrs.
    rewrite (sorted_by_score_desc_zero rs Hzero). reflexivity.
  - rewrite EngineFacts.assign_ranks_length. symmetry. exact (Forall2_length Hfailed).
  - intros i cv Hcv.
    destruct (Forall2_at _ _ _ _ _ i cv Hfailed Hcv) as [r [Hr [msg Hmsg]]].
    exists msg. rewrite (assign_ranks_at rs 0 i r Hr). subst r. reflexivity.
Qed.

End Engine.

Section Files.

Variable create : nat -> string -> string -> api_outcome.
Variable float_pow : float -> Z -> result float.
Variable json_loads : string -> result pyval.
Variable value_str : pyval -> string.
Variable weights : Config.weights.
Variable build_prompt : string -> cv_data -> result string.
Variable pdf_pages : string -> outcome (list (outcome string)).
Variable pdfminer_extract_text : string -> outcome string.
Variable docx_document : string -> outcome document.
Variable read_text : string -> encoding -> outcome string.
Variable path_exists : string -> bool.

Local Abbreviation process :=
  (process_cv pdf_pages pdfminer_extract_text docx_document read_text path_exists).

(** A file that [process_cv] could not read is not sent to the endpoint:
    whatever the prompt builder, its evaluation is the failure that carries
    the message of [process_cv] under the base name of the file. *)
Theorem unreadable_file_is_evaluated_as_failed :
  forall job_description file_path msg w,
    doc_error (process file_path) = Some msg ->
    evaluate_cv_with create float_pow json_loads value_str weights build_prompt
      job_description (as_cv_data (process file_path)) w
    = (Ok (failed_result (basename file_path) msg None), w).
Proof.
  intros job_description file_path msg w Herr.
  unfold evaluate_cv_with, mtry, evaluate_cv_body, as_cv_data. cbn [cv_error].
  rewrite Herr. unfold ret, name_of. cbn [cv_filename].
  rewrite ProcessFacts.process_cv_filename. reflexivity.
Qed.

(** Processing the files and ranking the outcome gives one result for each
    file, under the base name of its path, whatever the files hold and
    whatever the endpoint answers. *)
Theorem every_file_gets_a_ranked_result :
  forall job_description file_paths w,
    exists ranked w',
      rank_cvs_with create float_pow json_loads value_str weights build_prompt job_description
        (map as_cv_data
           (process_batch pdf_pages pdfminer_extract_text docx_document read_text path_exists
              file_paths)) w
      = (Ok ranked, w')
      /\ List.length ranked = List.length file_paths
      /\ Permutation (map filename ranked) (map basename file_paths).
Proof.
  intros job_description file_paths w.
  destruct (EngineFacts.rank_cvs_with_one_result_per_document create float_pow json_loads
              value_str weights build_prompt job_description
              (map as_cv_data
                 (process_batch pdf_pages pdfminer_extract_text docx_document read_text
                    path_exists file_paths)) w)
    as [ranked [w' [Hrank [Hlen Hperm]]]].
  exists ranked, w'. split; [exact Hrank|]. split.
  - rewrite Hlen. unfold process_batch. rewrite !length_map. reflexivity.
  - replace (map basename file_paths)
      with (map name_of
              (map as_cv_data
                 (process_batch pdf_pages pdfminer_extract_text docx_document read_text
                    path_exists file_paths))); [exact Hperm|].
    unfold process_batch. rewrite !map_map. apply map_ext. intros file_path.
    unfold name_of, as_cv_data. cbn [cv_filename].
    apply ProcessFacts.process_cv_filename.
Qed.

End Files.

Lemma unreadable_file_is_evaluated_as_failed_witness :
  evaluate_cv_with (Samples.replying_api Samples.fenced_full_reply) Samples.pow_by_mul
    Json.loads Samples.opaque_str WEIGHTS Samples.plain_prompt "Engineer"
    (as_cv_data (process_cv two_pages failing_pdfminer no_document read_jane_doe no_path
                   "/tmp/tmpk3x_9qab.pdf")) initial_world
  = (Ok (failed_result (basename "/tmp/tmpk3x_9qab.pdf")
           "File does not exist: /tmp/tmpk3x_9qab.pdf" None),
     initial_world).
Proof.
  apply (unreadable_file_is_evaluated_as_failed (Samples.replying_api Samples.fenced_full_reply)
           Samples.pow_by_mul Json.loads Samples.opaque_str WEIGHTS Samples.plain_prompt
           two_pages failing_pdfminer no_document read_jane_doe no_path
           "Engineer" "/tmp/tmpk3x_9qab.pdf" "File does not exist: /tmp/tmpk3x_9qab.pdf"
           initial_world).
  reflexivity.
Defined.

End PipelineFacts.
